(** * Brokerage back office: balance aggregation, trade bookkeeping,
      notification gateway, approval workflow, login and settings.

    A shallow embedding of the controllers and models of the repository.
    JavaScript numbers are idealised as exact rationals ([Q], compared with
    [==]); MongoDB collections are finite lists of documents in natural
    order, except the settings collection, which its unique [key] index
    makes a finite map.  Calls that leave the process (the two mail
    providers, the random generator, the token signer, [bcrypt]) are
    oracles supplied by the environment. *)

From Stdlib Require Import ZArith QArith Qround Qabs List Bool Lia Lqa Permutation.
From Stdlib Require Import String Ascii.
From stdpp Require Import gmap strings.

Import ListNotations.
#[local] Open Scope string_scope.
#[local] Open Scope Z_scope.
#[local] Open Scope Q_scope.

(** ** JavaScript primitives used by the controllers *)

Module Js.

(** Truthiness of a number: [0] (and [NaN], absent from the model) is falsy. *)
Definition truthy_num (q : Q) : bool := negb (Qeq_bool q 0).

(** Truthiness of a possibly [undefined] number. *)
Definition truthy_opt_num (o : option Q) : bool :=
  match o with
  | Some q => truthy_num q
  | None => false
  end.

(** Truthiness of a string: only the empty string is falsy. *)
Definition truthy_str (s : string) : bool := negb (String.eqb s "").

(** Truthiness of a possibly [undefined] string. *)
Definition truthy_opt_str (o : option string) : bool :=
  match o with
  | Some s => truthy_str s
  | None => false
  end.

(** [a || b] on possibly [undefined] strings. *)
Definition or_str (a b : option string) : option string :=
  if truthy_opt_str a then a else b.

(** [x || 0] on a possibly [undefined] number. *)
Definition or_zero (o : option Q) : Q :=
  match o with
  | Some q => if truthy_num q then q else 0
  | None => 0
  end.

(** [x || null] on a possibly [undefined] number. *)
Definition or_null (o : option Q) : option Q :=
  if truthy_opt_num o then o else None.

Definition upper_ascii (c : ascii) : ascii :=
  let n := nat_of_ascii c in
  if (Nat.leb 97 n && Nat.leb n 122)%bool then ascii_of_nat (n - 32) else c.

(** [String.prototype.toUpperCase], on the ASCII letters. *)
Fixpoint toUpperCase (s : string) : string :=
  match s with
  | EmptyString => EmptyString
  | String c s' => String (upper_ascii c) (toUpperCase s')
  end.

Definition is_space (c : ascii) : bool :=
  let n := nat_of_ascii c in
  (Nat.eqb n 32 || (Nat.leb 9 n && Nat.leb n 13))%bool.

Fixpoint trimStart (s : string) : string :=
  match s with
  | EmptyString => EmptyString
  | String c s' => if is_space c then trimStart s' else s
  end.

Fixpoint trimEnd (s : string) : string :=
  match s with
  | EmptyString => EmptyString
  | String c s' =>
      match trimEnd s' with
      | EmptyString => if is_space c then EmptyString else String c EmptyString
      | t => String c t
      end
  end.

(** [String.prototype.trim], on the ASCII white space. *)
Definition trim (s : string) : string := trimEnd (trimStart s).

End Js.

(** ** Documents of the two ledgers and of the user collection *)

Module Model.

Inductive TxType : Type := DEPOSIT | WITHDRAWAL.

(** The statuses of a cash transaction, with [REJECTED], which
    [updateTransactionStatus] accepts as well. *)
Inductive TxStatus : Type := PENDING | COMPLETED | REJECTED | FAILED | CANCELLED.

(** Modelled from the spec: the transaction schema
    ([models/transaction.model.js] is not among the sources): a cash
    transaction belongs to a user and has a type, an amount and a status. *)
Record Transaction : Type := mkTransaction {
  tx_userId : string;
  tx_type : TxType;
  tx_status : TxStatus;
  amount : Q
}.

Inductive OrderStatus : Type := OPEN | CLOSED.

Record PriceRange : Type := mkPriceRange {
  low : option Q;
  high : option Q;
  mid : Q
}.

(** Modelled from the spec: the order schema
    ([models/orderhistory.model.js] is not among the sources), with the
    fields the controllers read and write.  [type] is kept as the stored
    string; [sellPrice], [currentPrice] and [profitLoss] are absent
    ([None]) until a write sets them. *)
Record Order : Type := mkOrder {
  order_id : string;
  userId : string;
  symbol : string;
  type : string;
  quantity : Q;
  buyPrice : Q;
  sellPrice : option Q;
  tradeAmount : Q;
  priceRange : option PriceRange;
  currentPrice : option Q;
  profitLoss : option Q;
  status : OrderStatus;
  tradeDate : Z;
  updatedAt : Z
}.

(** The fields of a user document the handlers use, after the schema in
    [create-test-user.js] ([generatedPassword] is the plain text the
    handlers keep next to the hash). *)
Record User : Type := mkUser {
  user_id : string;
  name : string;
  email : string;
  password : string;
  generatedPassword : string;
  isVerified : bool;
  role : string;
  lastLogin : option Z
}.

Definition TxType_eqb (a b : TxType) : bool :=
  match a, b with
  | DEPOSIT, DEPOSIT | WITHDRAWAL, WITHDRAWAL => true
  | _, _ => false
  end.

Definition TxStatus_eqb (a b : TxStatus) : bool :=
  match a, b with
  | PENDING, PENDING | COMPLETED, COMPLETED | REJECTED, REJECTED
  | FAILED, FAILED | CANCELLED, CANCELLED => true
  | _, _ => false
  end.

Definition OrderStatus_eqb (a b : OrderStatus) : bool :=
  match a, b with
  | OPEN, OPEN | CLOSED, CLOSED => true
  | _, _ => false
  end.

(** What [findById] can do: raise a cast error on a malformed id, find
    nothing, or return the document. *)
Inductive Lookup (A : Type) : Type :=
| CastError
| Missing
| Found (doc : A).
Arguments CastError {A}.
Arguments Missing {A}.
Arguments Found {A} doc.

End Model.

(** ** Balance aggregation: the user dashboard and the admin per-user view *)

Module Ledger.
Import Model.

(** [$sum] of an accumulator over the documents of a group. *)
Definition sum_field {A : Type} (f : A -> Q) (docs : list A) : Q :=
  fold_left Qplus (map f docs) 0.

(** [{ $group: { _id: null, total: { $sum: f } } }]: one result document
    for a non-empty input, none for an empty one. *)
Definition group_total {A : Type} (f : A -> Q) (docs : list A) : list Q :=
  match docs with
  | [] => []
  | _ :: _ => [sum_field f docs]
  end.

(** [Model.aggregate([{ $match }, { $group }])] *)
Definition aggregate_total {A : Type} (matches : A -> bool) (f : A -> Q)
    (coll : list A) : list Q :=
  group_total f (List.filter matches coll).

(** [agg[0]?.total || 0] *)
Definition first_total (agg : list Q) : Q := Js.or_zero (hd_error agg).

Definition match_tx (uid : string) (ty : TxType) (st : TxStatus)
    (t : Transaction) : bool :=
  (String.eqb (tx_userId t) uid && TxType_eqb (tx_type t) ty
   && TxStatus_eqb (tx_status t) st)%bool.

Definition match_order (uid : string) (st : OrderStatus) (o : Order) : bool :=
  (String.eqb (userId o) uid && OrderStatus_eqb (status o) st)%bool.

(** [{ $ifNull: ['$profitLoss', 0] }] *)
Definition ifNull_profitLoss (o : Order) : Q :=
  match profitLoss o with
  | Some p => p
  | None => 0
  end.

(** The JSON body both balance reads answer with. *)
Record BalanceInfo : Type := mkBalanceInfo {
  accountBalance : Q;
  totalDeposit : Q;
  totalWithdrawals : Q;
  profitLoss_total : Q;
  orderInvestment : Q
}.

(** [getUserDashboardData] (the [res.json] payload of the successful path;
    the collections always answer in this model). *)
Definition getUserDashboardData (uid : string) (txs : list Transaction)
    (orders : list Order) : BalanceInfo :=
  let totalDeposit := aggregate_total (match_tx uid DEPOSIT COMPLETED) amount txs in
  let deposit := first_total totalDeposit in
  let totalWithdrawals :=
    aggregate_total (match_tx uid WITHDRAWAL COMPLETED) amount txs in
  let withdrawals := first_total totalWithdrawals in
  let baseBalance := deposit - withdrawals in
  let orderInvestmentAgg :=
    aggregate_total (match_order uid OPEN) tradeAmount orders in
  let orderInvestment := first_total orderInvestmentAgg in
  let profitLossAgg :=
    aggregate_total (match_order uid CLOSED) ifNull_profitLoss orders in
  let profitLoss := first_total profitLossAgg in
  let accountBalance := baseBalance - orderInvestment + profitLoss in
  mkBalanceInfo accountBalance deposit withdrawals profitLoss orderInvestment.

(** [$cond: [{ $and: [{ $eq: ['$type', ty] }, { $eq: ['$status',
    'COMPLETED'] }] }, '$amount', 0]] *)
Definition cond_amount (ty : TxType) (t : Transaction) : Q :=
  if (TxType_eqb (tx_type t) ty && TxStatus_eqb (tx_status t) COMPLETED)%bool
  then amount t else 0.

(** The two-accumulator [$group] of the admin view. *)
Definition group_balanceData (docs : list Transaction) : list (Q * Q) :=
  match docs with
  | [] => []
  | _ :: _ => [(sum_field (cond_amount DEPOSIT) docs,
                sum_field (cond_amount WITHDRAWAL) docs)]
  end.

Definition group_orderStats (docs : list Order) : list (Q * Q) :=
  match docs with
  | [] => []
  | _ :: _ => [(sum_field tradeAmount docs, sum_field ifNull_profitLoss docs)]
  end.

(** The [balanceInfo] block of [getUserbyId]: starts from zeros and is
    filled from the two aggregations over all the user's documents. *)
Definition getUserbyId_balanceInfo (uid : string) (txs : list Transaction)
    (orders : list Order) : BalanceInfo :=
  let balanceInfo := mkBalanceInfo 0 0 0 0 0 in
  let balanceData :=
    group_balanceData (List.filter (fun t => String.eqb (tx_userId t) uid) txs) in
  let balanceInfo :=
    match balanceData with
    | data :: _ =>
        mkBalanceInfo
          (Js.or_zero (Some (fst data)) - Js.or_zero (Some (snd data)))
          (Js.or_zero (Some (fst data)))
          (Js.or_zero (Some (snd data)))
          (profitLoss_total balanceInfo) (orderInvestment balanceInfo)
    | [] => balanceInfo
    end in
  let orderStats :=
    group_orderStats (List.filter (fun o => String.eqb (userId o) uid) orders) in
  match orderStats with
  | stats :: _ =>
      mkBalanceInfo (accountBalance balanceInfo) (totalDeposit balanceInfo)
        (totalWithdrawals balanceInfo)
        (Js.or_zero (Some (snd stats))) (Js.or_zero (Some (fst stats)))
  | [] => balanceInfo
  end.

End Ledger.

(** ** The balance formula as the specification writes it *)

Module BalanceSpec.
Import Model.

#[global] Instance TxType_eq_dec : EqDecision TxType.
Proof. solve_decision. Defined.

#[global] Instance TxStatus_eq_dec : EqDecision TxStatus.
Proof. solve_decision. Defined.

#[global] Instance OrderStatus_eq_dec : EqDecision OrderStatus.
Proof. solve_decision. Defined.

(** [sum(f | P)]: the sum of [f] over the records that satisfy [P]. *)
Fixpoint sum_over {A : Type} (P : A -> Prop) `{!forall x, Decision (P x)}
    (f : A -> Q) (l : list A) : Q :=
  match l with
  | [] => 0
  | x :: rest => (if decide (P x) then f x else 0) + sum_over P f rest
  end.

(** A COMPLETED transaction of the user, of the given type. *)
Definition completed (uid : string) (ty : TxType) (t : Transaction) : Prop :=
  tx_userId t = uid /\ tx_type t = ty /\ tx_status t = COMPLETED.

(** An order of the user in the given status. *)
Definition in_status (uid : string) (st : OrderStatus) (o : Order) : Prop :=
  userId o = uid /\ status o = st.

(** [profitLoss], a missing one counting as [0]. *)
Definition realized (o : Order) : Q :=
  match profitLoss o with
  | Some p => p
  | None => 0
  end.

(** [baseBalance - sum(tradeAmount | OPEN) + sum(profitLoss | CLOSED)] *)
Definition spec_accountBalance (uid : string) (txs : list Transaction)
    (orders : list Order) : Q :=
  (sum_over (completed uid DEPOSIT) amount txs
   - sum_over (completed uid WITHDRAWAL) amount txs)
  - sum_over (in_status uid OPEN) tradeAmount orders
  + sum_over (in_status uid CLOSED) realized orders.

End BalanceSpec.

(** ** Trade bookkeeping ([createTrade], [updateTrade]) *)

Module Trades.
Import Model.

(** The fields [createTrade] reads from [req.body]; numbers arrive as JSON
    numbers, so [parseFloat] leaves them as they are. *)
Record CreateBody : Type := mkCreateBody {
  cb_userId : option string;
  cb_symbol : option string;
  cb_tradeType : option string;
  cb_quantity : option Q;
  cb_buyPrice : option Q;
  cb_priceRangeLow : option Q;
  cb_priceRangeHigh : option Q
}.

(** [req.body] of [updateTrade], which the handler mutates in place and
    then hands whole to [findByIdAndUpdate]: a field for every path of the
    order document ([updatedAt] apart, which the handler overrides), and
    the two range bounds; every field may be absent. *)
Record UpdateData : Type := mkUpdateData {
  u_symbol : option string;
  u_type : option string;
  u_quantity : option Q;
  u_buyPrice : option Q;
  u_sellPrice : option Q;
  u_tradeAmount : option Q;
  u_profitLoss : option Q;
  u_status : option OrderStatus;
  u_currentPrice : option Q;
  u_priceRangeLow : option Q;
  u_priceRangeHigh : option Q;
  u_priceRange : option PriceRange;
  u__id : option string;
  u_userId : option string;
  u_tradeDate : option Z
}.

(** The answer of a trade handler: the status code and, on success, the
    stored document. *)
Record TradeResponse : Type := mkTradeResponse {
  tr_status : Z;
  tr_data : option Order
}.

Definition isSome {A : Type} (o : option A) : bool :=
  match o with
  | Some _ => true
  | None => false
  end.

Definition or_else {A : Type} (o : option A) (d : A) : A :=
  match o with
  | Some a => a
  | None => d
  end.

Fixpoint find_order (id : string) (coll : list Order) : option Order :=
  match coll with
  | [] => None
  | o :: rest => if String.eqb (order_id o) id then Some o else find_order id rest
  end.

Fixpoint replace_order (id : string) (o' : Order) (coll : list Order)
  : list Order :=
  match coll with
  | [] => []
  | o :: rest =>
      if String.eqb (order_id o) id then o' :: rest
      else o :: replace_order id o' rest
  end.

(** [$set] of every field the update document carries; [_id] is the one
    path the store never changes. *)
Definition apply_update (o : Order) (u : UpdateData) (now : Z) : Order :=
  mkOrder (order_id o) (or_else (u_userId u) (userId o))
    (or_else (u_symbol u) (symbol o))
    (or_else (u_type u) (type o))
    (or_else (u_quantity u) (quantity o))
    (or_else (u_buyPrice u) (buyPrice o))
    (match u_sellPrice u with Some p => Some p | None => sellPrice o end)
    (or_else (u_tradeAmount u) (tradeAmount o))
    (match u_priceRange u with Some r => Some r | None => priceRange o end)
    (match u_currentPrice u with Some p => Some p | None => currentPrice o end)
    (match u_profitLoss u with Some p => Some p | None => profitLoss o end)
    (or_else (u_status u) (status o))
    (or_else (u_tradeDate u) (tradeDate o)) now.

(** The update document names an [_id] other than the document's own:
    the store refuses to modify the immutable [_id]. *)
Definition modifies_id (o : Order) (u : UpdateData) : bool :=
  match u__id u with
  | Some i => negb (String.eqb i (order_id o))
  | None => false
  end.

(** A body that carries no field. *)
Definition empty_update : UpdateData :=
  mkUpdateData None None None None None None None None None None None None
    None None None.

Section Handlers.

(** [mongoose.Types.ObjectId.isValid], and the casts and validators of the
    order schema, which is not among the sources: run on [save] and, with
    [runValidators: true], on the update document. *)
Variable ObjectId_isValid : string -> bool.
Variable validate_order : Order -> bool.
Variable validate_update : UpdateData -> bool.

(** [OrderHistory.findById] *)
Definition findById (id : string) (coll : list Order) : Lookup Order :=
  if ObjectId_isValid id then
    match find_order id coll with
    | Some o => Found o
    | None => Missing
    end
  else CastError.

(** [createTrade]; [newId] and [now] are the [_id] the driver assigns and
    [new Date()]. *)
Definition createTrade (newId : string) (now : Z) (body : CreateBody)
    (coll : list Order) : TradeResponse * list Order :=
  match cb_userId body, cb_symbol body, cb_tradeType body,
        cb_quantity body, cb_buyPrice body with
  | Some uid, Some sym, Some tradeType, Some qty, Some buy =>
      if negb (Js.truthy_str uid && Js.truthy_str sym && Js.truthy_str tradeType
               && Js.truthy_num qty && Js.truthy_num buy)%bool
      then (mkTradeResponse 400 None, coll)
      else
        let tradeAmount := qty * buy in
        let buyPriceNum := buy in
        let priceRange :=
          mkPriceRange (Js.or_null (cb_priceRangeLow body))
            (Js.or_null (cb_priceRangeHigh body)) buyPriceNum in
        let currentPrice :=
          if (isSome (low priceRange) && isSome (high priceRange))%bool
          then Some buyPriceNum else None in
        let newTrade :=
          mkOrder newId uid sym (Js.toUpperCase tradeType) qty buyPriceNum None
            tradeAmount (Some priceRange) currentPrice None OPEN now now in
        if validate_order newTrade
        then (mkTradeResponse 201 (Some newTrade), (coll ++ [newTrade])%list)
        else (mkTradeResponse 500 None, coll)
  | _, _, _, _, _ => (mkTradeResponse 400 None, coll)
  end.

(** The price-range block of [updateTrade] (run when a bound is supplied):
    builds [priceRange], may set [currentPrice], and deletes the two
    individual bounds. *)
Definition update_priceRange (existingTrade : Order) (updateData : UpdateData)
  : UpdateData :=
  let buyPrice :=
    if Js.truthy_opt_num (u_buyPrice updateData)
    then or_else (u_buyPrice updateData) 0 else Model.buyPrice existingTrade in
  let existing_low :=
    match priceRange existingTrade with
    | Some r => Js.or_null (low r)
    | None => None
    end in
  let existing_high :=
    match priceRange existingTrade with
    | Some r => Js.or_null (high r)
    | None => None
    end in
  let range :=
    mkPriceRange
      (match u_priceRangeLow updateData with Some l => Some l | None => existing_low end)
      (match u_priceRangeHigh updateData with Some h => Some h | None => existing_high end)
      buyPrice in
  let is_open (s : option OrderStatus) :=
    match s with Some OPEN => true | _ => false end in
  let currentPrice :=
    if (isSome (low range) && isSome (high range)
        && (is_open (u_status updateData)
            || OrderStatus_eqb (status existingTrade) OPEN))%bool
    then Some buyPrice else u_currentPrice updateData in
  mkUpdateData (u_symbol updateData) (u_type updateData)
    (u_quantity updateData) (u_buyPrice updateData) (u_sellPrice updateData)
    (u_tradeAmount updateData) (u_profitLoss updateData) (u_status updateData)
    currentPrice None None (Some range) (u__id updateData)
    (u_userId updateData) (u_tradeDate updateData).

(** "Calculate profit/loss if sellPrice is provided" *)
Definition update_profitLoss (updateData : UpdateData) : UpdateData :=
  match u_sellPrice updateData, u_buyPrice updateData, u_quantity updateData with
  | Some sell, Some buy, Some qty =>
      if (Js.truthy_num sell && Js.truthy_num buy && Js.truthy_num qty)%bool then
        let buyTotal := buy * qty in
        let sellTotal := sell * qty in
        let is_long :=
          match u_type updateData with
          | Some t => String.eqb (Js.toUpperCase t) "LONG"
          | None => false
          end in
        let pl := if is_long then sellTotal - buyTotal else buyTotal - sellTotal in
        mkUpdateData (u_symbol updateData) (u_type updateData)
          (u_quantity updateData) (u_buyPrice updateData)
          (u_sellPrice updateData) (u_tradeAmount updateData) (Some pl)
          (u_status updateData) (u_currentPrice updateData)
          (u_priceRangeLow updateData) (u_priceRangeHigh updateData)
          (u_priceRange updateData) (u__id updateData) (u_userId updateData)
          (u_tradeDate updateData)
      else updateData
  | _, _, _ => updateData
  end.

(** "Update tradeAmount if quantity or buyPrice changed" *)
Definition update_tradeAmount (updateData : UpdateData) : UpdateData :=
  match u_quantity updateData, u_buyPrice updateData with
  | Some qty, Some buy =>
      if (Js.truthy_num qty && Js.truthy_num buy)%bool then
        mkUpdateData (u_symbol updateData) (u_type updateData)
          (u_quantity updateData) (u_buyPrice updateData)
          (u_sellPrice updateData) (Some (qty * buy)) (u_profitLoss updateData)
          (u_status updateData) (u_currentPrice updateData)
          (u_priceRangeLow updateData) (u_priceRangeHigh updateData)
          (u_priceRange updateData) (u__id updateData) (u_userId updateData)
          (u_tradeDate updateData)
      else updateData
  | _, _ => updateData
  end.

(** [OrderHistory.findByIdAndUpdate(tradeId, { ...updateData, updatedAt },
    { new: true, runValidators: true })] and the answer built from it: an
    error thrown by the cast, the validators or the store is answered 500
    by the handler's [catch]. *)
Definition findByIdAndUpdate (tradeId : string) (updateData : UpdateData)
    (now : Z) (coll : list Order) : TradeResponse * list Order :=
  if negb (ObjectId_isValid tradeId) then (mkTradeResponse 500 None, coll)
  else if negb (validate_update updateData) then (mkTradeResponse 500 None, coll)
  else
    match find_order tradeId coll with
    | None => (mkTradeResponse 404 None, coll)
    | Some o =>
        if modifies_id o updateData then (mkTradeResponse 500 None, coll)
        else
          let updatedTrade := apply_update o updateData now in
          (mkTradeResponse 200 (Some updatedTrade),
           replace_order tradeId updatedTrade coll)
    end.

(** [updateTrade] *)
Definition updateTrade (tradeId : string) (now : Z) (updateData : UpdateData)
    (coll : list Order) : TradeResponse * list Order :=
  let finish (updateData : UpdateData) :=
    findByIdAndUpdate tradeId
      (update_tradeAmount (update_profitLoss updateData)) now coll in
  if (isSome (u_priceRangeLow updateData)
      || isSome (u_priceRangeHigh updateData))%bool then
    match findById tradeId coll with
    | CastError => (mkTradeResponse 500 None, coll)
    | Missing => (mkTradeResponse 404 None, coll)
    | Found existingTrade => finish (update_priceRange existingTrade updateData)
    end
  else finish updateData.

End Handlers.

End Trades.

(** ** Notification gateway ([sendEmail], [sendEmailWithRetry]) *)

Module Mail.

(** A thrown [Error]: its message and its [code], when it has one. *)
Record JsError : Type := mkError {
  err_message : string;
  err_code : option string
}.

(** What [sendEmailWithRetry] can throw: an error it caught, or the
    never-assigned [lastError]. *)
Inductive Thrown : Type :=
| ThrowError (e : JsError)
| ThrowUndefined.

(** [mailOptions.to]: absent, one address, or an array of addresses. *)
Inductive Recipients : Type :=
| ToUndefined
| ToString (s : string)
| ToArray (l : list string).

Record MailOptions : Type := mkMailOptions {
  mo_from : option string;
  mo_to : Recipients;
  mo_subject : string;
  mo_text : string
}.

(** [{ provider, id }] *)
Record SendInfo : Type := mkSendInfo {
  provider : string;
  id : option string
}.

(** [process.env] and the outside world: whether the two client
    constructors return, and what the k-th call of each provider does
    (raise, or answer with a message id). *)
Record Env : Type := mkEnv {
  RESEND_API_KEY : option string;
  EMAIL_FROM : option string;
  EMAIL_USER : option string;
  EMAIL_PASS : option string;
  Resend_new : bool;
  createTransport : bool;
  resend_send : nat -> JsError + option string;
  smtp_sendMail : nat -> JsError + string
}.

(** What the gateway does to the outside, in the order it does it. *)
Inductive Event : Type :=
| LogAttempt (attempt maxRetries : nat)
| CallResend
| CallSmtp
| Wait (ms : Z)
| CreateTransporter.

(** The module-level singletons, the number of calls made to each
    provider so far, and the events so far (oldest first). *)
Record Mailer : Type := mkMailer {
  transporterInstance : bool;
  resendClientInstance : bool;
  resendInitAttempted : bool;
  resendCalls : nat;
  smtpCalls : nat;
  events : list Event
}.

Definition initial : Mailer := mkMailer false false false 0 0 [].

Definition emit (e : Event) (m : Mailer) : Mailer :=
  mkMailer (transporterInstance m) (resendClientInstance m)
    (resendInitAttempted m) (resendCalls m) (smtpCalls m)
    (events m ++ [e])%list.

(** Observations on a run of events. *)
Definition is_attempt (e : Event) : bool :=
  match e with LogAttempt _ _ => true | _ => false end.

Definition is_resend (e : Event) : bool :=
  match e with CallResend => true | _ => false end.

Definition is_smtp (e : Event) : bool :=
  match e with CallSmtp => true | _ => false end.

Definition count (p : Event -> bool) (evs : list Event) : nat :=
  List.length (List.filter p evs).

Definition waits (evs : list Event) : list Z :=
  flat_map (fun e => match e with Wait ms => [ms] | _ => [] end) evs.

(** What one call of [sendEmail] does to the outside: no log line of the
    retry loop and no wait, at most one call to each provider, and the
    call counters move with the calls. *)
Definition one_send (m m' : Mailer) (evs : list Event) : Prop :=
  events m' = (events m ++ evs)%list
  /\ count is_attempt evs = 0%nat
  /\ waits evs = []
  /\ (count is_resend evs <= 1)%nat
  /\ (count is_smtp evs <= 1)%nat
  /\ resendCalls m' = (resendCalls m + count is_resend evs)%nat
  /\ smtpCalls m' = (smtpCalls m + count is_smtp evs)%nat.

Definition is_quote (c : ascii) : bool :=
  (Nat.eqb (nat_of_ascii c) 34 || Nat.eqb (nat_of_ascii c) 39)%bool.

Fixpoint strip_last_quote (s : string) : string :=
  match s with
  | EmptyString => EmptyString
  | String c EmptyString => if is_quote c then EmptyString else s
  | String c s' => String c (strip_last_quote s')
  end.

(** [s.trim().replace(/^[QUOTE]|[QUOTE]$/g, EMPTY)], QUOTE being the two
    quote characters. *)
Definition trim_unquote (s : string) : string :=
  match Js.trim s with
  | EmptyString => EmptyString
  | String c rest =>
      if is_quote c then strip_last_quote rest
      else strip_last_quote (String c rest)
  end.

Section Gateway.

Variable env : Env.

(** [createTransporter]: [null] ([false]) without credentials or when
    [nodemailer.createTransport] throws. *)
Definition createTransporter : bool :=
  let emailUser := Js.or_str (EMAIL_USER env) (EMAIL_FROM env) in
  let emailPass := EMAIL_PASS env in
  let emailUser :=
    if Js.truthy_opt_str emailUser then option_map trim_unquote emailUser
    else emailUser in
  let emailPass :=
    if Js.truthy_opt_str emailPass then option_map trim_unquote emailPass
    else emailPass in
  if (negb (Js.truthy_opt_str emailUser) || negb (Js.truthy_opt_str emailPass))%bool
  then false
  else createTransport env.

(** [getTransporter]: lazy creation of the singleton. *)
Definition getTransporter (m : Mailer) : bool * Mailer :=
  if transporterInstance m then (true, m)
  else
    let t := createTransporter in
    (t, emit CreateTransporter
          (mkMailer t (resendClientInstance m) (resendInitAttempted m)
             (resendCalls m) (smtpCalls m) (events m))).

(** [getResendClient]: initialised at most once; without an API key the
    singleton is left as it is, and it is [null] when the constructor
    throws. *)
Definition getResendClient (m : Mailer) : bool * Mailer :=
  if resendInitAttempted m then (resendClientInstance m, m)
  else
    let apiKey := option_map Js.trim (RESEND_API_KEY env) in
    if negb (Js.truthy_opt_str apiKey) then
      (false,
       mkMailer (transporterInstance m) (resendClientInstance m) true
         (resendCalls m) (smtpCalls m) (events m))
    else
      let client := Resend_new env in
      (client,
       mkMailer (transporterInstance m) client true (resendCalls m)
         (smtpCalls m) (events m)).

(** [getDefaultFromAddress] *)
Definition getDefaultFromAddress : string :=
  let fromEnv := option_map Js.trim (EMAIL_FROM env) in
  match fromEnv with
  | Some f =>
      if Js.truthy_str f then f
      else
        match option_map Js.trim (EMAIL_USER env) with
        | Some u => if Js.truthy_str u then u
                    else "Forex Flow <no-reply@forexflowtrade.com>"
        | None => "Forex Flow <no-reply@forexflowtrade.com>"
        end
  | None =>
      match option_map Js.trim (EMAIL_USER env) with
      | Some u => if Js.truthy_str u then u
                  else "Forex Flow <no-reply@forexflowtrade.com>"
      | None => "Forex Flow <no-reply@forexflowtrade.com>"
      end
  end.

(** [normalizeRecipients]: [filter(Boolean)] drops the empty addresses. *)
Definition normalizeRecipients (recipients : Recipients) : list string :=
  match recipients with
  | ToUndefined => []
  | ToString r => List.filter Js.truthy_str [r]
  | ToArray l => List.filter Js.truthy_str l
  end.

(** The SMTP leg of [sendEmail]. *)
Definition send_smtp (m : Mailer) : (JsError + SendInfo) * Mailer :=
  let '(transporter, m) := getTransporter m in
  if negb transporter then
    (inl (mkError
            "Email service not configured. Set RESEND_API_KEY or GoDaddy SMTP credentials."
            None), m)
  else
    let outcome := smtp_sendMail env (smtpCalls m) in
    let m :=
      emit CallSmtp
        (mkMailer (transporterInstance m) (resendClientInstance m)
           (resendInitAttempted m) (resendCalls m) (S (smtpCalls m))
           (events m)) in
    match outcome with
    | inl error => (inl error, m)
    | inr messageId => (inr (mkSendInfo "smtp" (Some messageId)), m)
    end.

(** [sendEmail]: the API provider first, when there is a client; SMTP
    when there is none or when the API call raises. *)
Definition sendEmail (mailOptions : MailOptions) (m : Mailer)
  : (JsError + SendInfo) * Mailer :=
  let recipients := normalizeRecipients (mo_to mailOptions) in
  match recipients with
  | [] => (inl (mkError "Email recipient is required" None), m)
  | _ :: _ =>
      let senderAddress :=
        match option_map Js.trim (mo_from mailOptions) with
        | Some f => if Js.truthy_str f then f else getDefaultFromAddress
        | None => getDefaultFromAddress
        end in
      if negb (Js.truthy_str senderAddress) then
        (inl (mkError
                "Email sender address is not configured. Set EMAIL_FROM or EMAIL_USER."
                None), m)
      else
        let '(resendClient, m) := getResendClient m in
        if resendClient then
          let outcome := resend_send env (resendCalls m) in
          let m :=
            emit CallResend
              (mkMailer (transporterInstance m) (resendClientInstance m)
                 (resendInitAttempted m) (S (resendCalls m)) (smtpCalls m)
                 (events m)) in
          match outcome with
          | inr response_id => (inr (mkSendInfo "resend" response_id), m)
          | inl _ => send_smtp m
          end
        else send_smtp m
  end.

(** The API client is there: [getResendClient] answers with it, now and
    (the singleton being kept) at every later call. *)
Definition api_ready (m : Mailer) : Prop := fst (getResendClient m) = true.

(** [isConnectionError] *)
Definition isConnectionError (error : JsError) : bool :=
  match err_code error with
  | None => false
  | Some code =>
      if Js.truthy_str code then
        existsb (String.eqb code)
          ["ETIMEDOUT"; "ECONNRESET"; "ESOCKET"; "ECONNREFUSED"]
      else false
  end.

(** [Math.min(2000 * Math.pow(2, attempt - 1), 10000)] *)
Definition waitTime (attempt : nat) : Z :=
  Z.min (2000 * 2 ^ (Z.of_nat attempt - 1)) 10000.

(** The [for] loop of [sendEmailWithRetry]; [remaining] is the number of
    iterations left, [maxRetries - attempt + 1]. *)
Fixpoint retry_loop (mailOptions : MailOptions) (maxRetries attempt : nat)
    (remaining : nat) (lastError : Thrown) (m : Mailer)
  : (Thrown + SendInfo) * Mailer :=
  match remaining with
  | O => (inl lastError, m)
  | S remaining' =>
      let m := emit (LogAttempt attempt maxRetries) m in
      match sendEmail mailOptions m with
      | (inr info, m) => (inr info, m)
      | (inl error, m) =>
          if Nat.eqb attempt maxRetries then (inl (ThrowError error), m)
          else
            let m := emit (Wait (waitTime attempt)) m in
            let m :=
              if isConnectionError error then
                mkMailer false (resendClientInstance m) (resendInitAttempted m)
                  (resendCalls m) (smtpCalls m) (events m)
              else m in
            retry_loop mailOptions maxRetries (S attempt) remaining'
              (ThrowError error) m
      end
  end.

(** [sendEmailWithRetry(mailOptions, maxRetries = 3)] *)
Definition sendEmailWithRetry (mailOptions : MailOptions) (maxRetries : nat)
    (m : Mailer) : (Thrown + SendInfo) * Mailer :=
  retry_loop mailOptions maxRetries 1 maxRetries ThrowUndefined m.

End Gateway.

(** What a run of the retry loop starting at [attempt] does to the
    outside when it makes [k] attempts: [k] log lines, the waits of the
    attempts before the last, at most one call to each provider per
    attempt, and the call counters moving with the calls. *)
Definition retry_run (attempt k : nat) (m m' : Mailer) (new : list Event)
  : Prop :=
  events m' = (events m ++ new)%list
  /\ count is_attempt new = k
  /\ waits new = map waitTime (seq attempt (pred k))
  /\ (count is_resend new <= k)%nat
  /\ (count is_smtp new <= k)%nat
  /\ resendCalls m' = (resendCalls m + count is_resend new)%nat
  /\ smtpCalls m' = (smtpCalls m + count is_smtp new)%nat.

(** The events of one [sendEmail]: the API call when one is made, then the
    creation of the transporter when one is made, then the SMTP call when
    one is made. *)
Definition send_events (api create smtp : bool) : list Event :=
  ((if api then [CallResend] else [])
   ++ (if create then [CreateTransporter] else [])
   ++ (if smtp then [CallSmtp] else []))%list.

(** The events of a run of attempts, given the events of the [sendEmail]
    of each: an attempt logs itself first, and the wait of an attempt
    separates it from the next. *)
Fixpoint attempts_trace (attempt maxRetries : nat) (sends : list (list Event))
  : list Event :=
  match sends with
  | [] => []
  | evs :: rest =>
      (LogAttempt attempt maxRetries :: evs
       ++ match rest with
          | [] => []
          | _ :: _ =>
              Wait (waitTime attempt)
              :: attempts_trace (S attempt) maxRetries rest
          end)%list
  end.

(** What the [catch] block of [sendEmailWithRetry] does after a failed
    attempt that is not the last: the wait, then the transporter dropped
    when the error was a connection error. *)
Definition backoff (attempt : nat) (error : JsError) (m : Mailer) : Mailer :=
  let m := emit (Wait (waitTime attempt)) m in
  if isConnectionError error then
    mkMailer false (resendClientInstance m) (resendInitAttempted m)
      (resendCalls m) (smtpCalls m) (events m)
  else m.

End Mail.

(** ** Approval workflow ([userapprove], [userreject]) *)

Module Approval.
Import Model.

(** The JSON answer of the two handlers: [data.isVerified] and
    [data.emailSent] are absent from the 400, 404 and generic 500 answers. *)
Record Response : Type := mkResponse {
  res_status : Z;
  res_message : string;
  res_isVerified : option bool;
  res_emailSent : option bool
}.

(** The user collection, the gateway singletons and the number of
    [Math.random()] calls made so far. *)
Record World : Type := mkWorld {
  users : list User;
  mailer : Mail.Mailer;
  randomCalls : nat
}.

Fixpoint find_user (uid : string) (coll : list User) : option User :=
  match coll with
  | [] => None
  | u :: rest => if String.eqb (user_id u) uid then Some u else find_user uid rest
  end.

Fixpoint replace_user (u' : User) (coll : list User) : list User :=
  match coll with
  | [] => []
  | u :: rest =>
      if String.eqb (user_id u) (user_id u') then u' :: rest
      else u :: replace_user u' rest
  end.

Definition charset : string :=
  "ABCDEFGHIJKLMNOPQRSTUVWXYZabcdefghijklmnopqrstuvwxyz0123456789".

(** [charset.charAt(i)]: the empty string out of range. *)
Definition charAt (i : nat) (s : string) : string :=
  match String.get i s with
  | Some c => String c EmptyString
  | None => EmptyString
  end.

Definition nl : string := String (ascii_of_nat 10) EmptyString.

Section Handlers.

(** The outside of the workflow: the gateway environment,
    [mongoose.Types.ObjectId.isValid], [bcrypt.hash] as the pre-save hook
    calls it, [Math.floor(Math.random() * charset.length)] for the k-th
    draw, and whether [user.save()] goes through. *)
Variable env : Mail.Env.
Variable ObjectId_isValid : string -> bool.
Variable bcrypt_hash : string -> string.
Variable random_index : nat -> nat.
Variable save_ok : bool.

(** [generateRandomPassword(length)]: the loop, from the k-th draw on. *)
Fixpoint generateRandomPassword_from (length : nat) (k : nat)
    (password : string) : string * nat :=
  match length with
  | O => (password, k)
  | S length' =>
      generateRandomPassword_from length' (S k)
        (password ++ charAt (random_index k) charset)
  end.

Definition generateRandomPassword (length : nat) (k : nat) : string * nat :=
  generateRandomPassword_from length k "".

(** The password [userapprove] draws for this request. *)
Definition fresh_password (w : World) : string :=
  fst (generateRandomPassword 12 (randomCalls w)).

(** [User.findById] *)
Definition findById (uid : string) (coll : list User) : Lookup User :=
  if ObjectId_isValid uid then
    match find_user uid coll with
    | Some u => Found u
    | None => Missing
    end
  else CastError.

(** [user.save()] on a loaded document: the pre-save hook hashes the
    password when it was modified, then the stored document is replaced.
    [None] when the write is refused. *)
Definition save (loaded : User) (user : User) (coll : list User)
  : option (list User) :=
  if save_ok then
    let user :=
      if String.eqb (password user) (password loaded) then user
      else mkUser (user_id user) (name user) (email user)
             (bcrypt_hash (password user)) (generatedPassword user)
             (isVerified user) (role user) (lastLogin user) in
    Some (replace_user user coll)
  else None.

(** [req.params.id || req.body.userId || req.query.userId] *)
Definition request_userId (params_id body_userId query_userId : option string)
  : option string :=
  Js.or_str (Js.or_str params_id body_userId) query_userId.

Definition approval_mail (user : User) (newPassword : string)
  : Mail.MailOptions :=
  Mail.mkMailOptions
    (Js.or_str (Mail.EMAIL_FROM env) (Mail.EMAIL_USER env))
    (Mail.ToString (email user))
    "Profile Approved - Your Login Credentials"
    ("Dear " ++ name user ++ "," ++ nl ++ nl
     ++ "Congratulations! Your profile has been approved by our admin team."
     ++ nl ++ nl ++ "Your login credentials are:" ++ nl
     ++ "Email: " ++ email user ++ nl ++ "Password: " ++ newPassword ++ nl ++ nl
     ++ "Please keep your password safe and secure. You can now log in to your account."
     ++ nl ++ nl ++ "Thank you for choosing Forex Flow!").

Definition rejection_mail (user : User) : Mail.MailOptions :=
  Mail.mkMailOptions
    (Js.or_str (Mail.EMAIL_FROM env) (Mail.EMAIL_USER env))
    (Mail.ToString (email user))
    "Profile Verification Rejected"
    ("Dear " ++ name user ++ "," ++ nl ++ nl
     ++ "We regret to inform you that your profile verification request has been rejected by our admin team."
     ++ nl ++ nl
     ++ "If you believe this is an error or would like to resubmit your profile, please contact our support team for assistance."
     ++ nl ++ nl ++ "Thank you for your interest in Forex Flow.").

(** [userapprove] *)
Definition userapprove (params_id body_userId query_userId : option string)
    (w : World) : Response * World :=
  let userId := request_userId params_id body_userId query_userId in
  match userId with
  | None => (mkResponse 400 "User ID is required" None None, w)
  | Some userId =>
      if negb (Js.truthy_str userId)
      then (mkResponse 400 "User ID is required" None None, w)
      else
        match findById userId (users w) with
        | CastError => (mkResponse 500 "Internal server error" None None, w)
        | Missing => (mkResponse 404 "User not found" None None, w)
        | Found user =>
            let '(newPassword, k) := generateRandomPassword 12 (randomCalls w) in
            let mailOptions := approval_mail user newPassword in
            match Mail.sendEmailWithRetry env mailOptions 3 (mailer w) with
            | (inr emailInfo, m) =>
                let user' :=
                  mkUser (user_id user) (name user) (email user) newPassword
                    newPassword true (role user) (lastLogin user) in
                match save user user' (users w) with
                | Some coll =>
                    (mkResponse 200
                       "User approved successfully. Login credentials have been sent to the user's email."
                       (Some (isVerified user')) (Some true),
                     mkWorld coll m k)
                | None =>
                    (mkResponse 500
                       "Failed to send approval email. User status remains pending. Please check email configuration and try again."
                       (Some (isVerified user')) (Some false),
                     mkWorld (users w) m k)
                end
            | (inl emailError, m) =>
                (mkResponse 500
                   "Failed to send approval email. User status remains pending. Please check email configuration and try again."
                   (Some (isVerified user)) (Some false),
                 mkWorld (users w) m k)
            end
        end
  end.

(** [userreject] *)
Definition userreject (params_id body_userId query_userId : option string)
    (w : World) : Response * World :=
  let userId := request_userId params_id body_userId query_userId in
  match userId with
  | None => (mkResponse 400 "User ID is required" None None, w)
  | Some userId =>
      if negb (Js.truthy_str userId)
      then (mkResponse 400 "User ID is required" None None, w)
      else
        match findById userId (users w) with
        | CastError => (mkResponse 500 "Internal server error" None None, w)
        | Missing => (mkResponse 404 "User not found" None None, w)
        | Found user =>
            let mailOptions := rejection_mail user in
            match Mail.sendEmailWithRetry env mailOptions 3 (mailer w) with
            | (inr emailInfo, m) =>
                let user' :=
                  mkUser (user_id user) (name user) (email user) (password user)
                    (generatedPassword user) false (role user) (lastLogin user) in
                match save user user' (users w) with
                | Some coll =>
                    (mkResponse 200
                       "User rejected successfully. Rejection notification has been sent to the user's email."
                       (Some (isVerified user')) (Some true),
                     mkWorld coll m (randomCalls w))
                | None =>
                    (mkResponse 500
                       "Failed to send rejection email. User status remains pending. Please check email configuration and try again."
                       (Some (isVerified user')) (Some false),
                     mkWorld (users w) m (randomCalls w))
                end
            | (inl emailError, m) =>
                (mkResponse 500
                   "Failed to send rejection email. User status remains pending. Please check email configuration and try again."
                   (Some (isVerified user)) (Some false),
                 mkWorld (users w) m (randomCalls w))
            end
        end
  end.

End Handlers.

End Approval.

(** ** Access control ([login]) *)

Module Auth.
Import Model.

(** The [accessToken] cookie and its options. *)
Record Cookie : Type := mkCookie {
  cookie_value : string;
  httpOnly : bool;
  secure : bool;
  sameSite : string
}.

(** [data] of the successful answer. *)
Record LoginData : Type := mkLoginData {
  d_role : string;
  d_isVerified : bool;
  d_email : string
}.

Record Response : Type := mkResponse {
  res_status : Z;
  res_message : string;
  res_cookie : option Cookie;
  res_data : option LoginData
}.

(** [User.findOne({ email })]: the first document with that address. *)
Fixpoint findOne_email (e : string) (coll : list User) : option User :=
  match coll with
  | [] => None
  | u :: rest => if String.eqb (email u) e then Some u else findOne_email e rest
  end.

Section Login.

(** [bcrypt.compare]; [generateAccessToken], which answers with a token or
    throws its [ApiError] ([None]); [process.env.NODE_ENV]; and the message of the
    error [user.save()] throws, if it throws. *)
Variable bcrypt_compare : string -> string -> bool.
Variable generateAccessToken : string -> option string.
Variable NODE_ENV : option string.
Variable save_error : option string.

(** [login]; [now] is [new Date()]. *)
Definition login (req_email req_password : option string) (now : Z)
    (coll : list User) : Response * list User :=
  match req_email, req_password with
  | Some e, Some pw =>
      if (negb (Js.truthy_str e) || negb (Js.truthy_str pw))%bool then
        (mkResponse 400 "Please provide email and password" None None, coll)
      else
        match findOne_email e coll with
        | None => (mkResponse 401 "Invalid email" None None, coll)
        | Some user =>
            let isPasswordCorrect :=
              bcrypt_compare (Js.trim pw) (Js.trim (password user)) in
            if negb isPasswordCorrect then
              (mkResponse 401 "Invalid password" None None, coll)
            else
              match generateAccessToken (user_id user) with
              | None =>
                  (mkResponse 500
                     "Something went wrong while generating the JWT tokens"
                     None None, coll)
              | Some accessToken =>
                  let isProd :=
                    match NODE_ENV with
                    | Some v => String.eqb v "production"
                    | None => false
                    end in
                  let options :=
                    mkCookie accessToken true isProd
                      (if isProd then "none" else "lax") in
                  if negb (isVerified user) then
                    (mkResponse 402 "Your are not Verified" None None, coll)
                  else
                    let user' :=
                      mkUser (user_id user) (name user) (email user)
                        (password user) (generatedPassword user)
                        (isVerified user) (role user) (Some now) in
                    match save_error with
                    | None =>
                        (mkResponse 200 "login success" (Some options)
                           (Some (mkLoginData (role user') (isVerified user')
                                    (email user'))),
                         Approval.replace_user user' coll)
                    | Some error_message =>
                        (mkResponse 500 error_message None None, coll)
                    end
              end
        end
  | _, _ => (mkResponse 400 "Please provide email and password" None None, coll)
  end.

End Login.

End Auth.

(** ** Admin KPI trends ([getAlluserKpis]) *)

Module Kpi.

(** A trend figure is either the string [toFixed(1)] gives, kept as its
    number of tenths, or one of the number literals [100] and [0]. *)
Inductive Trend : Type :=
| Fixed1 (tenths : Z)
| Num (n : Z).

(** [x.toFixed(1)]: the nearest multiple of one tenth, a tie going away
    from zero; the result as a number of tenths. *)
Definition toFixed1 (x : Q) : Z :=
  let n := Qfloor (Qabs x * 10 + (1 # 2)) in
  if Qle_bool 0 x then n else (- n)%Z.

(** The conditional all four trend figures are computed with. *)
Definition trend (current previous : Q) : Trend :=
  if negb (Qle_bool previous 0)
  then Fixed1 (toFixed1 (((current - previous) / previous) * 100))
  else if negb (Qle_bool current 0) then Num 100 else Num 0.

Definition usersTrend (totalUsers previousPeriodUsers : Q) : Trend :=
  trend totalUsers previousPeriodUsers.

Definition tradersTrend (activeTraders previousActiveTraders : Q) : Trend :=
  trend activeTraders previousActiveTraders.

Definition withdrawalTrend (pendingTotalAmount previousTotalAmount : Q) : Trend :=
  trend pendingTotalAmount previousTotalAmount.

Definition depositTrend (pendingTotalAmount previousTotalAmount : Q) : Trend :=
  trend pendingTotalAmount previousTotalAmount.

(** The number a trend figure denotes (what [Math.abs] and [>=] see). *)
Definition trend_value (t : Trend) : Q :=
  match t with
  | Fixed1 tenths => tenths # 10
  | Num n => inject_Z n
  end.

(** [isUp: trend >= 0] *)
Definition isUp (t : Trend) : bool := Qle_bool 0 (trend_value t).

End Kpi.

(** ** Settings model ([src/models/settings.model.js]) *)

Module SettingsModel.

(** [Schema.Types.Mixed]: the JSON values a setting can hold. *)
Inductive Mixed : Type :=
| MBool (b : bool)
| MNum (n : Z)
| MStr (s : string)
| MNull.

(** A document of the collection: its [_id], the three fields of the
    schema, and the two dates [timestamps: true] adds. *)
Record Setting : Type := mkSetting {
  setting_id : string;
  key : string;
  value : Mixed;
  description : string;
  createdAt : Z;
  updatedAt : Z
}.

(** The collection: [key] is [unique], so it is a finite map on keys. *)
Definition Settings : Type := gmap string Setting.

(** [this.findOne({ key })]: the schema has [trim: true] on [key], and the
    filter is cast by the schema like every value of that path. *)
Definition findOne (k : string) (coll : Settings) : option Setting :=
  coll !! Js.trim k.

(** [SettingsSchema.statics.getSetting]:
    [setting ? setting.value : defaultValue]. *)
Definition getSetting (k : string) (defaultValue : Mixed) (coll : Settings)
  : Mixed :=
  match findOne k coll with
  | Some setting => value setting
  | None => defaultValue
  end.

(** [findOneAndUpdate({ key }, { key, value, description },
    { upsert: true, new: true })]: [key] and [description] are trimmed by
    the schema; the matching document gets the three fields and
    [updatedAt] set and keeps its [_id] and its [createdAt]; when there is
    none, a document is created with the [_id] [newId] and both dates
    [now].  The new document is returned with the collection. *)
Definition findOneAndUpdate_upsert (newId : string) (now : Z) (k : string)
    (v : Mixed) (descr : string) (coll : Settings) : Setting * Settings :=
  let k := Js.trim k in
  let doc :=
    match coll !! k with
    | Some old =>
        mkSetting (setting_id old) k v (Js.trim descr) (createdAt old) now
    | None => mkSetting newId k v (Js.trim descr) now now
    end in
  (doc, <[k := doc]> coll).

(** [SettingsSchema.statics.setSetting]; [newId] is the [_id] a created
    document would get, [now] the time of the write. *)
Definition setSetting (newId : string) (now : Z) (k : string) (v : Mixed)
    (descr : string) (coll : Settings) : Setting * Settings :=
  findOneAndUpdate_upsert newId now k v descr coll.

(** The JSON answer of the two visibility handlers. *)
Record ApiResponse : Type := mkApiResponse {
  statusCode : Z;
  showBankDetails : Mixed;
  message : string
}.

(** [getBankDetailsVisibility] *)
Definition getBankDetailsVisibility (coll : Settings) : ApiResponse :=
  let showBankDetails := getSetting "showBankDetails" (MBool true) coll in
  mkApiResponse 200 showBankDetails
    "Bank details visibility setting retrieved successfully".

(** [updateBankDetailsVisibility]: a non-boolean body is refused with
    400 ([inl]); otherwise the flag is upserted. *)
Definition updateBankDetailsVisibility (newId : string) (now : Z)
    (body : Mixed) (coll : Settings) : (Z + ApiResponse) * Settings :=
  match body with
  | MBool b =>
      let '(_, coll') :=
        setSetting newId now "showBankDetails" (MBool b)
          "Controls whether bank transfer option is shown to users during deposit"
          coll in
      (inr (mkApiResponse 200 (MBool b)
              "Bank details visibility setting updated successfully"), coll')
  | _ => (inl 400%Z, coll)
  end.

End SettingsModel.

(** ** Sample documents used in the examples *)

Module Samples.
Import Model.

Definition deposit_1000 : Transaction := mkTransaction "u1" DEPOSIT COMPLETED 1000.
Definition withdrawal_200 : Transaction := mkTransaction "u1" WITHDRAWAL COMPLETED 200.
Definition pending_deposit_50 : Transaction := mkTransaction "u1" DEPOSIT PENDING 50.

(** An open position of 5 units bought at 100. *)
Definition open_order : Order :=
  mkOrder "o1" "u1" "EURUSD" "LONG" 5 100 None 500 None None None OPEN 0 0.

(** A closed position: 2 units bought at 100, sold at 250. *)
Definition closed_order : Order :=
  mkOrder "o2" "u1" "GBPUSD" "LONG" 2 100 (Some 250) 200 None None (Some 300)
    CLOSED 0 0.

(** [{ userId, symbol, tradeType: 'long', quantity: 2, buyPrice: 10 }] *)
Definition create_body : Trades.CreateBody :=
  Trades.mkCreateBody (Some "u1") (Some "EURUSD") (Some "long") (Some 2)
    (Some 10) None None.

(** [{ quantity: 5 }] *)
Definition update_quantity_only : Trades.UpdateData :=
  Trades.mkUpdateData None None (Some 5) None None None None None None None
    None None
    None None None.

(** [{ sellPrice: 12, status: 'CLOSED' }] *)
Definition update_close_at_12 : Trades.UpdateData :=
  Trades.mkUpdateData None None None None (Some 12) None None (Some CLOSED)
    None None None None
    None None None.

(** [{ type: 'long', quantity: 2, buyPrice: 10, sellPrice: 12,
    status: 'CLOSED' }] *)
Definition update_full_close : Trades.UpdateData :=
  Trades.mkUpdateData None (Some "long") (Some 2) (Some 10) (Some 12) None None
    (Some CLOSED) None None None None
    None None None.

(** [{ quantity: 2, buyPrice: 10, sellPrice: 12, status: 'CLOSED' }] *)
Definition update_close_without_type : Trades.UpdateData :=
  Trades.mkUpdateData None None (Some 2) (Some 10) (Some 12) None None
    (Some CLOSED) None None None None
    None None None.

Definition accept_all {A : Type} (_ : A) : bool := true.

(** Both providers configured, and both down: the API answers with an
    error and SMTP times out, at every call. *)
Definition failing_env : Mail.Env :=
  Mail.mkEnv (Some "re_test") (Some "noreply@forexflowtrade.com")
    (Some "mailer@forexflowtrade.com") (Some "secret") true true
    (fun _ => inl (Mail.mkError "API unavailable" None))
    (fun _ => inl (Mail.mkError "Connection timeout" (Some "ETIMEDOUT"))).

(** Both providers configured, and both up. *)
Definition working_env : Mail.Env :=
  Mail.mkEnv (Some "re_test") (Some "noreply@forexflowtrade.com")
    (Some "mailer@forexflowtrade.com") (Some "secret") true true
    (fun _ => inr (Some "msg-1"))
    (fun _ => inr "smtp-1").

(** An unverified user whose stored password is a hash. *)
Definition pending_user : User :=
  mkUser "64b7f0c2a1d3e4f5a6b7c8d9" "Asha Rao" "asha@example.com"
    "$2b$10$abcdefghijklmnopqrstuuJ8mQ0nW3vYx1zA2bC3dE4fG5hI6jK7e" "Xy12Ab34Cd56"
    false "user" None.

(** [bcrypt.hash], as a tagging of the plain text. *)
Definition tag_hash (s : string) : string := "$2b$10$" ++ s.

(** An unverified user whose password is [Secret123]. *)
Definition unverified_trader : User :=
  mkUser "64b7f0c2a1d3e4f5a6b7c8e0" "Ravi Iyer" "ravi@example.com"
    (tag_hash "Secret123") "Secret123" false "user" None.

(** [bcrypt.compare] for [tag_hash]. *)
Definition tag_compare (plain hashed : string) : bool :=
  String.eqb (tag_hash plain) hashed.

(** A token signer that always answers. *)
Definition sign (uid : string) : option string := Some ("jwt." ++ uid).

(** The world before the admin acts: one pending user, fresh gateway. *)
Definition pending_world : Approval.World :=
  Approval.mkWorld [pending_user] Mail.initial 0.

Definition mail : Mail.MailOptions :=
  Mail.mkMailOptions None (Mail.ToString "trader@example.com") "Subject" "Body".

End Samples.

(** ** Further observations on gateway runs *)

Module GatewayTrace.

Definition is_create (e : Mail.Event) : bool :=
  match e with Mail.CreateTransporter => true | _ => false end.

(** The [CreateTransporter] event of an SMTP leg that starts with the
    transporter present ([true]) or not. *)
Definition creation (transporter : bool) : list Mail.Event :=
  if transporter then [] else [Mail.CreateTransporter].

End GatewayTrace.

(** ** Alphanumeric strings *)

Module Passwords.

(** One of [A-Z], [a-z], [0-9]. *)
Definition is_alnum (c : ascii) : bool :=
  let n := nat_of_ascii c in
  ((Nat.leb 65 n && Nat.leb n 90) || (Nat.leb 97 n && Nat.leb n 122)
   || (Nat.leb 48 n && Nat.leb n 57))%bool.

Fixpoint all_alnum (s : string) : bool :=
  match s with
  | EmptyString => true
  | String c s' => (is_alnum c && all_alnum s')%bool
  end.

End Passwords.

(** ** Account handlers ([changePassword], [deleteUserById],
       [getLastLogin]) *)

Module Account.
Import Model.

Record Response : Type := mkResponse {
  res_status : Z;
  res_message : string
}.

(** [findByIdAndDelete]: the first document with that id is removed. *)
Fixpoint remove_user (uid : string) (coll : list User) : list User :=
  match coll with
  | [] => []
  | u :: rest =>
      if String.eqb (user_id u) uid then rest else u :: remove_user uid rest
  end.

Section Handlers.

Variable ObjectId_isValid : string -> bool.
Variable bcrypt_compare : string -> string -> bool.
Variable bcrypt_hash : string -> string.
Variable save_ok : bool.

(** [changePassword]; [req_user_id] is [req.user.id], set by the
    authentication middleware. *)
Definition changePassword (oldPassword newPassword : option string)
    (req_user_id : string) (coll : list User) : Response * list User :=
  match oldPassword, newPassword with
  | Some old, Some new =>
      if (negb (Js.truthy_str old) || negb (Js.truthy_str new))%bool then
        (mkResponse 400 "Please provide old password and new password", coll)
      else if String.eqb old new then
        (mkResponse 400 "Old password and new password cannot be same", coll)
      else
        match Approval.findById ObjectId_isValid req_user_id coll with
        | CastError => (mkResponse 500 "Internal server error", coll)
        | Missing => (mkResponse 401 "User not found", coll)
        | Found user =>
            let isPasswordCorrect := bcrypt_compare old (password user) in
            if negb isPasswordCorrect then
              (mkResponse 401 "Invalid old password", coll)
            else
              let user' :=
                mkUser (user_id user) (name user) (email user) new
                  (generatedPassword user) (isVerified user) (role user)
                  (lastLogin user) in
              match Approval.save bcrypt_hash save_ok user user' coll with
              | Some coll' => (mkResponse 200 "change password success", coll')
              | None => (mkResponse 500 "Internal server error", coll)
              end
        end
  | _, _ =>
      (mkResponse 400 "Please provide old password and new password", coll)
  end.

(** [deleteUserById] *)
Definition deleteUserById (params_id body_userId query_userId : option string)
    (coll : list User) : Response * list User :=
  match Approval.request_userId params_id body_userId query_userId with
  | None => (mkResponse 400 "User ID is required", coll)
  | Some userId =>
      if negb (Js.truthy_str userId) then
        (mkResponse 400 "User ID is required", coll)
      else if negb (ObjectId_isValid userId) then
        (mkResponse 400 "Invalid user ID format", coll)
      else
        match Approval.find_user userId coll with
        | None => (mkResponse 404 "User not found", coll)
        | Some _ =>
            (mkResponse 200 "User deleted successfully",
             remove_user userId coll)
        end
  end.

(** [getLastLogin]: the status and the [lastLogin] of the answer; a
    malformed id makes the handler throw ([None]). *)
Definition getLastLogin (req_user_id : string) (coll : list User)
  : option (Z * option Z) :=
  match Approval.findById ObjectId_isValid req_user_id coll with
  | CastError => None
  | Missing => Some (404%Z, None)
  | Found user => Some (201%Z, lastLogin user)
  end.

End Handlers.

End Account.

(** ** What one record contributes to its owner's dashboard balance *)

Module Effects.
Import Model.

(** The sum of [f] over a ledger. *)
Fixpoint total {A : Type} (f : A -> Q) (l : list A) : Q :=
  match l with
  | [] => 0
  | x :: rest => f x + total f rest
  end.

(** A COMPLETED deposit counts its amount, a COMPLETED withdrawal its
    negation, anything else nothing. *)
Definition tx_effect (uid : string) (t : Transaction) : Q :=
  if (String.eqb (tx_userId t) uid && TxStatus_eqb (tx_status t) COMPLETED)%bool
  then match tx_type t with
       | DEPOSIT => amount t
       | WITHDRAWAL => - amount t
       end
  else 0.

(** An OPEN order locks its trade amount, a CLOSED one counts its
    profit or loss (nothing when it has none). *)
Definition order_effect (uid : string) (o : Order) : Q :=
  if String.eqb (userId o) uid then
    match status o with
    | OPEN => - tradeAmount o
    | CLOSED => BalanceSpec.realized o
    end
  else 0.

End Effects.

(** ** Order history summary ([calculateSummaryData]) *)

Module History.
Import Model.

(** The three figures [calculateSummaryData] computes before it formats
    them: the number of the user's trades, and the two [reduce] sums. *)
Record SummaryTotals : Type := mkSummaryTotals {
  totalTrades : nat;
  totalInvestment : Q;
  totalProfitLoss : Q
}.

Definition calculateSummaryData_totals (uid : string) (orders : list Order)
  : SummaryTotals :=
  let trades := List.filter (fun o => String.eqb (userId o) uid) orders in
  mkSummaryTotals (List.length trades)
    (fold_left (fun sum trade => sum + tradeAmount trade) trades 0)
    (fold_left (fun sum trade => sum + Js.or_zero (profitLoss trade)) trades 0).

End History.

(** ** Cash transactions: the admin handlers *)

Module Cash.
Import Model.

(** Modelled from the spec: the stored transaction ([models/
    transaction.model.js] is not among the sources): the ledger record
    with its id and the audit fields the handlers set. *)
Record StoredTransaction : Type := mkStored {
  st_id : string;
  st_doc : Transaction;
  st_approvedBy : option string;
  st_approvedAt : option Z;
  st_rejectedBy : option string;
  st_rejectedAt : option Z;
  st_rejectionReason : option string;
  st_reason : option string;
  st_updatedAt : option Z
}.

Record Response : Type := mkResponse {
  res_status : Z;
  res_data : option StoredTransaction
}.

(** The ledger the balance reads see. *)
Definition ledger (coll : list StoredTransaction) : list Transaction :=
  map st_doc coll.

Definition with_status (t : Transaction) (st : TxStatus) : Transaction :=
  mkTransaction (tx_userId t) (tx_type t) st (amount t).

Fixpoint find_tx (id : string) (coll : list StoredTransaction)
  : option StoredTransaction :=
  match coll with
  | [] => None
  | t :: rest => if String.eqb (st_id t) id then Some t else find_tx id rest
  end.

Fixpoint replace_tx (id : string) (t' : StoredTransaction)
    (coll : list StoredTransaction) : list StoredTransaction :=
  match coll with
  | [] => []
  | t :: rest =>
      if String.eqb (st_id t) id then t' :: rest
      else t :: replace_tx id t' rest
  end.

(** The status strings [updateTransactionStatus] lets through. *)
Definition parse_status (s : string) : option TxStatus :=
  if String.eqb s "PENDING" then Some PENDING
  else if String.eqb s "COMPLETED" then Some COMPLETED
  else if String.eqb s "REJECTED" then Some REJECTED
  else if String.eqb s "FAILED" then Some FAILED
  else if String.eqb s "CANCELLED" then Some CANCELLED
  else None.

Section Handlers.

Variable ObjectId_isValid : string -> bool.

(** [Transaction.findByIdAndUpdate(id, update, { new: true })] and the
    answer the handlers build from it. *)
Definition findByIdAndUpdate (id : string)
    (update : StoredTransaction -> StoredTransaction)
    (coll : list StoredTransaction) : Response * list StoredTransaction :=
  if negb (ObjectId_isValid id) then (mkResponse 500 None, coll)
  else
    match find_tx id coll with
    | None => (mkResponse 404 None, coll)
    | Some t =>
        (mkResponse 200 (Some (update t)), replace_tx id (update t) coll)
    end.

Definition approve (admin : string) (now : Z) (t : StoredTransaction)
  : StoredTransaction :=
  mkStored (st_id t) (with_status (st_doc t) COMPLETED) (Some admin) (Some now)
    (st_rejectedBy t) (st_rejectedAt t) (st_rejectionReason t) (st_reason t)
    (st_updatedAt t).

Definition reject (st : TxStatus) (admin : string) (now : Z)
    (reason : option string) (t : StoredTransaction) : StoredTransaction :=
  mkStored (st_id t) (with_status (st_doc t) st) (st_approvedBy t)
    (st_approvedAt t) (Some admin) (Some now)
    (Some (if Js.truthy_opt_str reason
           then match reason with Some r => r | None => "" end
           else "Request rejected by admin"))
    (st_reason t) (st_updatedAt t).

(** [approveWithdrawal] *)
Definition approveWithdrawal (withdrawalId : option string) (admin : string)
    (now : Z) (coll : list StoredTransaction)
  : Response * list StoredTransaction :=
  if negb (Js.truthy_opt_str withdrawalId) then (mkResponse 400 None, coll)
  else
    match withdrawalId with
    | Some id => findByIdAndUpdate id (approve admin now) coll
    | None => (mkResponse 400 None, coll)
    end.

(** [rejectWithdrawal] *)
Definition rejectWithdrawal (withdrawalId reason : option string)
    (admin : string) (now : Z) (coll : list StoredTransaction)
  : Response * list StoredTransaction :=
  if negb (Js.truthy_opt_str withdrawalId) then (mkResponse 400 None, coll)
  else
    match withdrawalId with
    | Some id => findByIdAndUpdate id (reject CANCELLED admin now reason) coll
    | None => (mkResponse 400 None, coll)
    end.

(** [approveDeposit] *)
Definition approveDeposit (depositId : option string) (admin : string)
    (now : Z) (coll : list StoredTransaction)
  : Response * list StoredTransaction :=
  if negb (Js.truthy_opt_str depositId) then (mkResponse 400 None, coll)
  else
    match depositId with
    | Some id => findByIdAndUpdate id (approve admin now) coll
    | None => (mkResponse 400 None, coll)
    end.

(** [rejectDeposit] *)
Definition rejectDeposit (depositId reason : option string) (admin : string)
    (now : Z) (coll : list StoredTransaction)
  : Response * list StoredTransaction :=
  if negb (Js.truthy_opt_str depositId) then (mkResponse 400 None, coll)
  else
    match depositId with
    | Some id => findByIdAndUpdate id (reject FAILED admin now reason) coll
    | None => (mkResponse 400 None, coll)
    end.

(** [updateTransactionStatus]: [status] must be one of [validStatuses];
    [reason] is written only when it is truthy. *)
Definition updateTransactionStatus (transactionId : string)
    (status reason : option string) (now : Z) (coll : list StoredTransaction)
  : Response * list StoredTransaction :=
  match match status with Some s => parse_status s | None => None end with
  | None => (mkResponse 400 None, coll)
  | Some st =>
      findByIdAndUpdate transactionId
        (fun t =>
           mkStored (st_id t) (with_status (st_doc t) st) (st_approvedBy t)
             (st_approvedAt t) (st_rejectedBy t) (st_rejectedAt t)
             (st_rejectionReason t)
             (if Js.truthy_opt_str reason then reason else st_reason t)
             (Some now))
        coll
  end.

End Handlers.

End Cash.

(** ** Registration ([register]) *)

Module Registration.
Import Model.

(** An uploaded file as [multer] hands it over; [path] is the URL the
    storage gave it. *)
Record File : Type := mkFile {
  path : option string
}.

(** One entry of [req.files]: missing, a single file object, or the array
    [upload.fields] builds. *)
Inductive FileField : Type :=
| NoFile
| OneFile (f : File)
| FileArray (fs : list File).

Record Files : Type := mkFiles {
  aadharPhoto : FileField;
  panPhoto : FileField;
  userPhoto : FileField;
  passbookPhoto : FileField
}.

(** [Array.isArray(x) ? x[0] : x] *)
Definition first_file (x : FileField) : option File :=
  match x with
  | NoFile => None
  | OneFile f => Some f
  | FileArray fs => hd_error fs
  end.

(** The fields [register] takes from [req.body]. *)
Record Body : Type := mkBody {
  body_email : option string;
  body_firstName : option string;
  body_lastName : option string;
  body_phone : option string;
  body_aadharNo : option string;
  body_pan : option string;
  body_gender : option string;
  body_dob : option string;
  body_nomineeName : option string;
  body_nomineeRelation : option string;
  body_nomineeDob : option string;
  body_bankName : option string;
  body_accountNumber : option string;
  body_accountHolder : option string;
  body_ifscCode : option string;
  body_address : option string
}.

(** A stored user document: the account the other handlers read, and the
    three further fields the duplicate check of [register] compares. *)
Record Profile : Type := mkProfile {
  account : User;
  phone : string;
  aadharNo : string;
  pan : string
}.

(** The accounts [login] and the admin handlers see. *)
Definition accounts (coll : list Profile) : list User := map account coll.

(** What [newUser.save()] does: it stores the document, or throws a
    duplicate-key error (code 11000) naming a field, a [ValidationError],
    or something else. *)
Inductive SaveOutcome : Type :=
| Saved
| DuplicateKey (field : string)
| ValidationError (messages : list string)
| OtherError (message : string).

Record Response : Type := mkResponse {
  res_status : Z;
  res_message : string
}.

(** The answer, the collection afterwards, the number of [Math.random()]
    calls made so far, and the mail left to [setImmediate], if any. *)
Record Outcome : Type := mkOutcome {
  response : Response;
  out_users : list Profile;
  out_randomCalls : nat;
  deferred_mail : option Mail.MailOptions
}.

(** The string of a body field. *)
Definition text_of (o : option string) : string :=
  match o with
  | Some s => s
  | None => ""
  end.

(** [User.findOne({ $or: [{ email }, { phone }, { pan }, { aadharNo }] })]
    finds a document. *)
Definition userExists (e p pn a : string) (coll : list Profile) : bool :=
  existsb
    (fun d =>
       (String.eqb (email (account d)) e || String.eqb (phone d) p
        || String.eqb (pan d) pn || String.eqb (aadharNo d) a)%bool)
    coll.

Definition has_path (f : File) : bool := Js.truthy_opt_str (path f).

(** The sixteen fields of the [!email || !firstName || ...] test. *)
Definition required_fields (b : Body) : list (option string) :=
  [body_email b; body_firstName b; body_lastName b; body_phone b;
   body_aadharNo b; body_pan b; body_gender b; body_dob b;
   body_nomineeName b; body_nomineeRelation b; body_nomineeDob b;
   body_bankName b; body_accountNumber b; body_accountHolder b;
   body_ifscCode b; body_address b].

(** The mail sent after the answer. *)
Definition submitted_mail (e firstName lastName : string) : Mail.MailOptions :=
  Mail.mkMailOptions None (Mail.ToString e)
    "Profile Approval Request Submitted"
    ("Dear " ++ firstName ++ " " ++ lastName ++ "," ++ Approval.nl
     ++ Approval.nl
     ++ "Your profile approval request has been submitted successfully. Our admin team will review your profile and you will receive an email notification once your profile is approved or rejected."
     ++ Approval.nl ++ Approval.nl
     ++ "IMPORTANT: After verification, you will receive your login password via email to access and login to your account."
     ++ Approval.nl ++ Approval.nl
     ++ "Thank you for registering with Forex Flow!").

(** No two stored documents share an email, a phone number, a PAN or an
    Aadhar number. *)
Definition keys_unique (coll : list Profile) : Prop :=
  List.NoDup (map (fun d => email (account d)) coll)
  /\ List.NoDup (map phone coll)
  /\ List.NoDup (map pan coll)
  /\ List.NoDup (map aadharNo coll).

Section Handler.

(** [bcrypt.hash] as the pre-save hook calls it, the k-th random draw, the
    [_id] Mongoose gives the new document, and what [save()] does. *)
Variable bcrypt_hash : string -> string.
Variable random_index : nat -> nat.
Variable new_id : string.
Variable save_result : SaveOutcome.

(** The document [new User({...})] that [save()] stores: the password
    hashed by the pre-save hook, the generated password kept in clear,
    [isVerified: false], and the schema defaults for the rest. *)
Definition newUser (b : Body) (generatedPassword : string) : Profile :=
  mkProfile
    (mkUser new_id
       (text_of (body_firstName b) ++ " " ++ text_of (body_lastName b))
       (text_of (body_email b)) (bcrypt_hash generatedPassword)
       generatedPassword false "user" None)
    (text_of (body_phone b)) (text_of (body_aadharNo b))
    (text_of (body_pan b)).

(** [register]; [k] is the number of random draws made before. *)
Definition register (files : option Files) (b : Body) (k : nat)
    (coll : list Profile) : Outcome :=
  let fail (status : Z) (message : string) (k : nat) :=
    mkOutcome (mkResponse status message) coll k None in
  match files with
  | None =>
      fail 400%Z
        "Please upload all required documents (Aadhar, PAN, and User photo)" k
  | Some files =>
      match first_file (aadharPhoto files), first_file (panPhoto files),
            first_file (userPhoto files), first_file (passbookPhoto files) with
      | Some aadhar, Some panFile, Some user, Some passbook =>
          if negb (has_path aadhar && has_path panFile && has_path user
                   && has_path passbook)%bool
          then fail 400%Z "File upload failed. Please try again." k
          else if negb (forallb Js.truthy_opt_str (required_fields b))
          then fail 400%Z "Please provide all required fields" k
          else if userExists (text_of (body_email b)) (text_of (body_phone b))
                    (text_of (body_pan b)) (text_of (body_aadharNo b)) coll
          then
            fail 400%Z
              "User already exists with this email, phone, PAN, or Aadhar number"
              k
          else
            let (generatedPassword, k') :=
              Approval.generateRandomPassword random_index 12 k in
            match save_result with
            | Saved =>
                mkOutcome
                  (mkResponse 201
                     "Registration successful! Your profile approval request has been submitted. You will receive an email notification once your profile is reviewed by the admin.")
                  (coll ++ [newUser b generatedPassword])%list k'
                  (Some
                     (submitted_mail (text_of (body_email b))
                        (text_of (body_firstName b))
                        (text_of (body_lastName b))))
            | DuplicateKey field =>
                fail 400%Z ("A user with this " ++ field ++ " already exists")
                  k'
            | ValidationError _ => fail 400%Z "Validation error" k'
            | OtherError _ => fail 500%Z "Error in registration" k'
            end
      | _, _, _, _ =>
          fail 400%Z
            "Please upload all required documents (Aadhar, PAN, User photo, and Passbook photo)"
            k
      end
  end.

End Handler.

End Registration.

(** ** More sample environments *)

Module MoreSamples.

(** Neither provider configured. *)
Definition unconfigured_env : Mail.Env :=
  Mail.mkEnv None (Some "noreply@forexflowtrade.com") None None true true
    (fun _ => inr None) (fun _ => inr "unused").

(** No API key; SMTP configured, timing out once and then refusing the
    login. *)
Definition flaky_smtp_env : Mail.Env :=
  Mail.mkEnv None (Some "noreply@forexflowtrade.com")
    (Some "mailer@forexflowtrade.com") (Some "secret") true true
    (fun _ => inr None)
    (fun k =>
       match k with
       | O => inl (Mail.mkError "Connection timeout" (Some "ETIMEDOUT"))
       | _ => inl (Mail.mkError "Invalid login" (Some "EAUTH"))
       end).

(** The API answering with an error, SMTP delivering. *)
Definition fallback_env : Mail.Env :=
  Mail.mkEnv (Some "re_test") (Some "noreply@forexflowtrade.com")
    (Some "mailer@forexflowtrade.com") (Some "secret") true true
    (fun _ => inl (Mail.mkError "API unavailable" None))
    (fun _ => inr "smtp-1").

(** A verified user whose password is [Secret123]. *)
Definition verified_trader : Model.User :=
  Model.mkUser "64b7f0c2a1d3e4f5a6b7c8e1" "Meera Nair" "meera@example.com"
    (Samples.tag_hash "Secret123") "Secret123" true "user" None.

(** A [bcrypt.hash] whose output ends as it starts, with a character that
    is not a blank, and the [bcrypt.compare] that goes with it. *)
Definition sealed_hash (s : string) : string := "$2b$10$" ++ s ++ "$".

Definition sealed_compare (plain hashed : string) : bool :=
  String.eqb (sealed_hash plain) hashed.

(** A verified user whose password is [Secret123]. *)
Definition sealed_trader : Model.User :=
  Model.mkUser "64b7f0c2a1d3e4f5a6b7c8e2" "Dev Menon" "dev@example.com"
    (sealed_hash "Secret123") "Secret123" true "user" None.

(** The gateway after the API client was found missing. *)
Definition no_api : Mail.Mailer := Mail.mkMailer false false true 0 0 [].

(** The gateway with both singletons in place. *)
Definition warm : Mail.Mailer := Mail.mkMailer true true true 0 0 [].

(** [{ priceRangeLow: 90, priceRangeHigh: 120 }] *)
Definition update_range : Trades.UpdateData :=
  Trades.mkUpdateData None None None None None None None None None (Some 90)
    (Some 120) None
    None None None.

(** [{ type: 'LONG', quantity: 5, buyPrice: 100, sellPrice: 160,
    status: 'CLOSED' }] *)
Definition update_close_with_profit : Trades.UpdateData :=
  Trades.mkUpdateData None (Some "LONG") (Some 5) (Some 100) (Some 160) None
    None (Some Model.CLOSED) None None None None
    None None None.

(** [{ userId: 'u2', tradeDate: 99 }] *)
Definition update_owner_and_date : Trades.UpdateData :=
  Trades.mkUpdateData None None None None None None None None None None None
    None None (Some "u2") (Some 99%Z).

(** A completed deposit of 300, a withdrawal request of 800 and a deposit
    request of 500, all of user [u1]. *)
Definition completed_deposit_300 : Cash.StoredTransaction :=
  Cash.mkStored "t1"
    (Model.mkTransaction "u1" Model.DEPOSIT Model.COMPLETED 300%Q)
    (Some "admin") (Some 1700000000%Z) None None None None None.

Definition withdrawal_request_800 : Cash.StoredTransaction :=
  Cash.mkStored "t2"
    (Model.mkTransaction "u1" Model.WITHDRAWAL Model.PENDING 800%Q)
    None None None None None None None.

Definition deposit_request_500 : Cash.StoredTransaction :=
  Cash.mkStored "t3"
    (Model.mkTransaction "u1" Model.DEPOSIT Model.PENDING 500%Q)
    None None None None None None None.

Definition cash_requests : list Cash.StoredTransaction :=
  [completed_deposit_300; withdrawal_request_800; deposit_request_500].

(** A complete registration form and its four uploads. *)
Definition form_asha : Registration.Body :=
  Registration.mkBody (Some "asha@example.com") (Some "Asha") (Some "Rao")
    (Some "9876500001") (Some "123412341234") (Some "ABCDE1234F")
    (Some "Female") (Some "1991-04-12") (Some "Kiran Rao") (Some "Spouse")
    (Some "1990-02-01") (Some "State Bank") (Some "00112233445566")
    (Some "Asha Rao") (Some "SBIN0001234") (Some "12 Lake Road, Pune").

Definition uploaded (url : string) : Registration.FileField :=
  Registration.FileArray [Registration.mkFile (Some url)].

Definition uploads : Registration.Files :=
  Registration.mkFiles (uploaded "https://cdn.example.com/aadhar.png")
    (uploaded "https://cdn.example.com/pan.png")
    (uploaded "https://cdn.example.com/user.png")
    (uploaded "https://cdn.example.com/passbook.png").

(** The same person applying again with another address. *)
Definition form_asha_again : Registration.Body :=
  Registration.mkBody (Some "asha.rao@example.com") (Some "Asha") (Some "Rao")
    (Some "9876500001") (Some "123412341234") (Some "ABCDE1234F")
    (Some "Female") (Some "1991-04-12") (Some "Kiran Rao") (Some "Spouse")
    (Some "1990-02-01") (Some "State Bank") (Some "00112233445566")
    (Some "Asha Rao") (Some "SBIN0001234") (Some "12 Lake Road, Pune").

(** A stored profile of the verified trader. *)
Definition trader_profile : Registration.Profile :=
  Registration.mkProfile verified_trader "9876500000" "111122223333"
    "PQRSX9876Z".

End MoreSamples.

(** * Properties *)

(** ** Settings *)

Section SettingsFacts.
Import SettingsModel.

Lemma getSetting_present (coll : Settings) (k : string) (d : Mixed)
    (doc : Setting) :
  findOne k coll = Some doc -> getSetting k d coll = value doc.
Proof. intros H. unfold getSetting. now rewrite H. Qed.

Lemma getSetting_absent (coll : Settings) (k : string) (d : Mixed) :
  findOne k coll = None -> getSetting k d coll = d.
Proof. intros H. unfold getSetting. now rewrite H. Qed.

Lemma setSetting_findOne (newId : string) (now : Z) (coll : Settings)
    (k : string) (v : Mixed) (descr : string) :
  findOne k (snd (setSetting newId now k v descr coll))
  = Some (fst (setSetting newId now k v descr coll))
  /\ value (fst (setSetting newId now k v descr coll)) = v.
Proof.
  unfold setSetting, findOneAndUpdate_upsert, findOne, Settings in *.
  cbn [fst snd]. split; [apply lookup_insert_eq |].
  destruct (coll !! Js.trim k); reflexivity.
Qed.

(** C9: [setSetting k v] followed by [getSetting k d] returns [v], whatever
    the default [d] and whatever the collection held before (no document
    for [k], or an older one that the upsert overwrites). *)
Theorem setSetting_getSetting_roundtrip (newId : string) (now : Z)
    (coll : Settings) (k : string) (v d : Mixed) (descr : string) :
  getSetting k d (snd (setSetting newId now k v descr coll)) = v.
Proof.
  destruct (setSetting_findOne newId now coll k v descr) as (Hf & Hv).
  rewrite (getSetting_present _ _ _ _ Hf). exact Hv.
Qed.

(** C10: as long as no [showBankDetails] document exists, the visibility
    read answers 200 with [showBankDetails = true]: [getSetting] returns
    the default it is given for an absent key, and the handler gives
    [true]. *)
Theorem getBankDetailsVisibility_default (coll : Settings) :
  findOne "showBankDetails" coll = None ->
  (forall (k : string) (d : Mixed), findOne k coll = None -> getSetting k d coll = d)
  /\ showBankDetails (getBankDetailsVisibility coll) = MBool true
  /\ statusCode (getBankDetailsVisibility coll) = 200%Z.
Proof.
  intros H. split; [| split].
  - intros k d Hk. now apply getSetting_absent.
  - unfold getBankDetailsVisibility. simpl. now apply getSetting_absent.
  - reflexivity.
Qed.

Lemma getBankDetailsVisibility_default_witness :
  findOne "showBankDetails" (∅ : Settings) = None
  /\ showBankDetails (getBankDetailsVisibility ∅) = MBool true.
Proof.
  split; [reflexivity |].
  apply (getBankDetailsVisibility_default ∅). reflexivity.
Defined.

End SettingsFacts.

(** ** Balance aggregation *)

Section LedgerFacts.
Import Model Ledger BalanceSpec.

Lemma fold_left_Qplus_acc (l : list Q) (a : Q) :
  fold_left Qplus l a == a + fold_left Qplus l 0.
Proof.
  revert a. induction l as [| x l IH]; intros a; simpl.
  - ring.
  - rewrite (IH (a + x)), (IH (0 + x)). ring.
Qed.

Lemma sum_field_cons {A : Type} (f : A -> Q) (x : A) (l : list A) :
  sum_field f (x :: l) == f x + sum_field f l.
Proof.
  unfold sum_field. simpl. rewrite fold_left_Qplus_acc. ring.
Qed.

Lemma or_zero_Some (q : Q) : Js.or_zero (Some q) == q.
Proof.
  unfold Js.or_zero, Js.truthy_num.
  destruct (Qeq_bool q 0) eqn:E; simpl; [| reflexivity].
  apply Qeq_bool_eq in E. now rewrite E.
Qed.

(** The [$match]/[$group]/[|| 0] pipeline computes [sum(f | P)]. *)
Lemma first_total_sum_over {A : Type} (matches : A -> bool) (P : A -> Prop)
    `{!forall x, Decision (P x)} (f : A -> Q) (l : list A) :
  (forall x, matches x = true <-> P x) ->
  first_total (aggregate_total matches f l) == sum_over P f l.
Proof.
  intros HP.
  assert (Hsum : sum_field f (List.filter matches l) == sum_over P f l).
  { induction l as [| x l IH]; simpl.
    - reflexivity.
    - destruct (matches x) eqn:E.
      + rewrite sum_field_cons, IH.
        destruct (decide (P x)) as [_ | n]; [reflexivity |].
        exfalso. apply n, HP, E.
      + rewrite IH.
        destruct (decide (P x)) as [p | _]; [| ring].
        apply HP in p. congruence. }
  unfold first_total, aggregate_total, group_total.
  destruct (List.filter matches l) as [| y ys] eqn:E.
  - simpl. rewrite <- Hsum. reflexivity.
  - simpl hd_error. rewrite or_zero_Some. exact Hsum.
Qed.

Lemma match_tx_completed (uid : string) (ty : TxType) (t : Transaction) :
  match_tx uid ty COMPLETED t = true <-> completed uid ty t.
Proof.
  unfold match_tx, completed. rewrite !andb_true_iff, String.eqb_eq.
  destruct (tx_type t), ty, (tx_status t); simpl; intuition congruence.
Qed.

Lemma match_order_in_status (uid : string) (st : OrderStatus) (o : Order) :
  match_order uid st o = true <-> in_status uid st o.
Proof.
  unfold match_order, in_status. rewrite andb_true_iff, String.eqb_eq.
  destruct (status o), st; simpl; intuition congruence.
Qed.

Lemma sum_over_Permutation {A : Type} (P : A -> Prop)
    `{!forall x, Decision (P x)} (f : A -> Q) (l l' : list A) :
  Permutation l l' -> sum_over P f l == sum_over P f l'.
Proof.
  induction 1 as [| x l l' _ IH | x y l | l l' l'' _ IH1 _ IH2]; simpl.
  - reflexivity.
  - now rewrite IH.
  - ring.
  - now rewrite IH1.
Qed.

Lemma sum_over_skip {A : Type} (P : A -> Prop) `{!forall x, Decision (P x)}
    (f : A -> Q) (x : A) (l : list A) :
  ~ P x -> sum_over P f (x :: l) == sum_over P f l.
Proof.
  intros n. simpl. destruct (decide (P x)); [contradiction | ring].
Qed.

(** The dashboard balance is the specification's formula. *)
Lemma dashboard_accountBalance (uid : string) (txs : list Transaction)
    (orders : list Order) :
  accountBalance (getUserDashboardData uid txs orders)
  == spec_accountBalance uid txs orders.
Proof.
  unfold getUserDashboardData, spec_accountBalance. simpl.
  rewrite (first_total_sum_over _ (completed uid DEPOSIT) amount txs
             (match_tx_completed uid DEPOSIT)).
  rewrite (first_total_sum_over _ (completed uid WITHDRAWAL) amount txs
             (match_tx_completed uid WITHDRAWAL)).
  rewrite (first_total_sum_over _ (in_status uid OPEN) tradeAmount orders
             (match_order_in_status uid OPEN)).
  rewrite (first_total_sum_over _ (in_status uid CLOSED) realized orders
             (match_order_in_status uid CLOSED)).
  reflexivity.
Qed.

(** C2: the dashboard read computes
    (completed deposits - completed withdrawals) - tradeAmount of the OPEN
    orders + profitLoss of the CLOSED orders (a missing one counting 0);
    a transaction that is not COMPLETED adds nothing; and any reordering
    of the two ledgers gives the same balance. *)
Theorem dashboard_balance_formula (uid : string)
    (txs txs' : list Transaction) (orders orders' : list Order) :
  Permutation txs txs' ->
  Permutation orders orders' ->
  accountBalance (getUserDashboardData uid txs orders)
  == (sum_over (completed uid DEPOSIT) amount txs
      - sum_over (completed uid WITHDRAWAL) amount txs)
     - sum_over (in_status uid OPEN) tradeAmount orders
     + sum_over (in_status uid CLOSED) realized orders
  /\ (forall t : Transaction,
        tx_status t <> COMPLETED ->
        accountBalance (getUserDashboardData uid (t :: txs) orders)
        == accountBalance (getUserDashboardData uid txs orders))
  /\ accountBalance (getUserDashboardData uid txs' orders')
     == accountBalance (getUserDashboardData uid txs orders).
Proof.
  intros Htx Hord. split; [| split].
  - apply dashboard_accountBalance.
  - intros t Ht. rewrite !dashboard_accountBalance. unfold spec_accountBalance.
    rewrite !sum_over_skip; [reflexivity | |]; unfold completed; tauto.
  - rewrite !dashboard_accountBalance. unfold spec_accountBalance.
    rewrite (sum_over_Permutation (completed uid DEPOSIT) amount _ _ Htx).
    rewrite (sum_over_Permutation (completed uid WITHDRAWAL) amount _ _ Htx).
    rewrite (sum_over_Permutation (in_status uid OPEN) tradeAmount _ _ Hord).
    rewrite (sum_over_Permutation (in_status uid CLOSED) realized _ _ Hord).
    reflexivity.
Qed.

Lemma dashboard_balance_formula_witness :
  Permutation [Samples.deposit_1000; Samples.withdrawal_200]
    [Samples.withdrawal_200; Samples.deposit_1000]
  /\ accountBalance
       (getUserDashboardData "u1"
          [Samples.withdrawal_200; Samples.deposit_1000]
          [Samples.closed_order; Samples.open_order])
     == accountBalance
          (getUserDashboardData "u1"
             [Samples.deposit_1000; Samples.withdrawal_200]
             [Samples.open_order; Samples.closed_order]).
Proof.
  split; [apply perm_swap |].
  apply (dashboard_balance_formula "u1"
           [Samples.deposit_1000; Samples.withdrawal_200]
           [Samples.withdrawal_200; Samples.deposit_1000]
           [Samples.open_order; Samples.closed_order]
           [Samples.closed_order; Samples.open_order]); apply perm_swap.
Defined.

(** The two scenarios of the dashboard's own comment. *)
Example dashboard_scenario_open :
  accountBalance
    (getUserDashboardData "u1" [Samples.deposit_1000] [Samples.open_order])
  == 500.
Proof. vm_compute. reflexivity. Qed.

Example dashboard_scenario_closed :
  accountBalance
    (getUserDashboardData "u1" [Samples.deposit_1000]
       [mkOrder "o1" "u1" "EURUSD" "LONG" 5 100 (Some 160) 500 None None
          (Some 300) CLOSED 0 0])
  == 1300.
Proof. vm_compute. reflexivity. Qed.

(** The admin view's [accountBalance] is deposits minus withdrawals alone:
    the orders never enter it. *)
Lemma getUserbyId_accountBalance (uid : string) (txs : list Transaction)
    (orders orders' : list Order) :
  accountBalance (getUserbyId_balanceInfo uid txs orders)
  = accountBalance (getUserbyId_balanceInfo uid txs orders').
Proof.
  unfold getUserbyId_balanceInfo.
  destruct (group_balanceData _) as [| data ?];
    destruct (group_orderStats _) as [| s1 ?];
    destruct (group_orderStats _) as [| s2 ?]; reflexivity.
Qed.

(** C3 (the code departs from the claim): for a user with one completed
    deposit of 1000, one OPEN order of tradeAmount 500 and one CLOSED order
    of tradeAmount 200 and profitLoss 300, the admin view reports
    accountBalance 1000 and orderInvestment 700, where the invariant (and
    the dashboard on the same ledgers) gives 800 and 500. *)
Theorem getUserbyId_balanceInfo_breaks_invariant :
  let txs := [Samples.deposit_1000] in
  let orders := [Samples.open_order; Samples.closed_order] in
  let admin := getUserbyId_balanceInfo "u1" txs orders in
  let dash := getUserDashboardData "u1" txs orders in
  accountBalance admin == 1000
  /\ orderInvestment admin == 700
  /\ profitLoss_total admin == 300
  /\ spec_accountBalance "u1" txs orders == 800
  /\ accountBalance dash == 800
  /\ orderInvestment dash == 500
  /\ ~ accountBalance admin == spec_accountBalance "u1" txs orders
  /\ ~ orderInvestment admin == sum_over (in_status "u1" OPEN) tradeAmount orders.
Proof.
  repeat split; try (vm_compute; reflexivity); vm_compute; discriminate.
Qed.

End LedgerFacts.

(** ** Trade bookkeeping *)

Section TradeFacts.
Import Model Trades.

Variable ObjectId_isValid : string -> bool.
Variable validate_update : UpdateData -> bool.

(** [createTrade] establishes [tradeAmount = quantity * buyPrice] on the
    document it stores and answers with. *)
Lemma createTrade_tradeAmount (validate_order : Order -> bool)
    (newId : string) (now : Z) (body : CreateBody)
    (coll coll' : list Order) (r : TradeResponse) (o : Order) :
  createTrade validate_order newId now body coll = (r, coll') ->
  tr_data r = Some o ->
  tradeAmount o = quantity o * buyPrice o /\ coll' = (coll ++ [o])%list
  /\ tr_status r = 201%Z.
Proof.
  unfold createTrade. intros H Hd.
  destruct (cb_userId body), (cb_symbol body), (cb_tradeType body),
    (cb_quantity body), (cb_buyPrice body);
    try (inversion H; subst; discriminate).
  destruct (negb _); [inversion H; subst; discriminate |].
  destruct (validate_order _); inversion H; subst; simpl in Hd;
    [| discriminate].
  inversion Hd; subst. simpl. auto.
Qed.

(** A successful [updateTrade] stores the old document with the prepared
    update applied: the body itself, or the body after the price-range
    block, then the profit/loss and trade-amount blocks. *)
Lemma updateTrade_ok (tradeId : string) (now : Z) (u : UpdateData)
    (coll coll' : list Order) (r : TradeResponse) :
  updateTrade ObjectId_isValid validate_update tradeId now u coll = (r, coll') ->
  tr_status r = 200%Z ->
  exists (old : Order) (u1 : UpdateData),
    find_order tradeId coll = Some old
    /\ (u1 = u \/ u1 = update_priceRange old u)
    /\ tr_data r
       = Some (apply_update old (update_tradeAmount (update_profitLoss u1)) now)
    /\ coll'
       = replace_order tradeId
           (apply_update old (update_tradeAmount (update_profitLoss u1)) now)
           coll.
Proof.
  unfold updateTrade, findByIdAndUpdate, findById. intros H Hs.
  destruct (isSome (u_priceRangeLow u) || isSome (u_priceRangeHigh u))%bool.
  - destruct (ObjectId_isValid tradeId); simpl in H;
      [| inversion H; subst; discriminate].
    destruct (find_order tradeId coll) as [old |] eqn:E;
      [| inversion H; subst; discriminate].
    destruct (negb (validate_update _));
      [inversion H; subst; discriminate |].
    destruct (modifies_id old _); [inversion H; subst; discriminate |].
    inversion H; subst. exists old, (update_priceRange old u). auto.
  - destruct (negb (ObjectId_isValid tradeId));
      [inversion H; subst; discriminate |].
    destruct (negb (validate_update _));
      [inversion H; subst; discriminate |].
    destruct (find_order tradeId coll) as [old |] eqn:E;
      [| inversion H; subst; discriminate].
    destruct (modifies_id old _); [inversion H; subst; discriminate |].
    inversion H; subst. exists old, u. auto.
Qed.

(** The profit/loss block reads the three prices from the body only. *)
Lemma update_profitLoss_computed (u : UpdateData) (sell buy qty : Q) :
  u_sellPrice u = Some sell -> u_buyPrice u = Some buy ->
  u_quantity u = Some qty ->
  (Js.truthy_num sell && Js.truthy_num buy && Js.truthy_num qty)%bool = true ->
  u_profitLoss (update_profitLoss u)
  = Some (match u_type u with
          | Some t =>
              if String.eqb (Js.toUpperCase t) "LONG"
              then sell * qty - buy * qty else buy * qty - sell * qty
          | None => buy * qty - sell * qty
          end).
Proof.
  intros Hs Hb Hq Ht. unfold update_profitLoss. rewrite Hs, Hb, Hq, Ht.
  simpl. destruct (u_type u); reflexivity.
Qed.

Lemma update_profitLoss_skipped (u : UpdateData) :
  (Js.truthy_opt_num (u_sellPrice u) && Js.truthy_opt_num (u_buyPrice u)
   && Js.truthy_opt_num (u_quantity u))%bool = false ->
  update_profitLoss u = u.
Proof.
  unfold update_profitLoss, Js.truthy_opt_num. intros H.
  destruct (u_sellPrice u), (u_buyPrice u), (u_quantity u); try reflexivity.
  now rewrite H.
Qed.

Lemma update_tradeAmount_profitLoss (u : UpdateData) :
  u_profitLoss (update_tradeAmount u) = u_profitLoss u.
Proof.
  unfold update_tradeAmount.
  destruct (u_quantity u), (u_buyPrice u); try reflexivity.
  destruct (_ && _)%bool; reflexivity.
Qed.

Lemma update_profitLoss_fields (u : UpdateData) :
  u_quantity (update_profitLoss u) = u_quantity u
  /\ u_buyPrice (update_profitLoss u) = u_buyPrice u.
Proof.
  unfold update_profitLoss.
  destruct (u_sellPrice u), (u_buyPrice u) eqn:Eb, (u_quantity u) eqn:Eq;
    auto.
  destruct (_ && _)%bool; simpl; auto.
Qed.

Lemma truthy_num_nonzero (q : Q) : ~ q == 0 -> Js.truthy_num q = true.
Proof.
  intros H. unfold Js.truthy_num. apply negb_true_iff.
  destruct (Qeq_bool q 0) eqn:E; [| reflexivity].
  apply Qeq_bool_eq in E. contradiction.
Qed.

(** The price-range block leaves the fields the later blocks read alone. *)
Lemma update_priceRange_fields (old : Order) (u : UpdateData) :
  u_sellPrice (update_priceRange old u) = u_sellPrice u
  /\ u_buyPrice (update_priceRange old u) = u_buyPrice u
  /\ u_quantity (update_priceRange old u) = u_quantity u
  /\ u_type (update_priceRange old u) = u_type u
  /\ u_profitLoss (update_priceRange old u) = u_profitLoss u
  /\ u_tradeAmount (update_priceRange old u) = u_tradeAmount u.
Proof. unfold update_priceRange. simpl. auto 10. Qed.

(** When the body carries a non-zero quantity and a non-zero buy price
    together, the stored document satisfies the equation again. *)
Lemma updateTrade_both_fields_recompute (tradeId : string) (now : Z)
    (u : UpdateData) (coll coll' : list Order) (r : TradeResponse)
    (qty buy : Q) :
  updateTrade ObjectId_isValid validate_update tradeId now u coll = (r, coll') ->
  tr_status r = 200%Z ->
  u_quantity u = Some qty -> u_buyPrice u = Some buy ->
  ~ qty == 0 -> ~ buy == 0 ->
  exists o' : Order,
    tr_data r = Some o'
    /\ tradeAmount o' = quantity o' * buyPrice o'.
Proof.
  intros H Hs Hq Hb Hq0 Hb0.
  destruct (updateTrade_ok _ _ _ _ _ _ H Hs) as (old & u1 & _ & Hu1 & Hd & _).
  eexists. split; [exact Hd |].
  assert (Hq1 : u_quantity u1 = Some qty).
  { destruct Hu1 as [-> | ->]; [exact Hq |].
    now rewrite (proj1 (proj2 (proj2 (update_priceRange_fields old u)))). }
  assert (Hb1 : u_buyPrice u1 = Some buy).
  { destruct Hu1 as [-> | ->]; [exact Hb |].
    now rewrite (proj1 (proj2 (update_priceRange_fields old u))). }
  assert (Hq2 : u_quantity (update_profitLoss u1) = Some qty).
  { now rewrite (proj1 (update_profitLoss_fields u1)). }
  assert (Hb2 : u_buyPrice (update_profitLoss u1) = Some buy).
  { now rewrite (proj2 (update_profitLoss_fields u1)). }
  unfold update_tradeAmount. rewrite Hq2, Hb2.
  rewrite (truthy_num_nonzero _ Hq0), (truthy_num_nonzero _ Hb0). simpl.
  reflexivity.
Qed.

(** The profit/loss block, as the code has it: a successful [updateTrade]
    computes [profitLoss] from the request body alone.  When the body
    carries non-zero [sellPrice], [buyPrice] and [quantity] and a [type],
    the stored value is [sell * qty - buy * qty] for LONG and
    [buy * qty - sell * qty] for SHORT (in any letter case); when one of the
    three is missing or zero nothing is computed, and the stored
    [profitLoss] is the body's own, or else the old one. *)
Lemma updateTrade_profitLoss_from_body (tradeId : string) (now : Z)
    (u : UpdateData) (coll coll' : list Order) (r : TradeResponse) :
  updateTrade ObjectId_isValid validate_update tradeId now u coll = (r, coll') ->
  tr_status r = 200%Z ->
  exists old o' : Order,
    find_order tradeId coll = Some old
    /\ tr_data r = Some o'
    /\ (forall (sell buy qty : Q) (t : string),
          u_sellPrice u = Some sell -> u_buyPrice u = Some buy ->
          u_quantity u = Some qty -> u_type u = Some t ->
          ~ sell == 0 -> ~ buy == 0 -> ~ qty == 0 ->
          (Js.toUpperCase t = "LONG" ->
           profitLoss o' = Some (sell * qty - buy * qty))
          /\ (Js.toUpperCase t = "SHORT" ->
              profitLoss o' = Some (buy * qty - sell * qty)))
    /\ ((Js.truthy_opt_num (u_sellPrice u) && Js.truthy_opt_num (u_buyPrice u)
         && Js.truthy_opt_num (u_quantity u))%bool = false ->
        profitLoss o'
        = match u_profitLoss u with
          | Some p => Some p
          | None => profitLoss old
          end).
Proof.
  intros H Hs.
  destruct (updateTrade_ok _ _ _ _ _ _ H Hs) as (old & u1 & Hf & Hu1 & Hd & _).
  assert (Hfields :
    u_sellPrice u1 = u_sellPrice u /\ u_buyPrice u1 = u_buyPrice u
    /\ u_quantity u1 = u_quantity u /\ u_type u1 = u_type u
    /\ u_profitLoss u1 = u_profitLoss u).
  { destruct Hu1 as [-> | ->]; [auto 10 |].
    pose proof (update_priceRange_fields old u). tauto. }
  destruct Hfields as (Es & Eb & Eq & Et & Ep).
  exists old. eexists. split; [exact Hf |]. split; [exact Hd |].
  simpl. rewrite update_tradeAmount_profitLoss. split.
  - intros sell buy qty t Hsell Hbuy Hqty Hty Ns Nb Nq.
    rewrite (update_profitLoss_computed u1 sell buy qty);
      try congruence.
    + rewrite Et, Hty. split; intros Hup; rewrite Hup; reflexivity.
    + now rewrite !truthy_num_nonzero.
  - intros Hfalse. rewrite update_profitLoss_skipped; [now rewrite Ep |].
    now rewrite Es, Eb, Eq.
Qed.

End TradeFacts.

Section TradeExamples.
Import Model Trades.

(** C7 (the code departs from the claim, and from its own comment
    "Calculate profit/loss if sellPrice is provided"): the profit/loss
    block reads the buy price, the quantity and the type from the request
    body only and never from the stored order, unlike the price-range
    block before it, which falls back to [existingTrade].  An order
    created LONG with quantity 2 at buy price 10 and closed by the accepted
    update [{ sellPrice: 12, status: 'CLOSED' }] is stored CLOSED with its
    buy price, its sell price and its quantity and with no [profitLoss],
    where [12 * 2 - 10 * 2 = 4] is due.  The accepted update
    [{ quantity: 2, buyPrice: 10, sellPrice: 12, status: 'CLOSED' }], which
    leaves the type out, stores the SHORT figure [10 * 2 - 12 * 2 = -4] on
    the same LONG order; only with [type: 'long'] in the body as well is
    [4] stored. *)
Theorem updateTrade_profitLoss_ignores_stored_order :
  let created :=
    createTrade Samples.accept_all "o1" 0 Samples.create_body [] in
  let closed :=
    updateTrade Samples.accept_all Samples.accept_all "o1" 1
      Samples.update_close_at_12 (snd created) in
  let closed_without_type :=
    updateTrade Samples.accept_all Samples.accept_all "o1" 1
      Samples.update_close_without_type (snd created) in
  let closed_in_full :=
    updateTrade Samples.accept_all Samples.accept_all "o1" 1
      Samples.update_full_close (snd created) in
  exists o0 o1 o2 o3 : Order,
    created = (mkTradeResponse 201 (Some o0), [o0])
    /\ type o0 = "LONG" /\ quantity o0 == 2 /\ buyPrice o0 == 10
    /\ closed = (mkTradeResponse 200 (Some o1), [o1])
    /\ type o1 = "LONG" /\ status o1 = CLOSED
    /\ quantity o1 == 2 /\ buyPrice o1 == 10 /\ sellPrice o1 = Some 12
    /\ profitLoss o1 = None
    /\ closed_without_type = (mkTradeResponse 200 (Some o2), [o2])
    /\ type o2 = "LONG" /\ status o2 = CLOSED
    /\ quantity o2 == 2 /\ buyPrice o2 == 10 /\ sellPrice o2 = Some 12
    /\ (exists p : Q,
          profitLoss o2 = Some p
          /\ p == - 4
          /\ ~ p == 12 * 2 - 10 * 2)
    /\ closed_in_full = (mkTradeResponse 200 (Some o3), [o3])
    /\ exists p : Q, profitLoss o3 = Some p /\ p == 12 * 2 - 10 * 2.
Proof.
  eexists. eexists. eexists. eexists. split; [reflexivity |].
  do 3 (split; [vm_compute; reflexivity |]).
  split; [reflexivity |].
  do 6 (split; [vm_compute; reflexivity |]).
  split; [reflexivity |].
  do 5 (split; [vm_compute; reflexivity |]).
  split.
  { eexists. split; [reflexivity |].
    split; [vm_compute; reflexivity | vm_compute; discriminate]. }
  split; [reflexivity |].
  eexists. split; [reflexivity | vm_compute; reflexivity].
Qed.

(** C6 (the code departs from the claim): an order created with quantity 2
    at buy price 10 satisfies [tradeAmount = quantity * buyPrice]; the
    update [{ quantity: 5 }] is accepted with 200 and stores quantity 5,
    buy price 10 and the stale trade amount 20. *)
Theorem updateTrade_quantity_only_stale_tradeAmount :
  let created :=
    createTrade Samples.accept_all "o1" 0 Samples.create_body [] in
  let updated :=
    updateTrade Samples.accept_all Samples.accept_all "o1" 1
      Samples.update_quantity_only (snd created) in
  exists o0 o1 : Order,
    created = (mkTradeResponse 201 (Some o0), [o0])
    /\ tradeAmount o0 == quantity o0 * buyPrice o0
    /\ updated = (mkTradeResponse 200 (Some o1), [o1])
    /\ quantity o1 == 5 /\ buyPrice o1 == 10 /\ tradeAmount o1 == 20
    /\ ~ tradeAmount o1 == quantity o1 * buyPrice o1.
Proof.
  eexists. eexists. split; [reflexivity |].
  split; [reflexivity |].
  split; [reflexivity |].
  repeat split; try (vm_compute; reflexivity).
  vm_compute. discriminate.
Qed.

End TradeExamples.

(** ** Notification gateway *)

Section MailFacts.
Import Mail.

Variable env : Env.

Lemma count_app (p : Event -> bool) (a b : list Event) :
  count p (a ++ b) = (count p a + count p b)%nat.
Proof. unfold count. now rewrite List.filter_app, List.length_app. Qed.

Lemma waits_app (a b : list Event) : waits (a ++ b) = (waits a ++ waits b)%list.
Proof. unfold waits. apply flat_map_app. Qed.

Lemma send_smtp_trace (m : Mailer) :
  exists evs : list Event,
    one_send m (snd (send_smtp env m)) evs /\ count is_resend evs = 0%nat.
Proof.
  unfold send_smtp, getTransporter, one_send, emit.
  destruct (transporterInstance m); simpl.
  - destruct (smtp_sendMail env (smtpCalls m)); simpl;
      exists [CallSmtp]; cbn; repeat split; auto; lia.
  - destruct (createTransporter env); simpl.
    + destruct (smtp_sendMail env (smtpCalls m)); simpl;
        exists [CreateTransporter; CallSmtp]; cbn;
        rewrite <- ?app_assoc; repeat split; auto; lia.
    + exists [CreateTransporter]; cbn; repeat split; auto; lia.
Qed.

Lemma one_send_nil (m : Mailer) : one_send m m [].
Proof.
  unfold one_send. cbn. rewrite app_nil_r. repeat split; auto; lia.
Qed.

Lemma one_send_after_resend (m m' : Mailer) (evs : list Event) :
  one_send
    (emit CallResend
       (mkMailer (transporterInstance m) (resendClientInstance m)
          (resendInitAttempted m) (S (resendCalls m)) (smtpCalls m)
          (events m))) m' evs ->
  count is_resend evs = 0%nat ->
  one_send m m' (CallResend :: evs).
Proof.
  unfold one_send, emit.
  cbn [events resendCalls smtpCalls].
  intros (He & Ha & Hw & Hr & Hsm & Hrc & Hsc) H0.
  rewrite He, <- app_assoc.
  change (CallResend :: evs) with ([CallResend] ++ evs)%list.
  rewrite !count_app, waits_app, Ha, Hw, H0, Hrc, Hsc, H0. cbn.
  repeat split; auto; lia.
Qed.

Lemma sendEmail_trace (mailOptions : MailOptions) (m : Mailer) :
  exists evs : list Event,
    one_send m (snd (sendEmail env mailOptions m)) evs.
Proof.
  unfold sendEmail.
  destruct (normalizeRecipients _); [exists []; apply one_send_nil |].
  destruct (negb _); [exists []; apply one_send_nil |].
  unfold getResendClient.
  destruct (resendInitAttempted m) eqn:Ei.
  - destruct (resendClientInstance m) eqn:Ec.
    + destruct (resend_send env (resendCalls m)).
      * match goal with
        | |- context [send_smtp env ?m1] =>
            destruct (send_smtp_trace m1) as (evs & Hs & H0)
        end.
        exists (CallResend :: evs). now apply one_send_after_resend.
      * exists [CallResend]. unfold one_send, emit. cbn.
        repeat split; auto; lia.
    + destruct (send_smtp_trace m) as (evs & Hs & _). now exists evs.
  - destruct (negb (Js.truthy_opt_str _)).
    + match goal with
      | |- context [send_smtp env ?m1] =>
          destruct (send_smtp_trace m1) as (evs & Hs & _)
      end.
      exists evs. unfold one_send in *. simpl in *. exact Hs.
    + cbv zeta. destruct (Resend_new env).
      * cbn [resendCalls transporterInstance resendClientInstance
             resendInitAttempted smtpCalls events].
        destruct (resend_send env (resendCalls m)).
        -- match goal with
           | |- context [send_smtp env ?m1] =>
               destruct (send_smtp_trace m1) as (evs & Hs & H0)
           end.
           exists (CallResend :: evs).
           apply one_send_after_resend; [| exact H0].
           unfold one_send, emit in *. simpl in *. exact Hs.
        -- exists [CallResend]. unfold one_send, emit. cbn.
           repeat split; auto; lia.
      * match goal with
        | |- context [send_smtp env ?m1] =>
            destruct (send_smtp_trace m1) as (evs & Hs & _)
        end.
        exists evs. unfold one_send in *. simpl in *. exact Hs.
Qed.

Lemma retry_run_step (attempt maxRetries k : nat) (m m2 m' : Mailer)
    (evs new : list Event) :
  one_send (emit (LogAttempt attempt maxRetries) m) m2 evs ->
  retry_run (S attempt) k
    (emit (Wait (waitTime attempt)) m2) m' new ->
  (0 < k)%nat ->
  retry_run attempt (S k) m m'
    (LogAttempt attempt maxRetries :: evs ++ Wait (waitTime attempt) :: new).
Proof.
  unfold one_send, retry_run, emit. cbn [events resendCalls smtpCalls].
  intros (He & Ha & Hw & Hr & Hsm & Hrc & Hsc)
         (He' & Ha' & Hw' & Hr' & Hsm' & Hrc' & Hsc') Hk.
  change (LogAttempt attempt maxRetries :: evs ++ Wait (waitTime attempt) :: new)
    with ([LogAttempt attempt maxRetries] ++ evs
          ++ [Wait (waitTime attempt)] ++ new)%list.
  rewrite !count_app, !waits_app, Ha, Hw, Ha', Hw'.
  rewrite He', He, Hrc', Hsc', Hrc, Hsc.
  rewrite <- !app_assoc. cbn.
  destruct k as [| k']; [lia |]. cbn.
  repeat split; auto; lia.
Qed.

Lemma retry_run_once (attempt maxRetries : nat) (m m2 : Mailer)
    (evs : list Event) :
  one_send (emit (LogAttempt attempt maxRetries) m) m2 evs ->
  retry_run attempt 1 m m2 (LogAttempt attempt maxRetries :: evs).
Proof.
  unfold one_send, retry_run, emit. cbn [events resendCalls smtpCalls].
  intros (He & Ha & Hw & Hr & Hsm & Hrc & Hsc).
  change (LogAttempt attempt maxRetries :: evs)
    with ([LogAttempt attempt maxRetries] ++ evs)%list.
  rewrite !count_app, !waits_app, Ha, Hw, He, Hrc, Hsc.
  rewrite <- !app_assoc. cbn.
  repeat split; auto; lia.
Qed.

Lemma retry_run_reset (attempt k : nat) (m m' : Mailer) (new : list Event) :
  retry_run attempt k
    (mkMailer false (resendClientInstance m) (resendInitAttempted m)
       (resendCalls m) (smtpCalls m) (events m)) m' new ->
  retry_run attempt k m m' new.
Proof. unfold retry_run. cbn [events resendCalls smtpCalls]. auto. Qed.

(** The retry loop, from any iteration on. *)
Lemma retry_loop_trace (mailOptions : MailOptions) (maxRetries : nat) :
  forall (remaining attempt : nat) (lastError : Thrown) (m : Mailer),
    (attempt + remaining = S maxRetries)%nat ->
    exists (k : nat) (new : list Event),
      retry_run attempt k m
        (snd (retry_loop env mailOptions maxRetries attempt remaining
                lastError m)) new
      /\ (k <= remaining)%nat
      /\ ((0 < remaining)%nat -> (0 < k)%nat)
      /\ (forall t : Thrown,
            fst (retry_loop env mailOptions maxRetries attempt remaining
                   lastError m) = inl t ->
            k = remaining
            /\ ((0 < remaining)%nat ->
                exists (e : JsError) (m_last : Mailer),
                  t = ThrowError e
                  /\ fst (sendEmail env mailOptions
                            (emit (LogAttempt maxRetries maxRetries) m_last))
                     = inl e)).
Proof.
  induction remaining as [| remaining IH]; intros attempt lastError m Hinv.
  - exists 0%nat, []. cbn. unfold retry_run. cbn. rewrite app_nil_r.
    repeat split; auto; lia.
  - cbn [retry_loop].
    destruct (sendEmail_trace mailOptions (emit (LogAttempt attempt maxRetries) m))
      as (evs & Hone).
    destruct (sendEmail env mailOptions (emit (LogAttempt attempt maxRetries) m))
      as [[error | info] m2] eqn:Es; cbn [snd] in Hone.
    + destruct (Nat.eqb attempt maxRetries) eqn:Eatt.
      * apply Nat.eqb_eq in Eatt. subst attempt.
        exists 1%nat, (LogAttempt maxRetries maxRetries :: evs).
        cbn [fst snd]. split; [now apply retry_run_once |].
        split; [lia |]. split; [lia |].
        intros t Ht. inversion Ht; subst t. split; [lia |].
        intros _. exists error, m. split; [reflexivity |].
        now rewrite Es.
      * apply Nat.eqb_neq in Eatt.
        set (m3 := if isConnectionError error then _ else _).
        destruct (IH (S attempt) (ThrowError error) m3 ltac:(lia))
          as (k & new & Hrun & Hk & Hpos & Hthrow).
        exists (S k),
          (LogAttempt attempt maxRetries :: evs
           ++ Wait (waitTime attempt) :: new)%list.
        split.
        { apply (retry_run_step _ _ _ _ m2); [exact Hone | | apply Hpos; lia].
          subst m3. destruct (isConnectionError error);
            [apply retry_run_reset |]; exact Hrun. }
        split; [lia |]. split; [lia |].
        intros t Ht. destruct (Hthrow t Ht) as (Hkeq & Hlast).
        split; [lia |]. intros _. apply Hlast. lia.
    + exists 1%nat, (LogAttempt attempt maxRetries :: evs).
      cbn [fst snd]. split; [now apply retry_run_once |].
      split; [lia |]. split; [lia |]. intros t Ht. discriminate.
Qed.

Lemma getDefaultFromAddress_truthy :
  Js.truthy_str (getDefaultFromAddress env) = true.
Proof.
  unfold getDefaultFromAddress.
  destruct (option_map Js.trim (EMAIL_FROM env)) as [f |];
    [destruct (Js.truthy_str f) eqn:Ef; [exact Ef |] |];
    (destruct (option_map Js.trim (EMAIL_USER env)) as [u |];
     [destruct (Js.truthy_str u) eqn:Eu; [exact Eu |] |]); reflexivity.
Qed.

Lemma send_smtp_keeps_api (m : Mailer) :
  resendCalls (snd (send_smtp env m)) = resendCalls m
  /\ resendInitAttempted (snd (send_smtp env m)) = resendInitAttempted m
  /\ resendClientInstance (snd (send_smtp env m)) = resendClientInstance m.
Proof.
  unfold send_smtp, getTransporter.
  destruct (transporterInstance m); cbn.
  - destruct (smtp_sendMail env (smtpCalls m)); cbn; auto.
  - destruct (createTransporter env); cbn; auto.
    destruct (smtp_sendMail env (smtpCalls m)); cbn; auto.
Qed.

(** With the API client there and a recipient, every [sendEmail] calls
    the API provider once, and the client stays. *)
Lemma sendEmail_api_called (mailOptions : MailOptions) (m : Mailer) :
  api_ready env m ->
  normalizeRecipients (mo_to mailOptions) <> [] ->
  resendCalls (snd (sendEmail env mailOptions m)) = S (resendCalls m)
  /\ api_ready env (snd (sendEmail env mailOptions m)).
Proof.
  unfold api_ready, sendEmail. intros Hready Hrec.
  destruct (normalizeRecipients (mo_to mailOptions)); [contradiction |].
  match goal with
  | |- context [negb (Js.truthy_str ?a)] =>
      assert (Ha : Js.truthy_str a = true)
  end.
  { destruct (option_map Js.trim (mo_from mailOptions)) as [f |];
      [destruct (Js.truthy_str f) eqn:Ef; [exact Ef |] |];
      apply getDefaultFromAddress_truthy. }
  rewrite Ha. cbn [negb].
  destruct (getResendClient env m) as [client m1] eqn:Eg.
  cbn [fst] in Hready. subst client.
  assert (Hm1 : resendCalls m1 = resendCalls m
                /\ resendInitAttempted m1 = true
                /\ resendClientInstance m1 = true).
  { unfold getResendClient in Eg.
    destruct (resendInitAttempted m) eqn:Ei;
      [| destruct (negb (Js.truthy_opt_str _)); [discriminate |]];
      inversion Eg; subst; cbn; repeat split; congruence. }
  destruct Hm1 as (Hc & Hi & Hcl).
  destruct (resend_send env (resendCalls m1)).
  - match goal with
    | |- context [send_smtp env ?m2] =>
        destruct (send_smtp_keeps_api m2) as (Kc & Ki & Kcl)
    end.
    unfold getResendClient. rewrite Kc, Ki, Kcl. cbn. rewrite Hi, Hcl, Hc.
    auto.
  - unfold getResendClient. cbn. rewrite Hi, Hcl, Hc. auto.
Qed.

(** With the API client there and a recipient, the retry loop calls the
    API provider once per attempt. *)
Lemma retry_loop_api_calls (mailOptions : MailOptions) (maxRetries : nat) :
  normalizeRecipients (mo_to mailOptions) <> [] ->
  forall (remaining attempt : nat) (lastError : Thrown) (m : Mailer),
    api_ready env m ->
    exists new : list Event,
      events (snd (retry_loop env mailOptions maxRetries attempt remaining
                     lastError m))
      = (events m ++ new)%list
      /\ resendCalls (snd (retry_loop env mailOptions maxRetries attempt
                             remaining lastError m))
         = (resendCalls m + count is_attempt new)%nat.
Proof.
  intros Hrec.
  induction remaining as [| remaining IH]; intros attempt lastError m Hready.
  - exists []. cbn. rewrite app_nil_r. split; [reflexivity | lia].
  - cbn [retry_loop].
    set (m1 := emit (LogAttempt attempt maxRetries) m).
    assert (Hready1 : api_ready env m1).
    { revert Hready. unfold api_ready, getResendClient. subst m1.
      cbn [emit resendInitAttempted resendClientInstance].
      destruct (resendInitAttempted m); [auto |].
      destruct (negb (Js.truthy_opt_str _)); auto. }
    destruct (sendEmail_trace mailOptions m1) as (evs & He & Ha & _).
    destruct (sendEmail_api_called mailOptions m1 Hready1 Hrec) as (Hc & Hr2).
    destruct (sendEmail env mailOptions m1) as [[error | info] m2];
      cbn [snd] in *.
    + destruct (Nat.eqb attempt maxRetries).
      * exists (LogAttempt attempt maxRetries :: evs). cbn [snd].
        rewrite He, Hc. subst m1. unfold emit. cbn [events resendCalls].
        rewrite <- app_assoc.
        change (LogAttempt attempt maxRetries :: evs)
          with ([LogAttempt attempt maxRetries] ++ evs)%list.
        rewrite count_app, Ha. cbn. split; [reflexivity | lia].
      * set (m3 := if isConnectionError error then _ else _).
        assert (Hready3 : api_ready env m3).
        { revert Hr2. unfold api_ready, getResendClient. subst m3.
          destruct (isConnectionError error);
            cbn [emit resendInitAttempted resendClientInstance];
            (destruct (resendInitAttempted m2); [auto |]);
            destruct (negb (Js.truthy_opt_str _)); auto. }
        destruct (IH (S attempt) (ThrowError error) m3 Hready3)
          as (new & He' & Hc').
        exists (LogAttempt attempt maxRetries :: evs
                ++ Wait (waitTime attempt) :: new)%list.
        rewrite He', Hc'.
        assert (Hev3 : events m3 = (events m2 ++ [Wait (waitTime attempt)])%list)
          by (subst m3; destruct (isConnectionError error); reflexivity).
        assert (Hrc3 : resendCalls m3 = resendCalls m2)
          by (subst m3; destruct (isConnectionError error); reflexivity).
        rewrite Hev3, Hrc3, He, Hc. subst m1. unfold emit.
        cbn [events resendCalls]. rewrite <- !app_assoc.
        change (LogAttempt attempt maxRetries :: evs
                ++ Wait (waitTime attempt) :: new)%list
          with ([LogAttempt attempt maxRetries] ++ evs
                ++ [Wait (waitTime attempt)] ++ new)%list.
        rewrite !count_app, Ha. cbn. split; [reflexivity | lia].
    + exists (LogAttempt attempt maxRetries :: evs). cbn [snd].
      rewrite He, Hc. subst m1. unfold emit. cbn [events resendCalls].
      rewrite <- app_assoc.
      change (LogAttempt attempt maxRetries :: evs)
        with ([LogAttempt attempt maxRetries] ++ evs)%list.
      rewrite count_app, Ha. cbn. split; [reflexivity | lia].
Qed.

(** An API failure falls through to SMTP inside the same [sendEmail]. *)
Lemma sendEmail_falls_through (mailOptions : MailOptions) (m m1 : Mailer)
    (e : JsError) :
  normalizeRecipients (mo_to mailOptions) <> [] ->
  getResendClient env m = (true, m1) ->
  resend_send env (resendCalls m1) = inl e ->
  sendEmail env mailOptions m
  = send_smtp env
      (emit CallResend
         (mkMailer (transporterInstance m1) (resendClientInstance m1)
            (resendInitAttempted m1) (S (resendCalls m1)) (smtpCalls m1)
            (events m1))).
Proof.
  intros Hrec Hg He. unfold sendEmail.
  destruct (normalizeRecipients (mo_to mailOptions)); [contradiction |].
  match goal with
  | |- context [negb (Js.truthy_str ?a)] =>
      assert (Ha : Js.truthy_str a = true)
  end.
  { destruct (option_map Js.trim (mo_from mailOptions)) as [f |];
      [destruct (Js.truthy_str f) eqn:Ef; [exact Ef |] |];
      apply getDefaultFromAddress_truthy. }
  rewrite Ha, Hg, He. reflexivity.
Qed.

Lemma waitTime_values :
  waitTime 1 = 2000%Z /\ waitTime 2 = 4000%Z
  /\ forall attempt : nat, (waitTime attempt <= 10000)%Z.
Proof.
  split; [reflexivity |]. split; [reflexivity |].
  intros attempt. unfold waitTime. apply Z.le_min_r.
Qed.

(** [sendEmailWithRetry(mailOptions, 3)], attempt by attempt. *)
Lemma sendEmailWithRetry_attempts (mailOptions : MailOptions) (m : Mailer) :
  sendEmailWithRetry env mailOptions 3 m
  = match sendEmail env mailOptions (emit (LogAttempt 1 3) m) with
    | (inr info, m1) => (inr info, m1)
    | (inl e1, m1) =>
        match sendEmail env mailOptions
                (emit (LogAttempt 2 3) (backoff 1 e1 m1)) with
        | (inr info, m2) => (inr info, m2)
        | (inl e2, m2) =>
            match sendEmail env mailOptions
                    (emit (LogAttempt 3 3) (backoff 2 e2 m2)) with
            | (inr info, m3) => (inr info, m3)
            | (inl e3, m3) => (inl (ThrowError e3), m3)
            end
        end
    end.
Proof.
  unfold sendEmailWithRetry. cbn [retry_loop Nat.eqb].
  destruct (sendEmail env mailOptions (emit (LogAttempt 1 3) m))
    as [[e1 | info1] m1]; [| reflexivity].
  fold (backoff 1 e1 m1).
  destruct (sendEmail env mailOptions (emit (LogAttempt 2 3) (backoff 1 e1 m1)))
    as [[e2 | info2] m2]; [| reflexivity].
  fold (backoff 2 e2 m2).
  destruct (sendEmail env mailOptions (emit (LogAttempt 3 3) (backoff 2 e2 m2)))
    as [[e3 | info3] m3]; reflexivity.
Qed.

Lemma send_smtp_events (m : Mailer) :
  exists create smtp : bool,
    events (snd (send_smtp env m))
    = (events m ++ send_events false create smtp)%list.
Proof.
  unfold send_smtp, getTransporter, emit.
  destruct (transporterInstance m); cbn.
  - exists false, true.
    destruct (smtp_sendMail env (smtpCalls m)); reflexivity.
  - destruct (createTransporter env); cbn.
    + exists true, true.
      destruct (smtp_sendMail env (smtpCalls m)); cbn;
        now rewrite <- app_assoc.
    + exists true, false. reflexivity.
Qed.

(** One [sendEmail] calls the API at most once, and before anything it
    does on the SMTP side; with the API client there and a recipient it
    does call it. *)
Lemma sendEmail_events (mailOptions : MailOptions) (m : Mailer) :
  exists api create smtp : bool,
    events (snd (sendEmail env mailOptions m))
    = (events m ++ send_events api create smtp)%list
    /\ (api_ready env m ->
        normalizeRecipients (mo_to mailOptions) <> [] -> api = true).
Proof.
  unfold sendEmail, api_ready.
  destruct (normalizeRecipients (mo_to mailOptions)) as [| r rs] eqn:Hrec.
  { exists false, false, false. cbn. rewrite app_nil_r.
    split; [reflexivity |]. intros _ H. now contradiction H. }
  match goal with
  | |- context [negb (Js.truthy_str ?a)] =>
      assert (Ha : Js.truthy_str a = true)
  end.
  { destruct (option_map Js.trim (mo_from mailOptions)) as [f |];
      [destruct (Js.truthy_str f) eqn:Ef; [exact Ef |] |];
      apply getDefaultFromAddress_truthy. }
  rewrite Ha. cbn [negb].
  destruct (getResendClient env m) as [client m1] eqn:Eg.
  assert (Hev : events m1 = events m).
  { unfold getResendClient in Eg.
    destruct (resendInitAttempted m);
      [| destruct (negb (Js.truthy_opt_str _))];
      inversion Eg; subst; reflexivity. }
  cbn [fst]. destruct client.
  - destruct (resend_send env (resendCalls m1)) as [e | rid].
    + match goal with
      | |- context [send_smtp env ?m2] =>
          destruct (send_smtp_events m2) as (create & smtp & Hs)
      end.
      exists true, create, smtp. split; [| reflexivity].
      rewrite Hs. unfold emit, send_events. cbn [events].
      rewrite Hev, <- !app_assoc. reflexivity.
    + exists true, false, false. split; [| reflexivity].
      unfold emit. cbn. now rewrite Hev.
  - destruct (send_smtp_events m1) as (create & smtp & Hs).
    exists false, create, smtp. rewrite Hs, Hev.
    split; [reflexivity |]. intros H. discriminate H.
Qed.

Lemma api_ready_log (attempt maxRetries : nat) (m : Mailer) :
  api_ready env m -> api_ready env (emit (LogAttempt attempt maxRetries) m).
Proof.
  unfold api_ready, getResendClient.
  cbn [emit resendInitAttempted resendClientInstance].
  destruct (resendInitAttempted m); [auto |].
  destruct (negb (Js.truthy_opt_str _)); auto.
Qed.

Lemma api_ready_backoff (attempt : nat) (e : JsError) (m : Mailer) :
  api_ready env m -> api_ready env (backoff attempt e m).
Proof.
  unfold api_ready, getResendClient, backoff.
  destruct (isConnectionError e);
    cbn [emit resendInitAttempted resendClientInstance];
    (destruct (resendInitAttempted m); [auto |]);
    destruct (negb (Js.truthy_opt_str _)); auto.
Qed.

Lemma events_backoff (attempt : nat) (e : JsError) (m : Mailer) :
  events (backoff attempt e m) = (events m ++ [Wait (waitTime attempt)])%list.
Proof. unfold backoff. destruct (isConnectionError e); reflexivity. Qed.

(** Both sides of an equation between traces, flattened. *)
Ltac trace_norm :=
  repeat (progress (rewrite <- ?app_assoc, ?app_nil_r; cbn [app])).

Lemma count_attempt_send_events (api create smtp : bool) :
  count is_attempt (send_events api create smtp) = 0%nat.
Proof. destruct api, create, smtp; reflexivity. Qed.

Lemma count_attempts_trace (maxRetries : nat) (sends : list (list Event)) :
  List.Forall
    (fun evs =>
       exists api create smtp : bool, evs = send_events api create smtp)
    sends ->
  forall attempt : nat,
    count is_attempt (attempts_trace attempt maxRetries sends)
    = List.length sends.
Proof.
  induction 1 as [| evs rest (x & c & s & ->) Hrest IH];
    intros attempt; [reflexivity |].
  cbn [attempts_trace List.length].
  change (LogAttempt attempt maxRetries :: ?l)
    with ([LogAttempt attempt maxRetries] ++ l)%list.
  rewrite !count_app, count_attempt_send_events.
  destruct rest as [| evs' rest']; [reflexivity |].
  change (Wait (waitTime attempt) :: ?l)
    with ([Wait (waitTime attempt)] ++ l)%list.
  rewrite count_app, (IH (S attempt)). reflexivity.
Qed.

(** C4, as the code has it: [sendEmailWithRetry(mailOptions, 3)] makes
    between one and three attempts and waits 2000 ms after the first
    failure and 4000 ms after the second (never more than 10000 ms).  Each
    attempt is one whole [sendEmail]: its events are the log line, then at
    most one API call, then at most one transporter creation and one SMTP
    call, an API failure falling through to SMTP inside the same attempt.
    The retry therefore covers the API path too: with the API client there
    and a recipient, every attempt starts with its own API call.  When the
    call throws, all three attempts failed, each run on the state the one
    before left after its wait, and what is thrown is the error of the
    third. *)
Theorem sendEmailWithRetry_policy (mailOptions : MailOptions) (m : Mailer) :
  exists (k : nat) (new : list Event),
    events (snd (sendEmailWithRetry env mailOptions 3 m))
    = (events m ++ new)%list
    /\ count is_attempt new = k
    /\ (1 <= k <= 3)%nat
    /\ waits new = firstn (pred k) [2000; 4000]%Z
    /\ (forall attempt : nat, (waitTime attempt <= 10000)%Z)
    /\ (count is_resend new <= k)%nat
    /\ (count is_smtp new <= k)%nat
    /\ resendCalls (snd (sendEmailWithRetry env mailOptions 3 m))
       = (resendCalls m + count is_resend new)%nat
    /\ smtpCalls (snd (sendEmailWithRetry env mailOptions 3 m))
       = (smtpCalls m + count is_smtp new)%nat
    /\ (api_ready env m ->
        normalizeRecipients (mo_to mailOptions) <> [] ->
        count is_resend new = k)
    /\ (forall (m0 m1 : Mailer) (e : JsError),
          normalizeRecipients (mo_to mailOptions) <> [] ->
          getResendClient env m0 = (true, m1) ->
          resend_send env (resendCalls m1) = inl e ->
          sendEmail env mailOptions m0
          = send_smtp env
              (emit CallResend
                 (mkMailer (transporterInstance m1) (resendClientInstance m1)
                    (resendInitAttempted m1) (S (resendCalls m1))
                    (smtpCalls m1) (events m1))))
    /\ (exists sends : list (list Event),
          new = attempts_trace 1 3 sends
          /\ List.length sends = k
          /\ List.Forall
               (fun evs =>
                  exists api create smtp : bool,
                    evs = send_events api create smtp) sends
          /\ (api_ready env m ->
              normalizeRecipients (mo_to mailOptions) <> [] ->
              List.Forall
                (fun evs =>
                   exists create smtp : bool,
                     evs = send_events true create smtp) sends))
    /\ (forall t : Thrown,
          fst (sendEmailWithRetry env mailOptions 3 m) = inl t ->
          k = 3%nat
          /\ exists (e1 e2 e3 : JsError) (m1 m2 m3 : Mailer),
               sendEmail env mailOptions (emit (LogAttempt 1 3) m)
               = (inl e1, m1)
               /\ sendEmail env mailOptions
                    (emit (LogAttempt 2 3) (backoff 1 e1 m1))
                  = (inl e2, m2)
               /\ sendEmail env mailOptions
                    (emit (LogAttempt 3 3) (backoff 2 e2 m2))
                  = (inl e3, m3)
               /\ t = ThrowError e3
               /\ snd (sendEmailWithRetry env mailOptions 3 m) = m3).
Proof.
  destruct (retry_loop_trace mailOptions 3 3 1 ThrowUndefined m eq_refl)
    as (k & new & Hrun & Hk & Hpos & Hthrow).
  fold (sendEmailWithRetry env mailOptions 3 m) in Hrun, Hthrow.
  destruct Hrun as (He & Ha & Hw & Hr & Hs & Hrc & Hsc).
  assert (Hk1 : (1 <= k <= 3)%nat) by (split; [apply Hpos |]; lia).
  exists k, new.
  split; [exact He |]. split; [exact Ha |]. split; [exact Hk1 |].
  split.
  { rewrite Hw. destruct k as [| [| [| [| k]]]]; try lia; reflexivity. }
  split; [apply waitTime_values |].
  split; [exact Hr |]. split; [exact Hs |]. split; [exact Hrc |].
  split; [exact Hsc |]. split.
  { intros Hready Hrec.
    destruct (retry_loop_api_calls mailOptions 3 Hrec 3 1 ThrowUndefined m
                Hready) as (new' & He' & Hc').
    fold (sendEmailWithRetry env mailOptions 3 m) in He', Hc'.
    rewrite He in He'. apply app_inv_head in He'. subst new'.
    rewrite Hrc, Ha in Hc'. lia. }
  split; [intros m0 m1 e; apply sendEmail_falls_through |].
  (* the run, attempt by attempt *)
  set (a1 := emit (LogAttempt 1 3) m).
  destruct (sendEmail_events mailOptions a1) as (x1 & c1 & s1 & Hev1 & Hx1).
  assert (Hrun :
    (exists sends : list (list Event),
       events (snd (sendEmailWithRetry env mailOptions 3 m))
       = (events m ++ attempts_trace 1 3 sends)%list
       /\ List.Forall
            (fun evs =>
               exists api create smtp : bool,
                 evs = send_events api create smtp) sends
       /\ (api_ready env m ->
           normalizeRecipients (mo_to mailOptions) <> [] ->
           List.Forall
             (fun evs =>
                exists create smtp : bool,
                  evs = send_events true create smtp) sends))
    /\ (forall t : Thrown,
          fst (sendEmailWithRetry env mailOptions 3 m) = inl t ->
          exists (e1 e2 e3 : JsError) (m1 m2 m3 : Mailer),
            sendEmail env mailOptions a1 = (inl e1, m1)
            /\ sendEmail env mailOptions
                 (emit (LogAttempt 2 3) (backoff 1 e1 m1))
               = (inl e2, m2)
            /\ sendEmail env mailOptions
                 (emit (LogAttempt 3 3) (backoff 2 e2 m2))
               = (inl e3, m3)
            /\ t = ThrowError e3
            /\ snd (sendEmailWithRetry env mailOptions 3 m) = m3)).
  { rewrite sendEmailWithRetry_attempts. fold a1.
    assert (Hr1 : api_ready env m -> api_ready env a1)
      by apply api_ready_log.
    destruct (sendEmail env mailOptions a1) as [[e1 | info1] m1] eqn:E1;
      cbn [snd] in Hev1.
    2:{ split; [| intros t Ht; discriminate Ht].
        exists [send_events x1 c1 s1]. cbn [snd attempts_trace].
        split.
        { rewrite Hev1. subst a1. unfold emit. cbn [events].
          trace_norm. reflexivity. }
        split; [repeat constructor; eauto |].
        intros Hready Hrec. rewrite (Hx1 (Hr1 Hready) Hrec).
        repeat constructor; eauto. }
    set (a2 := emit (LogAttempt 2 3) (backoff 1 e1 m1)).
    destruct (sendEmail_events mailOptions a2) as (x2 & c2 & s2 & Hev2 & Hx2).
    assert (Hr2 : api_ready env m ->
                  normalizeRecipients (mo_to mailOptions) <> [] ->
                  api_ready env a2).
    { intros Hready Hrec. apply api_ready_log, api_ready_backoff.
      pose proof (sendEmail_api_called mailOptions a1 (Hr1 Hready) Hrec)
        as (_ & H).
      now rewrite E1 in H. }
    assert (Hea2 : events a2
                   = (events m ++ LogAttempt 1 3 :: send_events x1 c1 s1
                      ++ [Wait (waitTime 1); LogAttempt 2 3])%list).
    { subst a2 a1. unfold emit in *. cbn [events] in *.
      rewrite events_backoff, Hev1. trace_norm. reflexivity. }
    destruct (sendEmail env mailOptions a2) as [[e2 | info2] m2] eqn:E2;
      cbn [snd] in Hev2.
    2:{ split; [| intros t Ht; discriminate Ht].
        exists [send_events x1 c1 s1; send_events x2 c2 s2].
        cbn [snd attempts_trace].
        split.
        { rewrite Hev2, Hea2. trace_norm. reflexivity. }
        split; [repeat constructor; eauto |].
        intros Hready Hrec.
        rewrite (Hx1 (Hr1 Hready) Hrec), (Hx2 (Hr2 Hready Hrec) Hrec).
        repeat constructor; eauto. }
    set (a3 := emit (LogAttempt 3 3) (backoff 2 e2 m2)).
    destruct (sendEmail_events mailOptions a3) as (x3 & c3 & s3 & Hev3 & Hx3).
    assert (Hr3 : api_ready env m ->
                  normalizeRecipients (mo_to mailOptions) <> [] ->
                  api_ready env a3).
    { intros Hready Hrec. apply api_ready_log, api_ready_backoff.
      pose proof (sendEmail_api_called mailOptions a2 (Hr2 Hready Hrec) Hrec)
        as (_ & H).
      now rewrite E2 in H. }
    assert (Hea3 : events a3
                   = (events m ++ LogAttempt 1 3 :: send_events x1 c1 s1
                      ++ [Wait (waitTime 1); LogAttempt 2 3]
                      ++ send_events x2 c2 s2
                      ++ [Wait (waitTime 2); LogAttempt 3 3])%list).
    { subst a3. unfold emit in *. cbn [events] in *.
      rewrite events_backoff, Hev2, Hea2. trace_norm. reflexivity. }
    assert (Hsends :
      events (snd (sendEmail env mailOptions a3))
      = (events m
         ++ attempts_trace 1 3
              [send_events x1 c1 s1; send_events x2 c2 s2;
               send_events x3 c3 s3])%list).
    { rewrite Hev3, Hea3. cbn [attempts_trace]. trace_norm. reflexivity. }
    assert (Hshape :
      List.Forall
        (fun evs =>
           exists api create smtp : bool, evs = send_events api create smtp)
        [send_events x1 c1 s1; send_events x2 c2 s2; send_events x3 c3 s3])
      by (repeat constructor; eauto).
    assert (Hapi :
      api_ready env m ->
      normalizeRecipients (mo_to mailOptions) <> [] ->
      List.Forall
        (fun evs =>
           exists create smtp : bool, evs = send_events true create smtp)
        [send_events x1 c1 s1; send_events x2 c2 s2; send_events x3 c3 s3]).
    { intros Hready Hrec.
      rewrite (Hx1 (Hr1 Hready) Hrec), (Hx2 (Hr2 Hready Hrec) Hrec),
        (Hx3 (Hr3 Hready Hrec) Hrec).
      repeat constructor; eauto. }
    destruct (sendEmail env mailOptions a3) as [[e3 | info3] m3] eqn:E3;
      cbn [snd fst] in *.
    - split; [eexists; split; [exact Hsends |]; split; assumption |].
      intros t Ht. inversion Ht; subst t.
      exists e1, e2, e3, m1, m2, m3.
      split; [reflexivity |]. split; [exact E2 |]. split; [exact E3 |].
      split; reflexivity.
    - split; [eexists; split; [exact Hsends |]; split; assumption |].
      intros t Ht. discriminate Ht. }
  destruct Hrun as ((sends & Hes & Hshape & Hapi) & Hchain).
  rewrite He in Hes. apply app_inv_head in Hes.
  split.
  - exists sends. split; [exact Hes |]. split; [| split; assumption].
    rewrite <- Ha, Hes. symmetry. now apply count_attempts_trace.
  - intros t Ht. destruct (Hthrow t Ht) as (Hk3 & _).
    split; [exact Hk3 |]. subst a1. exact (Hchain t Ht).
Qed.

End MailFacts.

Section MailExamples.
Import Mail.

Lemma sendEmailWithRetry_policy_witness :
  (api_ready Samples.failing_env initial
   /\ exists (k : nat) (new : list Event),
        events
          (snd (sendEmailWithRetry Samples.failing_env Samples.mail 3 initial))
        = new
        /\ (1 <= k <= 3)%nat
        /\ count is_resend new = k)
  /\ exists (e1 e3 : JsError) (m1 : Mailer),
       sendEmail MoreSamples.flaky_smtp_env Samples.mail
         (emit (LogAttempt 1 3) initial)
       = (inl e1, m1)
       /\ err_code e1 = Some "ETIMEDOUT"
       /\ fst (sendEmailWithRetry MoreSamples.flaky_smtp_env Samples.mail 3
                 initial)
          = inl (ThrowError e3)
       /\ err_code e3 = Some "EAUTH".
Proof.
  split.
  - split; [reflexivity |].
    destruct (sendEmailWithRetry_policy Samples.failing_env Samples.mail
                initial)
      as (k & new & He & _ & Hk & _ & _ & _ & _ & _ & _ & Hapi & _).
    exists k, new. split; [exact He |]. split; [exact Hk |].
    apply Hapi; [reflexivity | discriminate].
  - destruct (sendEmailWithRetry_policy MoreSamples.flaky_smtp_env
                Samples.mail initial)
      as (k & new & _ & _ & _ & _ & _ & _ & _ & _ & _ & _ & _ & _ & Hthrow).
    assert (Hf : fst (sendEmailWithRetry MoreSamples.flaky_smtp_env
                        Samples.mail 3 initial)
                 = inl (ThrowError (mkError "Invalid login" (Some "EAUTH"))))
      by reflexivity.
    destruct (Hthrow _ Hf)
      as (_ & e1 & e2 & e3 & m1 & m2 & m3 & H1 & _ & _ & Ht & _).
    inversion Ht; subst e3.
    exists e1, (mkError "Invalid login" (Some "EAUTH")), m1.
    split; [exact H1 |]. split; [| split; [exact Hf | reflexivity]].
    cbv in H1. inversion H1. reflexivity.
Defined.

(** C4 as stated fails: with both providers down, the three attempts call
    the API provider three times, each time before SMTP; the retry is not
    confined to the SMTP path. *)
Lemma sendEmailWithRetry_retries_api :
  let r := sendEmailWithRetry Samples.failing_env Samples.mail 3 initial in
  fst r = inl (ThrowError (mkError "Connection timeout" (Some "ETIMEDOUT")))
  /\ events (snd r)
     = [LogAttempt 1 3; CallResend; CreateTransporter; CallSmtp; Wait 2000;
        LogAttempt 2 3; CallResend; CreateTransporter; CallSmtp; Wait 4000;
        LogAttempt 3 3; CallResend; CreateTransporter; CallSmtp]
  /\ resendCalls (snd r) = 3%nat
  /\ smtpCalls (snd r) = 3%nat.
Proof. repeat split; vm_compute; reflexivity. Qed.

End MailExamples.

(** ** Approval workflow *)

Section GatewayDown.
Import Mail.

Variable env : Env.

(** Every call to either provider raises. *)
Hypothesis api_down : forall k : nat, exists e : JsError, resend_send env k = inl e.
Hypothesis smtp_down : forall k : nat, exists e : JsError, smtp_sendMail env k = inl e.

Lemma sendEmail_fails (mailOptions : MailOptions) (m : Mailer) :
  exists e : JsError, fst (sendEmail env mailOptions m) = inl e.
Proof.
  assert (Hsmtp : forall m0, exists e, fst (send_smtp env m0) = inl e).
  { intros m0. unfold send_smtp.
    destruct (getTransporter env m0) as [t m1].
    destruct t; cbn [negb]; [| eexists; reflexivity].
    destruct (smtp_down (smtpCalls m1)) as (e & He). rewrite He.
    now exists e. }
  unfold sendEmail.
  destruct (normalizeRecipients _); [eexists; reflexivity |].
  destruct (negb _); [eexists; reflexivity |].
  destruct (getResendClient env m) as [client m1].
  destruct client; [| apply Hsmtp].
  destruct (api_down (resendCalls m1)) as (e & He). rewrite He. apply Hsmtp.
Qed.

Lemma retry_loop_fails (mailOptions : MailOptions) (maxRetries : nat) :
  forall (remaining attempt : nat) (lastError : Thrown) (m : Mailer),
    exists t : Thrown,
      fst (retry_loop env mailOptions maxRetries attempt remaining lastError m)
      = inl t.
Proof.
  induction remaining as [| remaining IH]; intros attempt lastError m.
  - eexists. reflexivity.
  - cbn [retry_loop].
    destruct (sendEmail_fails mailOptions (emit (LogAttempt attempt maxRetries) m))
      as (e & He).
    destruct (sendEmail env mailOptions _) as [[error | info] m2];
      cbn [fst] in He; [| discriminate].
    destruct (Nat.eqb attempt maxRetries); [eexists; reflexivity |].
    apply IH.
Qed.

(** With both providers down, the gateway throws. *)
Lemma sendEmailWithRetry_fails (mailOptions : MailOptions) (maxRetries : nat)
    (m : Mailer) :
  exists t : Thrown,
    fst (sendEmailWithRetry env mailOptions maxRetries m) = inl t.
Proof. unfold sendEmailWithRetry. apply retry_loop_fails. Qed.

End GatewayDown.

Section ApprovalFacts.
Import Model Approval.

Variable env : Mail.Env.
Variable ObjectId_isValid : string -> bool.
Variable bcrypt_hash : string -> string.
Variable random_index : nat -> nat.
Variable save_ok : bool.

Lemma find_user_id (uid : string) (coll : list User) (u : User) :
  find_user uid coll = Some u -> user_id u = uid.
Proof.
  induction coll as [| x coll IH]; cbn; [discriminate |].
  destruct (String.eqb (user_id x) uid) eqn:E; [| exact IH].
  intros H. inversion H; subst. now apply String.eqb_eq.
Qed.

(** Saving a loaded document makes it the one [findById] returns. *)
Lemma find_replace_user (uid : string) (coll : list User) (u u' : User) :
  find_user uid coll = Some u -> user_id u' = uid ->
  find_user uid (replace_user u' coll) = Some u'.
Proof.
  intros Hf Hid. induction coll as [| x coll IH]; cbn in *; [discriminate |].
  rewrite Hid. destruct (String.eqb (user_id x) uid) eqn:E.
  - cbn. rewrite Hid, String.eqb_refl. reflexivity.
  - cbn. rewrite E. now apply IH.
Qed.

(** What [userapprove] does once the user is found. *)
Lemma userapprove_found (p b q : option string) (w : World) (uid : string)
    (user : User) :
  request_userId p b q = Some uid ->
  Js.truthy_str uid = true ->
  findById ObjectId_isValid uid (users w) = Found user ->
  userapprove env ObjectId_isValid bcrypt_hash random_index save_ok p b q w
  = let k := snd (generateRandomPassword random_index 12 (randomCalls w)) in
    let newPassword := fresh_password random_index w in
    let user' :=
      mkUser (user_id user) (name user) (email user) newPassword
        newPassword true (role user) (lastLogin user) in
    match Mail.sendEmailWithRetry env (approval_mail env user newPassword)
            3 (mailer w) with
    | (inr _, m) =>
        match save bcrypt_hash save_ok user user' (users w) with
        | Some coll =>
            (mkResponse 200
               "User approved successfully. Login credentials have been sent to the user's email."
               (Some true) (Some true), mkWorld coll m k)
        | None =>
            (mkResponse 500
               "Failed to send approval email. User status remains pending. Please check email configuration and try again."
               (Some true) (Some false), mkWorld (users w) m k)
        end
    | (inl _, m) =>
        (mkResponse 500
           "Failed to send approval email. User status remains pending. Please check email configuration and try again."
           (Some (isVerified user)) (Some false), mkWorld (users w) m k)
    end.
Proof.
  intros Hid Ht Hf. unfold userapprove, fresh_password.
  rewrite Hid, Ht, Hf. cbn [negb].
  destruct (generateRandomPassword random_index 12 (randomCalls w))
    as [newPassword k].
  reflexivity.
Qed.

(** What [userreject] does once the user is found. *)
Lemma userreject_found (p b q : option string) (w : World) (uid : string)
    (user : User) :
  request_userId p b q = Some uid ->
  Js.truthy_str uid = true ->
  findById ObjectId_isValid uid (users w) = Found user ->
  userreject env ObjectId_isValid bcrypt_hash save_ok p b q w
  = let user' :=
      mkUser (user_id user) (name user) (email user) (password user)
        (generatedPassword user) false (role user) (lastLogin user) in
    match Mail.sendEmailWithRetry env (rejection_mail env user) 3 (mailer w) with
    | (inr _, m) =>
        match save bcrypt_hash save_ok user user' (users w) with
        | Some coll =>
            (mkResponse 200
               "User rejected successfully. Rejection notification has been sent to the user's email."
               (Some false) (Some true), mkWorld coll m (randomCalls w))
        | None =>
            (mkResponse 500
               "Failed to send rejection email. User status remains pending. Please check email configuration and try again."
               (Some false) (Some false), mkWorld (users w) m (randomCalls w))
        end
    | (inl _, m) =>
        (mkResponse 500
           "Failed to send rejection email. User status remains pending. Please check email configuration and try again."
           (Some (isVerified user)) (Some false),
         mkWorld (users w) m (randomCalls w))
    end.
Proof.
  intros Hid Ht Hf. unfold userreject. rewrite Hid, Ht, Hf. reflexivity.
Qed.

Lemma findById_found (uid : string) (coll : list User) (u : User) :
  findById ObjectId_isValid uid coll = Found u ->
  find_user uid coll = Some u /\ user_id u = uid.
Proof.
  unfold findById. destruct (ObjectId_isValid uid); [| discriminate].
  destruct (find_user uid coll) as [x |] eqn:E; [| discriminate].
  intros H. inversion H; subst. split; [reflexivity |].
  now apply (find_user_id uid coll).
Qed.

(** C1: for a user the handlers find.  (1) If every call to either
    provider fails, [userapprove] and [userreject] leave the user
    collection as it was and answer 500 with [emailSent: false].  (2) The
    collection changes only if the notification went out.  (3) When it went
    out and the save goes through, [userapprove] stores the hash of the
    fresh password (the stored hash differing from that plain text) with
    [isVerified = true], [userreject] stores [isVerified = false], and both
    answer 200 with [emailSent: true]. *)
Theorem approve_reject_fail_closed (p b q : option string) (w : World)
    (uid : string) (user : User) :
  request_userId p b q = Some uid ->
  Js.truthy_str uid = true ->
  findById ObjectId_isValid uid (users w) = Found user ->
  let approve :=
    userapprove env ObjectId_isValid bcrypt_hash random_index save_ok p b q w in
  let reject := userreject env ObjectId_isValid bcrypt_hash save_ok p b q w in
  let newPassword := fresh_password random_index w in
  let approval_sent :=
    fst (Mail.sendEmailWithRetry env (approval_mail env user newPassword) 3
           (mailer w)) in
  let rejection_sent :=
    fst (Mail.sendEmailWithRetry env (rejection_mail env user) 3 (mailer w)) in
  ((forall k : nat, exists e, Mail.resend_send env k = inl e) ->
   (forall k : nat, exists e, Mail.smtp_sendMail env k = inl e) ->
   users (snd approve) = users w
   /\ res_status (fst approve) = 500%Z
   /\ res_emailSent (fst approve) = Some false
   /\ users (snd reject) = users w
   /\ res_status (fst reject) = 500%Z
   /\ res_emailSent (fst reject) = Some false)
  /\ (users (snd approve) <> users w ->
      exists info, approval_sent = inr info)
  /\ (users (snd reject) <> users w ->
      exists info, rejection_sent = inr info)
  /\ (forall info,
        approval_sent = inr info -> save_ok = true ->
        password user <> newPassword ->
        find_user uid (users (snd approve))
        = Some (mkUser (user_id user) (name user) (email user)
                  (bcrypt_hash newPassword) newPassword true (role user)
                  (lastLogin user))
        /\ res_status (fst approve) = 200%Z
        /\ res_isVerified (fst approve) = Some true
        /\ res_emailSent (fst approve) = Some true)
  /\ (forall info,
        rejection_sent = inr info -> save_ok = true ->
        find_user uid (users (snd reject))
        = Some (mkUser (user_id user) (name user) (email user)
                  (password user) (generatedPassword user) false (role user)
                  (lastLogin user))
        /\ res_status (fst reject) = 200%Z
        /\ res_isVerified (fst reject) = Some false
        /\ res_emailSent (fst reject) = Some true).
Proof.
  intros Hid Ht Hf. cbv zeta.
  rewrite (userapprove_found p b q w uid user Hid Ht Hf).
  rewrite (userreject_found p b q w uid user Hid Ht Hf).
  destruct (findById_found _ _ _ Hf) as (Hfind & Huid).
  cbv zeta.
  split; [| split; [| split; [| split]]].
  - intros Hapi Hsmtp.
    destruct (sendEmailWithRetry_fails env Hapi Hsmtp
                (approval_mail env user (fresh_password random_index w)) 3
                (mailer w)) as (t1 & H1).
    destruct (sendEmailWithRetry_fails env Hapi Hsmtp
                (rejection_mail env user) 3 (mailer w)) as (t2 & H2).
    destruct (Mail.sendEmailWithRetry env (approval_mail _ _ _) 3 (mailer w))
      as [[e1 | i1] m1]; cbn [fst] in H1; [| discriminate].
    destruct (Mail.sendEmailWithRetry env (rejection_mail _ _) 3 (mailer w))
      as [[e2 | i2] m2]; cbn [fst] in H2; [| discriminate].
    cbn. auto 10.
  - destruct (Mail.sendEmailWithRetry env (approval_mail _ _ _) 3 (mailer w))
      as [[e1 | i1] m1]; cbn [fst snd users].
    + intros Hne. now contradiction Hne.
    + intros _. now exists i1.
  - destruct (Mail.sendEmailWithRetry env (rejection_mail _ _) 3 (mailer w))
      as [[e2 | i2] m2]; cbn [fst snd users].
    + intros Hne. now contradiction Hne.
    + intros _. now exists i2.
  - intros info Hsent Hsave Hneq.
    destruct (Mail.sendEmailWithRetry env (approval_mail _ _ _) 3 (mailer w))
      as [[e1 | i1] m1]; cbn [fst] in Hsent; [discriminate |].
    unfold save. rewrite Hsave. cbn [password].
    destruct (String.eqb (fresh_password random_index w) (password user)) eqn:E.
    { apply String.eqb_eq in E. congruence. }
    cbn. split; [| auto]. now apply (find_replace_user uid _ user).
  - intros info Hsent Hsave.
    destruct (Mail.sendEmailWithRetry env (rejection_mail _ _) 3 (mailer w))
      as [[e2 | i2] m2]; cbn [fst] in Hsent; [discriminate |].
    unfold save. rewrite Hsave. cbn [password].
    rewrite String.eqb_refl.
    cbn. split; [| auto]. now apply (find_replace_user uid _ user).
Qed.

End ApprovalFacts.

Section ApprovalExamples.
Import Model Approval.

Lemma approve_reject_fail_closed_witness :
  let uid := "64b7f0c2a1d3e4f5a6b7c8d9" in
  let down :=
    userapprove Samples.failing_env Samples.accept_all Samples.tag_hash
      (fun k => k) true (Some uid) None None Samples.pending_world in
  let up :=
    userapprove Samples.working_env Samples.accept_all Samples.tag_hash
      (fun k => k) true (Some uid) None None Samples.pending_world in
  (users (snd down) = [Samples.pending_user]
   /\ res_status (fst down) = 500%Z
   /\ res_emailSent (fst down) = Some false)
  /\ (find_user uid (users (snd up))
      = Some (mkUser uid "Asha Rao" "asha@example.com"
                (Samples.tag_hash "ABCDEFGHIJKL") "ABCDEFGHIJKL" true "user"
                None)
      /\ res_status (fst up) = 200%Z
      /\ res_emailSent (fst up) = Some true).
Proof.
  cbv zeta. split.
  - destruct (approve_reject_fail_closed Samples.failing_env Samples.accept_all
                Samples.tag_hash (fun k => k) true
                (Some "64b7f0c2a1d3e4f5a6b7c8d9") None None
                Samples.pending_world "64b7f0c2a1d3e4f5a6b7c8d9"
                Samples.pending_user eq_refl eq_refl eq_refl)
      as (Hdown & _).
    destruct Hdown as (Hu & Hs & He & _).
    + intros k. eexists. reflexivity.
    + intros k. eexists. reflexivity.
    + split; [exact Hu |]. split; [exact Hs | exact He].
  - destruct (approve_reject_fail_closed Samples.working_env Samples.accept_all
                Samples.tag_hash (fun k => k) true
                (Some "64b7f0c2a1d3e4f5a6b7c8d9") None None
                Samples.pending_world "64b7f0c2a1d3e4f5a6b7c8d9"
                Samples.pending_user eq_refl eq_refl eq_refl)
      as (_ & _ & _ & Hup & _).
    destruct (Hup (Mail.mkSendInfo "resend" (Some "msg-1")))
      as (Hf & Hs & _ & He).
    + reflexivity.
    + reflexivity.
    + vm_compute. discriminate.
    + split; [exact Hf |]. split; [exact Hs | exact He].
Defined.

End ApprovalExamples.

(** ** Login *)

Section LoginFacts.
Import Model Auth.

Variable bcrypt_compare : string -> string -> bool.
Variable generateAccessToken : string -> option string.
Variable NODE_ENV : option string.
Variable save_error : option string.

(** C5, as the code has it: for a request that names an unverified user,
    the credential check comes first.  A password that does not match the
    stored hash is answered 401; one that matches is answered 402 once the
    access token has been generated (500 when generating it fails); in all
    three cases the collection is left as it was. *)
Theorem login_unverified (e pw : string) (now : Z) (coll : list User)
    (user : User) :
  Js.truthy_str e = true ->
  Js.truthy_str pw = true ->
  findOne_email e coll = Some user ->
  isVerified user = false ->
  let r :=
    login bcrypt_compare generateAccessToken NODE_ENV save_error (Some e)
      (Some pw) now coll in
  let matches := bcrypt_compare (Js.trim pw) (Js.trim (password user)) in
  (matches = true -> generateAccessToken (user_id user) <> None ->
   res_status (fst r) = 402%Z)
  /\ (matches = false -> res_status (fst r) = 401%Z)
  /\ (matches = true -> generateAccessToken (user_id user) = None ->
      res_status (fst r) = 500%Z)
  /\ snd r = coll.
Proof.
  intros He Hpw Hf Hv. cbv zeta. unfold login.
  rewrite He, Hpw, Hf, Hv. cbn [negb orb].
  destruct (bcrypt_compare (Js.trim pw) (Js.trim (password user))); cbn [negb].
  - destruct (generateAccessToken (user_id user)) as [token |]; cbn.
    + repeat split; auto; discriminate.
    + repeat split; auto; try discriminate. intros _ H. now contradiction H.
  - cbn. repeat split; auto; discriminate.
Qed.

End LoginFacts.

Section LoginExamples.
Import Model Auth.

Lemma login_unverified_witness :
  let r :=
    login Samples.tag_compare Samples.sign None None (Some "ravi@example.com")
      (Some "Secret123") 0 [Samples.unverified_trader] in
  isVerified Samples.unverified_trader = false
  /\ res_status (fst r) = 402%Z.
Proof.
  cbv zeta. split; [reflexivity |].
  apply (login_unverified Samples.tag_compare Samples.sign None None
           "ravi@example.com" "Secret123" 0 [Samples.unverified_trader]
           Samples.unverified_trader eq_refl eq_refl eq_refl eq_refl).
  - reflexivity.
  - discriminate.
Defined.

(** C5 as stated fails: the same unverified user, with a wrong password,
    is answered 401 and not 402. *)
Lemma login_unverified_wrong_password_401 :
  let r :=
    login Samples.tag_compare Samples.sign None None (Some "ravi@example.com")
      (Some "guess") 0 [Samples.unverified_trader] in
  isVerified Samples.unverified_trader = false
  /\ res_status (fst r) = 401%Z
  /\ res_status (fst r) <> 402%Z.
Proof.
  cbv zeta. split; [reflexivity |].
  split; [reflexivity | vm_compute; discriminate].
Qed.

End LoginExamples.

(** ** KPI trends *)

Section KpiFacts.
Import Kpi.

(** [toFixed(1)] is within a twentieth of its argument. *)
Lemma toFixed1_nearest (x : Q) : Qabs ((toFixed1 x # 10) - x) <= 1 # 20.
Proof.
  unfold toFixed1.
  set (n := Qfloor (Qabs x * 10 + (1 # 2))).
  pose proof (Qfloor_le (Qabs x * 10 + (1 # 2))) as Hlo.
  pose proof (Qlt_floor (Qabs x * 10 + (1 # 2))) as Hhi.
  fold n in Hlo, Hhi. rewrite inject_Z_plus in Hhi.
  change (inject_Z 1) with 1 in Hhi.
  apply Qabs_Qle_condition.
  destruct (Qle_bool 0 x) eqn:E.
  - apply Qle_bool_iff in E. rewrite (Qabs_pos x E) in Hlo, Hhi.
    rewrite (Qmake_Qdiv n 10). change (inject_Z (Zpos 10)) with 10.
    unfold Qdiv. change (/ 10) with (1 # 10). split; lra.
  - assert (Hneg : x <= 0).
    { destruct (Qlt_le_dec 0 x) as [Hp | Hn]; [| exact Hn].
      apply Qlt_le_weak, Qle_bool_iff in Hp. congruence. }
    rewrite (Qabs_neg x Hneg) in Hlo, Hhi.
    rewrite (Qmake_Qdiv (- n) 10). change (inject_Z (Zpos 10)) with 10.
    rewrite inject_Z_opp. unfold Qdiv. change (/ 10) with (1 # 10).
    split; lra.
Qed.

(** C8, as the code has it, the two totals being non-negative: with a
    previous total above zero the trend is [((current - previous) /
    previous) * 100] as [toFixed(1)] renders it, that is rounded to one
    decimal (within 0.05 of the exact percentage); with a previous total of
    zero it is 100 when the current total is not zero and 0 when it is; the
    division is only made by a positive previous total. *)
Theorem trend_cases (current previous : Q) :
  0 <= current ->
  0 <= previous ->
  (0 < previous ->
   trend current previous
   = Fixed1 (toFixed1 (((current - previous) / previous) * 100))
   /\ Qabs (trend_value (trend current previous)
            - ((current - previous) / previous) * 100) <= 1 # 20)
  /\ (previous == 0 -> ~ current == 0 -> trend current previous = Num 100)
  /\ (previous == 0 -> current == 0 -> trend current previous = Num 0)
  /\ withdrawalTrend 500 0 = Num 100
  /\ withdrawalTrend 0 0 = Num 0.
Proof.
  intros Hc Hp. unfold withdrawalTrend, trend.
  split; [| split; [| split; [| split]]]; try reflexivity.
  - intros Hpos.
    assert (E : Qle_bool previous 0 = false).
    { destruct (Qle_bool previous 0) eqn:E; [| reflexivity].
      apply Qle_bool_iff in E. lra. }
    rewrite E. cbn [negb]. split; [reflexivity |].
    cbn [trend_value]. apply toFixed1_nearest.
  - intros Hz Hnz.
    assert (E : Qle_bool previous 0 = true) by (apply Qle_bool_iff; lra).
    rewrite E. cbn [negb].
    assert (E' : Qle_bool current 0 = false).
    { destruct (Qle_bool current 0) eqn:E'; [| reflexivity].
      apply Qle_bool_iff in E'. exfalso. apply Hnz. lra. }
    now rewrite E'.
  - intros Hz Hcz.
    assert (E : Qle_bool previous 0 = true) by (apply Qle_bool_iff; lra).
    assert (E' : Qle_bool current 0 = true) by (apply Qle_bool_iff; lra).
    now rewrite E, E'.
Qed.

Lemma trend_cases_witness :
  trend 150 100 = Fixed1 500
  /\ trend_value (trend 150 100) == 50.
Proof.
  destruct (trend_cases 150 100) as (Hpos & _); [discriminate .. |].
  destruct Hpos as (Ht & _); [reflexivity |].
  split; [rewrite Ht; reflexivity | reflexivity].
Defined.

(** C8 as stated fails: from 3 to 4 the exact percentage is 100/3, and
    the trend is the string [33.3]. *)
Lemma trend_is_rounded :
  trend 4 3 = Fixed1 333
  /\ ~ trend_value (trend 4 3) == ((4 - 3) / 3) * 100.
Proof. split; [reflexivity | vm_compute; discriminate]. Qed.

End KpiFacts.

(** * Further properties of the code *)

(** ** Settings: the two visibility handlers, and writes to several keys *)

Section SettingsMore.
Import SettingsModel.

(** The flag an admin writes is the flag every later read answers with,
    whatever the collection held; a body that is not a boolean is refused
    with 400 and changes nothing. *)
Theorem updateBankDetailsVisibility_roundtrip (newId : string) (now : Z)
    (b : bool) (body : Mixed) (coll : Settings) :
  showBankDetails
    (getBankDetailsVisibility
       (snd (updateBankDetailsVisibility newId now (MBool b) coll)))
  = MBool b
  /\ fst (updateBankDetailsVisibility newId now (MBool b) coll)
     = inr (mkApiResponse 200 (MBool b)
              "Bank details visibility setting updated successfully")
  /\ ((forall b' : bool, body <> MBool b') ->
      updateBankDetailsVisibility newId now body coll = (inl 400%Z, coll)).
Proof.
  split; [| split].
  - unfold updateBankDetailsVisibility, getBankDetailsVisibility.
    cbn [setSetting findOneAndUpdate_upsert snd showBankDetails].
    unfold getSetting, findOne, Settings in *.
    rewrite lookup_insert_eq.
    destruct (coll !! _); reflexivity.
  - reflexivity.
  - intros Hnb. destruct body as [b' | | |]; try reflexivity.
    now contradiction (Hnb b').
Qed.

Lemma updateBankDetailsVisibility_roundtrip_witness :
  updateBankDetailsVisibility "s1" 1700000000 (MStr "yes") ∅
  = (inl 400%Z, ∅).
Proof.
  apply (updateBankDetailsVisibility_roundtrip "s1" 1700000000 true
           (MStr "yes") ∅).
  intros b' H. discriminate H.
Defined.

(** Keys are compared after trimming: a write is invisible to the reads
    of every key that differs from its own after trimming, and is read
    back under every key that differs from it by surrounding blanks only.
    Of two writes to the same key the later value is read; the second
    write keeps the [_id] and the [createdAt] of the document the first
    left and sets [updatedAt] to its own time; and afterwards every read
    answers as it would had the later write been the only one. *)
Theorem setSetting_frame_and_overwrite (newId newId' : string) (now now' : Z)
    (coll : Settings) (k k' : string) (v v' d : Mixed)
    (descr descr' : string) :
  let first := setSetting newId now k v descr coll in
  let second := setSetting newId' now' k v' descr' (snd first) in
  (Js.trim k <> Js.trim k' ->
   getSetting k' d (snd first) = getSetting k' d coll)
  /\ (Js.trim k = Js.trim k' -> getSetting k' d (snd first) = v)
  /\ getSetting k d (snd second) = v'
  /\ key (fst second) = Js.trim k
  /\ description (fst second) = Js.trim descr'
  /\ setting_id (fst second) = setting_id (fst first)
  /\ createdAt (fst second) = createdAt (fst first)
  /\ updatedAt (fst second) = now'
  /\ (forall (k'' : string) (d'' : Mixed),
        getSetting k'' d'' (snd second)
        = getSetting k'' d''
            (snd (setSetting newId' now' k v' descr' coll))).
Proof.
  cbv zeta.
  unfold setSetting, findOneAndUpdate_upsert, getSetting, findOne, Settings.
  cbn [fst snd]. rewrite !lookup_insert_eq.
  split; [intros Hne; now rewrite lookup_insert_ne |].
  split.
  { intros <-. rewrite lookup_insert_eq.
    now destruct (_ !! _). }
  split; [reflexivity |].
  do 5 (split; [reflexivity |]).
  intros k'' d''.
  destruct (decide (Js.trim k = Js.trim k'')) as [<- | Hne].
  - rewrite !lookup_insert_eq. now destruct (_ !! _).
  - now rewrite !lookup_insert_ne.
Qed.

Lemma setSetting_frame_and_overwrite_witness :
  getSetting "maintenance" (MBool false)
    (snd (setSetting "s1" 1700000000 "showBankDetails" (MBool false) "" ∅))
  = MBool false
  /\ getSetting "showBankDetails" (MBool true)
       (snd (setSetting "s1" 1700000000 " showBankDetails " (MBool false) ""
               ∅))
     = MBool false.
Proof.
  destruct (setSetting_frame_and_overwrite "s1" "s2" 1700000000 1700000001 ∅
              "showBankDetails" "maintenance" (MBool false) MNull
              (MBool false) "" "") as (Hframe & _).
  destruct (setSetting_frame_and_overwrite "s1" "s2" 1700000000 1700000001 ∅
              " showBankDetails " "showBankDetails" (MBool false) MNull
              (MBool true) "" "") as (_ & Hsame & _).
  split.
  - rewrite Hframe; [reflexivity |]. cbv. discriminate.
  - apply Hsame. reflexivity.
Defined.

End SettingsMore.

(** ** KPI badges *)

Section KpiMore.
Import Kpi.

Lemma toFixed1_nonneg (x : Q) : 0 <= x -> (0 <= toFixed1 x)%Z.
Proof.
  intros Hx. unfold toFixed1.
  assert (E : Qle_bool 0 x = true) by now apply Qle_bool_iff.
  rewrite E. rewrite (Qabs_pos x Hx).
  change 0%Z with (Qfloor 0). apply Qfloor_resp_le. lra.
Qed.

(** The arrow of a KPI badge points up whenever the current total is not
    below the previous one; it can only point down when the previous total
    is positive and the current one is smaller. *)
Theorem isUp_when_not_below (current previous : Q) :
  0 <= current ->
  0 <= previous ->
  (previous <= current -> isUp (trend current previous) = true)
  /\ (isUp (trend current previous) = false ->
      0 < previous /\ current < previous).
Proof.
  intros Hc Hp.
  assert (Hup : previous <= current -> isUp (trend current previous) = true).
  { intros Hle. unfold isUp, trend.
    destruct (Qle_bool previous 0) eqn:E; cbn [negb].
    - destruct (Qle_bool current 0); reflexivity.
    - cbn [trend_value]. apply Qle_bool_iff.
      assert (Hpos : 0 < previous).
      { destruct (Qlt_le_dec 0 previous) as [H | H]; [exact H |].
        apply Qle_bool_iff in H. congruence. }
      assert (Hx : 0 <= (current - previous) / previous * 100).
      { apply Qmult_le_0_compat; [| discriminate].
        apply Qle_shift_div_l; [exact Hpos | lra]. }
      pose proof (toFixed1_nonneg _ Hx) as Hn.
      unfold Qle. cbn. lia. }
  split; [exact Hup |].
  intros Hdown.
  destruct (Qlt_le_dec current previous) as [Hlt | Hge].
  - split; [lra | exact Hlt].
  - rewrite (Hup Hge) in Hdown. discriminate.
Qed.

Lemma isUp_when_not_below_witness :
  isUp (trend 120 100) = true /\ isUp (trend 50 100) = false.
Proof.
  split; [| reflexivity].
  apply (isUp_when_not_below 120 100); discriminate.
Defined.

End KpiMore.

(** ** Notification gateway: edge cases *)

Section MailMore.
Import Mail.

Variable env : Env.

Lemma sendEmail_no_recipient (mailOptions : MailOptions) (m : Mailer) :
  normalizeRecipients (mo_to mailOptions) = [] ->
  sendEmail env mailOptions m
  = (inl (mkError "Email recipient is required" None), m).
Proof. intros H. unfold sendEmail. now rewrite H. Qed.

(** Without a usable recipient no provider is ever contacted, yet the
    retry loop still runs its three attempts and its two waits before it
    throws "Email recipient is required"; the singletons are left alone. *)
Theorem sendEmailWithRetry_no_recipient (mailOptions : MailOptions)
    (m : Mailer) :
  normalizeRecipients (mo_to mailOptions) = [] ->
  sendEmailWithRetry env mailOptions 3 m
  = (inl (ThrowError (mkError "Email recipient is required" None)),
     mkMailer (transporterInstance m) (resendClientInstance m)
       (resendInitAttempted m) (resendCalls m) (smtpCalls m)
       (events m
        ++ [LogAttempt 1 3; Wait 2000; LogAttempt 2 3; Wait 4000;
            LogAttempt 3 3])%list).
Proof.
  intros H. unfold sendEmailWithRetry. cbn [retry_loop].
  rewrite (sendEmail_no_recipient _ _ H). cbn -[sendEmail].
  rewrite (sendEmail_no_recipient _ _ H). cbn -[sendEmail].
  rewrite (sendEmail_no_recipient _ _ H).
  unfold emit. cbn [events transporterInstance resendClientInstance
                    resendInitAttempted resendCalls smtpCalls].
  rewrite <- !app_assoc. reflexivity.
Qed.

Lemma createTransporter_needs_pass :
  Js.truthy_opt_str (EMAIL_PASS env) = false -> createTransporter env = false.
Proof.
  intros H. unfold createTransporter. rewrite H. cbv zeta. rewrite H.
  cbn [negb]. now destruct (negb _).
Qed.

Lemma sender_truthy (mailOptions : MailOptions) :
  Js.truthy_str
    match option_map Js.trim (mo_from mailOptions) with
    | Some f => if Js.truthy_str f then f else getDefaultFromAddress env
    | None => getDefaultFromAddress env
    end = true.
Proof.
  destruct (option_map Js.trim (mo_from mailOptions)) as [f |];
    [destruct (Js.truthy_str f) eqn:Ef; [exact Ef |] |];
    apply getDefaultFromAddress_truthy.
Qed.

(** With no API key and no SMTP password, a first [sendEmail] throws
    "Email service not configured" and contacts neither provider. *)
Theorem sendEmail_unconfigured (mailOptions : MailOptions) (m : Mailer) :
  Js.truthy_opt_str (option_map Js.trim (RESEND_API_KEY env)) = false ->
  Js.truthy_opt_str (EMAIL_PASS env) = false ->
  resendInitAttempted m = false ->
  transporterInstance m = false ->
  normalizeRecipients (mo_to mailOptions) <> [] ->
  fst (sendEmail env mailOptions m)
  = inl (mkError
           "Email service not configured. Set RESEND_API_KEY or GoDaddy SMTP credentials."
           None)
  /\ resendCalls (snd (sendEmail env mailOptions m)) = resendCalls m
  /\ smtpCalls (snd (sendEmail env mailOptions m)) = smtpCalls m
  /\ events (snd (sendEmail env mailOptions m))
     = (events m ++ [CreateTransporter])%list.
Proof.
  intros Hkey Hpass Hinit Htr Hrec. unfold sendEmail.
  destruct (normalizeRecipients (mo_to mailOptions)); [contradiction |].
  rewrite sender_truthy. cbn [negb].
  unfold getResendClient. rewrite Hinit, Hkey. cbn [negb].
  unfold send_smtp, getTransporter.
  cbn [transporterInstance]. rewrite Htr.
  rewrite (createTransporter_needs_pass Hpass). cbn. auto.
Qed.

Lemma api_ready_client (m : Mailer) :
  api_ready env m ->
  exists m1 : Mailer,
    getResendClient env m = (true, m1)
    /\ resendCalls m1 = resendCalls m /\ smtpCalls m1 = smtpCalls m
    /\ events m1 = events m
    /\ transporterInstance m1 = transporterInstance m.
Proof.
  unfold api_ready, getResendClient.
  destruct (resendInitAttempted m).
  - cbn. intros ->. exists m. auto.
  - destruct (negb (Js.truthy_opt_str _)); cbn; [discriminate |].
    intros ->. eexists. split; [reflexivity |]. cbn. auto.
Qed.

Lemma api_ready_emit (e : Event) (m : Mailer) :
  api_ready env m -> api_ready env (emit e m).
Proof.
  unfold api_ready, getResendClient.
  cbn [emit resendInitAttempted resendClientInstance].
  destruct (resendInitAttempted m); [auto |].
  destruct (negb (Js.truthy_opt_str _)); auto.
Qed.

(** The first attempt decides when it can: an API call that answers ends
    the run at once, SMTP untouched; an API call that raises is followed,
    in the same attempt and without a wait, by the SMTP call, whose answer
    ends the run. *)
Theorem sendEmailWithRetry_first_attempt (mailOptions : MailOptions)
    (m : Mailer) :
  normalizeRecipients (mo_to mailOptions) <> [] ->
  api_ready env m ->
  (forall rid : option string,
     resend_send env (resendCalls m) = inr rid ->
     exists m' : Mailer,
       sendEmailWithRetry env mailOptions 3 m
       = (inr (mkSendInfo "resend" rid), m')
       /\ events m' = (events m ++ [LogAttempt 1 3; CallResend])%list
       /\ smtpCalls m' = smtpCalls m
       /\ transporterInstance m' = transporterInstance m)
  /\ (forall (e : JsError) (messageId : string),
        resend_send env (resendCalls m) = inl e ->
        transporterInstance m = true ->
        smtp_sendMail env (smtpCalls m) = inr messageId ->
        exists m' : Mailer,
          sendEmailWithRetry env mailOptions 3 m
          = (inr (mkSendInfo "smtp" (Some messageId)), m')
          /\ events m'
             = (events m ++ [LogAttempt 1 3; CallResend; CallSmtp])%list
          /\ resendCalls m' = S (resendCalls m)
          /\ smtpCalls m' = S (smtpCalls m)).
Proof.
  intros Hrec Hready.
  destruct (api_ready_client _ (api_ready_emit (LogAttempt 1 3) m Hready))
    as (m1 & Hg & Hrc & Hsc & Hev & Htr).
  cbn [emit resendCalls smtpCalls events transporterInstance] in Hrc, Hsc, Hev, Htr.
  unfold sendEmailWithRetry. cbn [retry_loop]. unfold sendEmail.
  destruct (normalizeRecipients (mo_to mailOptions)); [contradiction |].
  rewrite sender_truthy. cbn [negb]. rewrite Hg, Hrc.
  split.
  - intros rid Hok. rewrite Hok. eexists. split; [reflexivity |].
    unfold emit. cbn. rewrite Hev, Hsc, Htr, <- app_assoc. auto.
  - intros e messageId Herr Ht Hok. rewrite Herr.
    unfold send_smtp, getTransporter, emit.
    cbn [transporterInstance]. rewrite Htr, Ht.
    cbn [negb smtpCalls]. rewrite Hsc, Hok.
    eexists. split; [reflexivity |].
    cbn. rewrite Hev, ?Hsc, <- !app_assoc. auto.
Qed.

Lemma failing_smtp_attempt (mailOptions : MailOptions) (m : Mailer)
    (attempt : nat) (e : JsError) :
  normalizeRecipients (mo_to mailOptions) <> [] ->
  resendInitAttempted m = true ->
  resendClientInstance m = false ->
  createTransporter env = true ->
  smtp_sendMail env (smtpCalls m) = inl e ->
  sendEmail env mailOptions (emit (LogAttempt attempt 3) m)
  = (inl e,
     mkMailer true false true (resendCalls m) (S (smtpCalls m))
       (events m ++ [LogAttempt attempt 3]
        ++ GatewayTrace.creation (transporterInstance m) ++ [CallSmtp])%list).
Proof.
  intros Hrec Hinit Hcl Hcreate Herr. unfold sendEmail.
  destruct (normalizeRecipients (mo_to mailOptions)); [contradiction |].
  rewrite sender_truthy. cbn [negb].
  unfold getResendClient, emit. cbn [resendInitAttempted resendClientInstance].
  rewrite Hinit, Hcl. unfold send_smtp, getTransporter.
  cbn [transporterInstance].
  destruct (transporterInstance m); cbn [negb smtpCalls].
  - rewrite Herr. unfold emit. cbn. rewrite <- ?app_assoc. reflexivity.
  - rewrite Hcreate. unfold emit. cbn [negb smtpCalls]. rewrite Herr. cbn.
    rewrite <- ?app_assoc. reflexivity.
Qed.

Lemma failing_smtp_step (mailOptions : MailOptions) (m : Mailer)
    (attempt remaining : nat) (lastError : Thrown) (e : JsError) :
  normalizeRecipients (mo_to mailOptions) <> [] ->
  resendInitAttempted m = true ->
  resendClientInstance m = false ->
  createTransporter env = true ->
  smtp_sendMail env (smtpCalls m) = inl e ->
  Nat.eqb attempt 3 = false ->
  retry_loop env mailOptions 3 attempt (S remaining) lastError m
  = retry_loop env mailOptions 3 (S attempt) remaining (ThrowError e)
      (mkMailer (negb (isConnectionError e)) false true (resendCalls m)
         (S (smtpCalls m))
         (events m ++ [LogAttempt attempt 3]
          ++ GatewayTrace.creation (transporterInstance m)
          ++ [CallSmtp; Wait (waitTime attempt)])%list).
Proof.
  intros Hrec Hinit Hcl Hcreate Herr Hatt. cbn [retry_loop].
  rewrite (failing_smtp_attempt mailOptions m attempt e Hrec Hinit Hcl
             Hcreate Herr).
  rewrite Hatt. unfold emit.
  cbn [transporterInstance resendClientInstance resendInitAttempted
       resendCalls smtpCalls events].
  destruct (isConnectionError e); cbn [negb];
    rewrite <- ?app_assoc; cbn [app]; reflexivity.
Qed.

(** SMTP alone, configured, and failing three times: the third error is
    thrown, and the transporter is created anew exactly after the errors
    whose code is one of ETIMEDOUT, ECONNRESET, ESOCKET and ECONNREFUSED
    (and at the start when there was none); after any other error the
    next attempt reuses it. *)
Theorem sendEmailWithRetry_recreates_transporter (mailOptions : MailOptions)
    (m : Mailer) (e0 e1 e2 : JsError) :
  normalizeRecipients (mo_to mailOptions) <> [] ->
  resendInitAttempted m = true ->
  resendClientInstance m = false ->
  createTransporter env = true ->
  smtp_sendMail env (smtpCalls m) = inl e0 ->
  smtp_sendMail env (S (smtpCalls m)) = inl e1 ->
  smtp_sendMail env (S (S (smtpCalls m))) = inl e2 ->
  fst (sendEmailWithRetry env mailOptions 3 m) = inl (ThrowError e2)
  /\ events (snd (sendEmailWithRetry env mailOptions 3 m))
     = (events m ++ [LogAttempt 1 3]
        ++ GatewayTrace.creation (transporterInstance m)
        ++ [CallSmtp; Wait 2000; LogAttempt 2 3]
        ++ GatewayTrace.creation (negb (isConnectionError e0))
        ++ [CallSmtp; Wait 4000; LogAttempt 3 3]
        ++ GatewayTrace.creation (negb (isConnectionError e1))
        ++ [CallSmtp])%list
  /\ smtpCalls (snd (sendEmailWithRetry env mailOptions 3 m))
     = S (S (S (smtpCalls m)))
  /\ resendCalls (snd (sendEmailWithRetry env mailOptions 3 m))
     = resendCalls m.
Proof.
  intros Hrec Hinit Hcl Hcreate H0 H1 H2.
  unfold sendEmailWithRetry.
  rewrite (failing_smtp_step mailOptions m 1 2 ThrowUndefined e0 Hrec Hinit
             Hcl Hcreate H0 eq_refl).
  rewrite (failing_smtp_step mailOptions _ 2 1 (ThrowError e0) e1 Hrec);
    [| reflexivity | reflexivity | exact Hcreate | exact H1 | reflexivity].
  cbn [retry_loop].
  rewrite (failing_smtp_attempt mailOptions _ 3 e2 Hrec);
    [| reflexivity | reflexivity | exact Hcreate | exact H2].
  cbn [Nat.eqb fst snd events smtpCalls resendCalls transporterInstance].
  rewrite <- ?app_assoc. cbn [app]. auto.
Qed.

End MailMore.

Section MailMoreExamples.
Import Mail.

Lemma sendEmailWithRetry_no_recipient_witness :
  fst (sendEmailWithRetry Samples.working_env
         (mkMailOptions None (ToArray [""; ""]) "Subject" "Body") 3 initial)
  = inl (ThrowError (mkError "Email recipient is required" None)).
Proof.
  rewrite (sendEmailWithRetry_no_recipient Samples.working_env
             (mkMailOptions None (ToArray [""; ""]) "Subject" "Body") initial
             eq_refl).
  reflexivity.
Defined.

Lemma sendEmail_unconfigured_witness :
  fst (sendEmail MoreSamples.unconfigured_env Samples.mail initial)
  = inl (mkError
           "Email service not configured. Set RESEND_API_KEY or GoDaddy SMTP credentials."
           None).
Proof.
  apply (sendEmail_unconfigured MoreSamples.unconfigured_env Samples.mail
           initial eq_refl eq_refl eq_refl eq_refl).
  discriminate.
Defined.

Lemma sendEmailWithRetry_first_attempt_witness :
  (exists m' : Mailer,
     sendEmailWithRetry Samples.working_env Samples.mail 3 initial
     = (inr (mkSendInfo "resend" (Some "msg-1")), m')
     /\ smtpCalls m' = 0%nat)
  /\ (exists m' : Mailer,
        sendEmailWithRetry MoreSamples.fallback_env Samples.mail 3
          MoreSamples.warm
        = (inr (mkSendInfo "smtp" (Some "smtp-1")), m')
        /\ events m' = [LogAttempt 1 3; CallResend; CallSmtp]).
Proof.
  split.
  - destruct (sendEmailWithRetry_first_attempt Samples.working_env
                Samples.mail initial) as (Hapi & _);
      [discriminate | reflexivity |].
    destruct (Hapi (Some "msg-1") eq_refl) as (m' & Hr & _ & Hs & _).
    exists m'. split; [exact Hr | exact Hs].
  - destruct (sendEmailWithRetry_first_attempt MoreSamples.fallback_env
                Samples.mail MoreSamples.warm) as (_ & Hsmtp);
      [discriminate | reflexivity |].
    destruct (Hsmtp (mkError "API unavailable" None) "smtp-1" eq_refl eq_refl
                eq_refl) as (m' & Hr & He & _).
    exists m'. split; [exact Hr | exact He].
Defined.

Lemma sendEmailWithRetry_recreates_transporter_witness :
  events
    (snd (sendEmailWithRetry MoreSamples.flaky_smtp_env Samples.mail 3
            MoreSamples.no_api))
  = [LogAttempt 1 3; CreateTransporter; CallSmtp; Wait 2000;
     LogAttempt 2 3; CreateTransporter; CallSmtp; Wait 4000;
     LogAttempt 3 3; CallSmtp].
Proof.
  destruct (sendEmailWithRetry_recreates_transporter
              MoreSamples.flaky_smtp_env Samples.mail MoreSamples.no_api
              (mkError "Connection timeout" (Some "ETIMEDOUT"))
              (mkError "Invalid login" (Some "EAUTH"))
              (mkError "Invalid login" (Some "EAUTH"))
              ltac:(discriminate) eq_refl eq_refl eq_refl eq_refl eq_refl
              eq_refl)
    as (_ & He & _).
  rewrite He. reflexivity.
Defined.

End MailMoreExamples.

(** ** Generated passwords *)

Section PasswordFacts.
Import Approval Passwords.

Variable random_index : nat -> nat.

Lemma string_length_app (a b : string) :
  String.length (a ++ b) = (String.length a + String.length b)%nat.
Proof. induction a as [| c a IH]; simpl; [reflexivity | now f_equal]. Qed.

Lemma all_alnum_app (a b : string) :
  all_alnum (a ++ b) = (all_alnum a && all_alnum b)%bool.
Proof.
  induction a as [| c a IH]; simpl; [reflexivity |].
  now rewrite IH, andb_assoc.
Qed.

Lemma charAt_charset (i : nat) :
  (String.length (charAt i charset) <= 1)%nat
  /\ all_alnum (charAt i charset) = true
  /\ ((i < 62)%nat -> String.length (charAt i charset) = 1%nat).
Proof.
  unfold charAt.
  do 62 (destruct i as [| i]; [cbn; repeat split; auto; lia |]).
  cbn. repeat split; auto; lia.
Qed.

Lemma generateRandomPassword_from_shape (length : nat) :
  forall (k : nat) (password : string),
    snd (generateRandomPassword_from random_index length k password)
    = (k + length)%nat
    /\ (String.length
          (fst (generateRandomPassword_from random_index length k password))
        <= String.length password + length)%nat
    /\ (all_alnum password = true ->
        all_alnum
          (fst (generateRandomPassword_from random_index length k password))
        = true)
    /\ ((forall i : nat, (k <= i < k + length)%nat -> (random_index i < 62)%nat) ->
        String.length
          (fst (generateRandomPassword_from random_index length k password))
        = (String.length password + length)%nat).
Proof.
  induction length as [| length IH]; intros k password; cbn.
  - repeat split; auto; lia.
  - destruct (IH (S k) (password ++ charAt (random_index k) charset))
      as (Hk & Hle & Hal & Hlen).
    destruct (charAt_charset (random_index k)) as (C1 & C2 & C3).
    rewrite string_length_app in Hle, Hlen.
    split; [lia |]. split; [lia |]. split.
    + intros Hp. apply Hal. now rewrite all_alnum_app, Hp, C2.
    + intros Hr. rewrite Hlen.
      * rewrite C3; [lia |]. apply Hr. lia.
      * intros i Hi. apply Hr. lia.
Qed.

(** [generateRandomPassword(length)] makes exactly [length] draws and
    returns letters and digits only, never more than [length] of them; when
    every draw is a valid index of the 62-character set (as
    [Math.floor(Math.random() * 62)] is) it returns exactly [length]
    characters. *)
Theorem generateRandomPassword_shape (length k : nat) :
  snd (generateRandomPassword random_index length k) = (k + length)%nat
  /\ (String.length (fst (generateRandomPassword random_index length k))
      <= length)%nat
  /\ all_alnum (fst (generateRandomPassword random_index length k)) = true
  /\ ((forall i : nat, (k <= i < k + length)%nat -> (random_index i < 62)%nat) ->
      String.length (fst (generateRandomPassword random_index length k))
      = length).
Proof.
  unfold generateRandomPassword.
  destruct (generateRandomPassword_from_shape length k "")
    as (Hk & Hle & Hal & Hlen).
  split; [exact Hk |]. split; [exact Hle |]. split; [now apply Hal |].
  exact Hlen.
Qed.

End PasswordFacts.

Section PasswordExamples.
Import Approval Passwords.

Lemma generateRandomPassword_shape_witness :
  String.length (fst (generateRandomPassword (fun k => 5 * k)%nat 12 0))
  = 12%nat.
Proof.
  apply (generateRandomPassword_shape (fun k => 5 * k)%nat 12 0).
  intros i Hi. lia.
Defined.

End PasswordExamples.

(** ** Sessions and credentials *)

Section SessionFacts.
Import Model Auth.

Variable bcrypt_compare : string -> string -> bool.
Variable generateAccessToken : string -> option string.
Variable NODE_ENV : option string.
Variable save_error : option string.

Lemma findOne_email_email (e : string) (coll : list User) (u : User) :
  findOne_email e coll = Some u -> email u = e.
Proof.
  induction coll as [| x coll IH]; cbn; [discriminate |].
  destruct (String.eqb (email x) e) eqn:E; [| exact IH].
  intros H. inversion H; subst. now apply String.eqb_eq.
Qed.

(** [login] answers 200 only to a verified user whose password matches;
    then it stamps [lastLogin] on that user and nothing else, and sets an
    http-only cookie that is [secure] with [sameSite: none] exactly in
    production.  Every other answer leaves the collection as it was and
    carries neither cookie nor data. *)
Theorem login_effect (req_email req_password : option string) (now : Z)
    (coll : list User) :
  let r :=
    login bcrypt_compare generateAccessToken NODE_ENV save_error req_email
      req_password now coll in
  let isProd :=
    match NODE_ENV with
    | Some v => String.eqb v "production"
    | None => false
    end in
  (res_status (fst r) = 200%Z ->
   exists (user : User) (pw token : string),
     req_email = Some (email user) /\ req_password = Some pw
     /\ findOne_email (email user) coll = Some user
     /\ isVerified user = true
     /\ bcrypt_compare (Js.trim pw) (Js.trim (password user)) = true
     /\ generateAccessToken (user_id user) = Some token
     /\ snd r
        = Approval.replace_user
            (mkUser (user_id user) (name user) (email user) (password user)
               (generatedPassword user) (isVerified user) (role user)
               (Some now)) coll
     /\ res_cookie (fst r)
        = Some (mkCookie token true isProd (if isProd then "none" else "lax"))
     /\ res_data (fst r) = Some (mkLoginData (role user) true (email user)))
  /\ (res_status (fst r) <> 200%Z ->
      snd r = coll /\ res_cookie (fst r) = None /\ res_data (fst r) = None).
Proof.
  cbv zeta. unfold login.
  destruct req_email as [e |], req_password as [pw |];
    try (cbn; split; [discriminate | auto]).
  destruct (negb (Js.truthy_str e) || negb (Js.truthy_str pw))%bool;
    [cbn; split; [discriminate | auto] |].
  destruct (findOne_email e coll) as [user |] eqn:Ef;
    [| cbn; split; [discriminate | auto]].
  pose proof (findOne_email_email _ _ _ Ef) as Hem.
  destruct (bcrypt_compare (Js.trim pw) (Js.trim (password user))) eqn:Ec;
    cbn [negb]; [| cbn; split; [discriminate | auto]].
  destruct (generateAccessToken (user_id user)) as [token |] eqn:Et;
    [| cbn; split; [discriminate | auto]].
  destruct (isVerified user) eqn:Ev; cbn [negb];
    [| cbn; split; [discriminate | auto]].
  destruct save_error as [msg |]; [cbn; split; [discriminate | auto] |].
  cbn [fst snd res_status res_cookie res_data]. split.
  - intros _. exists user, pw, token. subst e. rewrite Ev. auto 12.
  - intros H. now contradiction H.
Qed.

End SessionFacts.

Section SessionExamples.
Import Model Auth.

Lemma login_effect_witness :
  exists (user : User) (pw token : string),
    findOne_email "meera@example.com" [MoreSamples.verified_trader] = Some user
    /\ snd (login Samples.tag_compare Samples.sign (Some "production") None
              (Some "meera@example.com") (Some "Secret123") 77
              [MoreSamples.verified_trader])
       = [mkUser (user_id user) (name user) (email user) (password user)
            (generatedPassword user) true (role user) (Some 77%Z)]
    /\ res_cookie
         (fst (login Samples.tag_compare Samples.sign (Some "production") None
                 (Some "meera@example.com") (Some "Secret123") 77
                 [MoreSamples.verified_trader]))
       = Some (mkCookie token true true "none").
Proof.
  destruct (login_effect Samples.tag_compare Samples.sign (Some "production")
              None (Some "meera@example.com") (Some "Secret123") 77
              [MoreSamples.verified_trader]) as (Hok & _).
  destruct (Hok eq_refl)
    as (user & pw & token & He & _ & Hf & Hv & _ & _ & Hs & Hc & _).
  inversion He as [Hmail].
  exists user, pw, token. rewrite <- Hmail in Hf.
  split; [exact Hf |]. split; [| exact Hc].
  rewrite Hs. cbn in Hf. inversion Hf; subst. reflexivity.
Defined.

End SessionExamples.

(** ** The approval workflow and login, composed *)

Section LifecycleFacts.
Import Model Approval Auth.

Variable env : Mail.Env.
Variable ObjectId_isValid : string -> bool.
Variable bcrypt_hash : string -> string.
Variable random_index : nat -> nat.
Variable bcrypt_compare : string -> string -> bool.
Variable generateAccessToken : string -> option string.
Variable NODE_ENV : option string.

(** Saving the user found under an id also makes it the user found under
    its address, when that address led to the same document. *)
Lemma findOne_email_replace_user (coll : list User) (u u' : User) :
  find_user (user_id u') coll = Some u ->
  findOne_email (email u') coll = Some u ->
  findOne_email (email u') (replace_user u' coll) = Some u'.
Proof.
  induction coll as [| x coll IH]; cbn; [discriminate |].
  destruct (String.eqb (user_id x) (user_id u')) eqn:Eid.
  - intros _ _. cbn. now rewrite String.eqb_refl.
  - intros Hf. destruct (String.eqb (email x) (email u')) eqn:Eem.
    + intros Hx. inversion Hx; subst x.
      apply find_user_id in Hf. rewrite Hf, String.eqb_refl in Eid.
      discriminate.
    + intros He. cbn. rewrite Eem. now apply IH.
Qed.

(** The password mailed by a successful [userapprove] opens the account:
    a login with the user's address and that password is answered 200.
    Until then no password does, the user being unverified. *)
Theorem approve_then_login (p b q : option string) (w : World) (uid : string)
    (user : User) (info : Mail.SendInfo) (token : string) (now : Z) :
  request_userId p b q = Some uid ->
  Js.truthy_str uid = true ->
  findById ObjectId_isValid uid (users w) = Found user ->
  findOne_email (email user) (users w) = Some user ->
  Js.truthy_str (email user) = true ->
  isVerified user = false ->
  let newPassword := fresh_password random_index w in
  fst (Mail.sendEmailWithRetry env (approval_mail env user newPassword) 3
         (mailer w)) = inr info ->
  password user <> newPassword ->
  Js.truthy_str newPassword = true ->
  bcrypt_compare (Js.trim newPassword) (Js.trim (bcrypt_hash newPassword))
  = true ->
  generateAccessToken uid = Some token ->
  let w' :=
    snd (userapprove env ObjectId_isValid bcrypt_hash random_index true p b q w) in
  res_status
    (fst (login bcrypt_compare generateAccessToken NODE_ENV None
            (Some (email user)) (Some newPassword) now (users w')))
  = 200%Z
  /\ forall pw : option string,
       res_status
         (fst (login bcrypt_compare generateAccessToken NODE_ENV None
                 (Some (email user)) pw now (users w)))
       <> 200%Z.
Proof.
  intros Hid Ht Hf Hmail Hte Hunv newPassword Hsent Hneq Htp Hcmp Htok.
  subst newPassword. set (newPassword := fresh_password random_index w) in *.
  cbv zeta.
  destruct (findById_found ObjectId_isValid _ _ _ Hf) as (Hfind & Huid).
  split.
  - rewrite (userapprove_found env ObjectId_isValid bcrypt_hash random_index
               true p b q w uid user Hid Ht Hf).
    cbv zeta. fold newPassword.
    clearbody newPassword.
    destruct (Mail.sendEmailWithRetry env (approval_mail env user newPassword)
                3 (mailer w)) as [[e1 | i1] m1]; cbn [fst] in Hsent;
      [discriminate |].
    unfold save. cbn [password].
    destruct (String.eqb newPassword (password user)) eqn:E.
    { apply String.eqb_eq in E. congruence. }
    cbn [snd users]. unfold login. rewrite Hte, Htp. cbn [negb orb].
    cbn [user_id name email password generatedPassword isVerified role
         lastLogin].
    set (u' := mkUser (user_id user) (name user) (email user)
                 (bcrypt_hash newPassword) newPassword true (role user)
                 (lastLogin user)).
    assert (Hfe : findOne_email (email user) (replace_user u' (users w))
                  = Some u').
    { apply (findOne_email_replace_user (users w) user u');
        cbn [user_id email u']; [now rewrite Huid | exact Hmail]. }
    rewrite Hfe. cbn [password u']. rewrite Hcmp. cbn [negb user_id u'].
    rewrite Huid, Htok. reflexivity.
  - intros pw. unfold login.
    destruct pw as [pw |]; [| cbn; discriminate].
    destruct (negb (Js.truthy_str (email user)) || negb (Js.truthy_str pw))%bool;
      [cbn; discriminate |].
    rewrite Hmail.
    destruct (negb (bcrypt_compare _ _)); [cbn; discriminate |].
    destruct (generateAccessToken (user_id user)); [| cbn; discriminate].
    rewrite Hunv. cbn. discriminate.
Qed.

(** After a successful [userreject] no login of that user succeeds,
    whatever the password, and the stored password is the one it was. *)
Theorem reject_then_login (p b q : option string) (w : World) (uid : string)
    (user : User) (info : Mail.SendInfo) (now : Z) (pw : option string) :
  request_userId p b q = Some uid ->
  Js.truthy_str uid = true ->
  findById ObjectId_isValid uid (users w) = Found user ->
  findOne_email (email user) (users w) = Some user ->
  fst (Mail.sendEmailWithRetry env (rejection_mail env user) 3 (mailer w))
  = inr info ->
  let w' := snd (userreject env ObjectId_isValid bcrypt_hash true p b q w) in
  res_status
    (fst (login bcrypt_compare generateAccessToken NODE_ENV None
            (Some (email user)) pw now (users w')))
  <> 200%Z
  /\ exists user' : User,
       find_user uid (users w') = Some user'
       /\ password user' = password user /\ isVerified user' = false.
Proof.
  intros Hid Ht Hf Hmail Hsent. cbv zeta.
  destruct (findById_found ObjectId_isValid _ _ _ Hf) as (Hfind & Huid).
  rewrite (userreject_found env ObjectId_isValid bcrypt_hash true p b q w uid
             user Hid Ht Hf).
  cbv zeta.
  destruct (Mail.sendEmailWithRetry env (rejection_mail env user) 3 (mailer w))
    as [[e1 | i1] m1]; cbn [fst] in Hsent; [discriminate |].
  unfold save. cbn [password]. rewrite String.eqb_refl. cbn [snd users].
  cbn [user_id name email password generatedPassword isVerified role
       lastLogin].
  set (u' := mkUser (user_id user) (name user) (email user) (password user)
               (generatedPassword user) false (role user) (lastLogin user)).
  split.
  - assert (Hfe : findOne_email (email user) (replace_user u' (users w))
                  = Some u').
    { apply (findOne_email_replace_user (users w) user u');
        cbn [user_id email u']; [now rewrite Huid | exact Hmail]. }
    unfold login. destruct pw as [pw |]; [| cbn; discriminate].
    destruct (negb (Js.truthy_str (email user)) || negb (Js.truthy_str pw))%bool;
      [cbn; discriminate |].
    rewrite Hfe.
    destruct (negb (bcrypt_compare _ _)); [cbn; discriminate |].
    destruct (generateAccessToken (user_id u')); cbn; discriminate.
  - exists u'. split; [| auto].
    now apply (find_replace_user uid _ user).
Qed.

End LifecycleFacts.

Section LifecycleExamples.
Import Model Approval Auth.

Lemma approve_then_login_witness :
  let w' :=
    snd (userapprove Samples.working_env Samples.accept_all Samples.tag_hash
           (fun k => k) true (Some "64b7f0c2a1d3e4f5a6b7c8d9") None None
           Samples.pending_world) in
  res_status
    (fst (login Samples.tag_compare Samples.sign None None
            (Some "asha@example.com") (Some "ABCDEFGHIJKL") 5 (users w')))
  = 200%Z.
Proof.
  cbv zeta.
  apply (approve_then_login Samples.working_env Samples.accept_all
           Samples.tag_hash (fun k => k) Samples.tag_compare Samples.sign None
           (Some "64b7f0c2a1d3e4f5a6b7c8d9") None None Samples.pending_world
           "64b7f0c2a1d3e4f5a6b7c8d9" Samples.pending_user
           (Mail.mkSendInfo "resend" (Some "msg-1"))
           "jwt.64b7f0c2a1d3e4f5a6b7c8d9" 5);
    try reflexivity.
  vm_compute. discriminate.
Defined.

Lemma reject_then_login_witness :
  let w' :=
    snd (userreject Samples.working_env Samples.accept_all Samples.tag_hash
           true (Some "64b7f0c2a1d3e4f5a6b7c8e1") None None
           (mkWorld [MoreSamples.verified_trader] Mail.initial 0)) in
  res_status
    (fst (login Samples.tag_compare Samples.sign None None
            (Some "meera@example.com") (Some "Secret123") 5 (users w')))
  <> 200%Z.
Proof.
  cbv zeta.
  apply (reject_then_login Samples.working_env Samples.accept_all
           Samples.tag_hash Samples.tag_compare Samples.sign None
           (Some "64b7f0c2a1d3e4f5a6b7c8e1") None None
           (mkWorld [MoreSamples.verified_trader] Mail.initial 0)
           "64b7f0c2a1d3e4f5a6b7c8e1" MoreSamples.verified_trader
           (Mail.mkSendInfo "resend" (Some "msg-1")) 5 (Some "Secret123"));
    reflexivity.
Defined.

End LifecycleExamples.

(** ** Changing a password, deleting a user *)

Section AccountFacts.
Import Model Approval Account.

Variable ObjectId_isValid : string -> bool.
Variable bcrypt_compare : string -> string -> bool.
Variable bcrypt_hash : string -> string.

(** [changePassword] writes only when it answers 200, and then only the
    password of the requesting user, whose old password it has checked;
    a new password equal to the old one is refused with 400 before any
    lookup. *)
Theorem changePassword_effect (save_ok : bool)
    (oldPassword newPassword : option string) (rid : string)
    (coll : list User) :
  let r :=
    changePassword ObjectId_isValid bcrypt_compare bcrypt_hash save_ok
      oldPassword newPassword rid coll in
  (res_status (fst r) = 200%Z ->
   exists (user : User) (old new : string),
     oldPassword = Some old /\ newPassword = Some new /\ old <> new
     /\ find_user rid coll = Some user
     /\ bcrypt_compare old (password user) = true
     /\ snd r
        = replace_user
            (mkUser (user_id user) (name user) (email user)
               (if String.eqb new (password user) then new else bcrypt_hash new)
               (generatedPassword user) (isVerified user) (role user)
               (lastLogin user)) coll)
  /\ (res_status (fst r) <> 200%Z -> snd r = coll)
  /\ (oldPassword = newPassword -> res_status (fst r) = 400%Z).
Proof.
  cbv zeta. unfold changePassword.
  destruct oldPassword as [old |], newPassword as [new |];
    try (cbn; repeat split; auto; discriminate).
  destruct (negb (Js.truthy_str old) || negb (Js.truthy_str new))%bool;
    [cbn; repeat split; auto; discriminate |].
  destruct (String.eqb old new) eqn:Eeq;
    [cbn; repeat split; auto; discriminate |].
  apply String.eqb_neq in Eeq.
  assert (Hne : Some old = Some new -> False) by (intros H; congruence).
  unfold findById.
  destruct (ObjectId_isValid rid);
    [| cbn; repeat split; auto; try discriminate; intros H; now destruct (Hne H)].
  destruct (find_user rid coll) as [user |] eqn:Ef;
    [| cbn; repeat split; auto; try discriminate; intros H; now destruct (Hne H)].
  destruct (bcrypt_compare old (password user)) eqn:Ec; cbn [negb];
    [| cbn; repeat split; auto; try discriminate; intros H; now destruct (Hne H)].
  unfold save. destruct save_ok;
    [| cbn; repeat split; auto; try discriminate; intros H; now destruct (Hne H)].
  cbn [fst snd res_status password]. split; [| split].
  - intros _. exists user, old, new.
    repeat split; auto.
    destruct (String.eqb new (password user)); reflexivity.
  - intros H. now contradiction H.
  - intros H. now destruct (Hne H).
Qed.

(** [changePassword] hashes the new password as it is given, while
    [login] compares the trimmed one.  With a [bcrypt] that accepts exactly
    the password a hash was made of, and a hash without surrounding
    blanks: after a password change, the new password logs in when it has
    no surrounding blanks and is answered 401 when it has; the old
    password is answered 401, unless trimming it gives the new one, and
    then it still logs in. *)
Theorem changePassword_then_login
    (generateAccessToken : string -> option string) (NODE_ENV : option string)
    (old new rid token : string) (now : Z) (coll : list User) (user : User) :
  (forall plain other : string,
     bcrypt_compare plain (bcrypt_hash other) = true <-> plain = other) ->
  Js.trim (bcrypt_hash new) = bcrypt_hash new ->
  findById ObjectId_isValid rid coll = Found user ->
  Auth.findOne_email (email user) coll = Some user ->
  Js.truthy_str (email user) = true ->
  Js.truthy_str old = true ->
  Js.truthy_str new = true ->
  old <> new ->
  new <> password user ->
  isVerified user = true ->
  bcrypt_compare old (password user) = true ->
  generateAccessToken rid = Some token ->
  let changed :=
    changePassword ObjectId_isValid bcrypt_compare bcrypt_hash true (Some old)
      (Some new) rid coll in
  let login_with (pw : string) :=
    Auth.res_status
      (fst (Auth.login bcrypt_compare generateAccessToken NODE_ENV None
              (Some (email user)) (Some pw) now (snd changed))) in
  res_status (fst changed) = 200%Z
  /\ (Js.trim new = new -> login_with new = 200%Z)
  /\ (Js.trim new <> new -> login_with new = 401%Z)
  /\ (Js.trim old <> new -> login_with old = 401%Z)
  /\ (Js.trim old = new -> login_with old = 200%Z).
Proof.
  intros Hbcrypt Hhash Hf Hmail Hte Hto Htn Hne Hnp Hv Hold Htok. cbv zeta.
  destruct (findById_found ObjectId_isValid _ _ _ Hf) as (Hfind & Huid).
  unfold changePassword. rewrite Hto, Htn, Hf, Hold. cbn [negb orb].
  apply String.eqb_neq in Hne. rewrite Hne.
  unfold save. cbn [password].
  apply String.eqb_neq in Hnp. rewrite Hnp.
  cbn [fst snd res_status user_id name email password generatedPassword
       isVerified role lastLogin].
  set (u' := mkUser (user_id user) (name user) (email user) (bcrypt_hash new)
               (generatedPassword user) (isVerified user) (role user)
               (lastLogin user)).
  assert (Hfe : Auth.findOne_email (email user) (replace_user u' coll)
                = Some u').
  { apply (findOne_email_replace_user coll user u');
      cbn [user_id email u']; [now rewrite Huid | exact Hmail]. }
  assert (Hlogin : forall pw : string,
    Js.truthy_str pw = true ->
    Auth.res_status
      (fst (Auth.login bcrypt_compare generateAccessToken NODE_ENV None
              (Some (email user)) (Some pw) now (replace_user u' coll)))
    = if bcrypt_compare (Js.trim pw) (bcrypt_hash new) then 200%Z else 401%Z).
  { intros pw Htp. unfold Auth.login.
    rewrite Hte, Htp, Hfe. cbn [negb orb password u']. rewrite Hhash.
    destruct (bcrypt_compare (Js.trim pw) (bcrypt_hash new));
      cbn [negb user_id u' isVerified]; [| reflexivity].
    rewrite Huid, Htok, Hv. reflexivity. }
  assert (Hacc : forall pw : string,
    Js.trim pw = new -> bcrypt_compare (Js.trim pw) (bcrypt_hash new) = true)
    by (intros pw Hp; now apply Hbcrypt).
  assert (Hrej : forall pw : string,
    Js.trim pw <> new -> bcrypt_compare (Js.trim pw) (bcrypt_hash new) = false).
  { intros pw Hp.
    destruct (bcrypt_compare (Js.trim pw) (bcrypt_hash new)) eqn:E;
      [| reflexivity].
    apply Hbcrypt in E. contradiction. }
  split; [reflexivity |].
  split; [intros Ht; now rewrite (Hlogin new Htn), (Hacc new Ht) |].
  split; [intros Ht; now rewrite (Hlogin new Htn), (Hrej new Ht) |].
  split; [intros Ht; now rewrite (Hlogin old Hto), (Hrej old Ht) |].
  intros Ht. now rewrite (Hlogin old Hto), (Hacc old Ht).
Qed.

(** After a successful login, [getLastLogin] for that user answers with
    the time of that login. *)
Theorem login_then_getLastLogin
    (generateAccessToken : string -> option string) (NODE_ENV : option string)
    (e pw : string) (now : Z) (coll : list User) (user : User) :
  Auth.res_status
    (fst (Auth.login bcrypt_compare generateAccessToken NODE_ENV None (Some e)
            (Some pw) now coll)) = 200%Z ->
  Auth.findOne_email e coll = Some user ->
  find_user (user_id user) coll = Some user ->
  ObjectId_isValid (user_id user) = true ->
  getLastLogin ObjectId_isValid (user_id user)
    (snd (Auth.login bcrypt_compare generateAccessToken NODE_ENV None (Some e)
            (Some pw) now coll))
  = Some (201%Z, Some now).
Proof.
  unfold Auth.login. intros Hok Hfe Hfu Hvalid. revert Hok. rewrite Hfe.
  destruct (negb (Js.truthy_str e) || negb (Js.truthy_str pw))%bool;
    [cbn; discriminate |].
  destruct (negb (bcrypt_compare _ _)); [cbn; discriminate |].
  destruct (generateAccessToken (user_id user)); [| cbn; discriminate].
  destruct (negb (isVerified user)); [cbn; discriminate |].
  intros _. cbn [snd]. unfold getLastLogin, findById. rewrite Hvalid.
  rewrite (find_replace_user (user_id user) coll user); [reflexivity | | ];
    [exact Hfu | reflexivity].
Qed.

End AccountFacts.

Section DeletionFacts.
Import Model Approval Account.

Lemma find_user_not_in (uid : string) (coll : list User) :
  ~ In uid (map user_id coll) -> find_user uid coll = None.
Proof.
  induction coll as [| x coll IH]; cbn; [reflexivity |].
  intros Hn. destruct (String.eqb (user_id x) uid) eqn:E.
  - apply String.eqb_eq in E. tauto.
  - apply IH. tauto.
Qed.

(** A deleted user is gone and only that user: with ids unique, the id
    is found no more, every other id is found as before, and a later
    [userapprove] for the deleted id answers 404 without sending mail or
    drawing a password. *)
Theorem deleteUserById_effect (ObjectId_isValid : string -> bool)
    (bcrypt_hash : string -> string) (env : Mail.Env)
    (random_index : nat -> nat)
    (save_ok : bool) (p b q : option string) (uid : string)
    (coll : list User) (u : User) (m : Mail.Mailer) (k : nat) :
  List.NoDup (map user_id coll) ->
  request_userId p b q = Some uid ->
  Js.truthy_str uid = true ->
  ObjectId_isValid uid = true ->
  find_user uid coll = Some u ->
  let r := deleteUserById ObjectId_isValid p b q coll in
  res_status (fst r) = 200%Z
  /\ find_user uid (snd r) = None
  /\ (forall other : string,
        other <> uid -> find_user other (snd r) = find_user other coll)
  /\ userapprove env ObjectId_isValid bcrypt_hash random_index save_ok p b q
       (mkWorld (snd r) m k)
     = (Approval.mkResponse 404 "User not found" None None,
        mkWorld (snd r) m k).
Proof.
  intros Hnd Hid Ht Hvalid Hfind. cbv zeta.
  unfold deleteUserById. rewrite Hid, Ht, Hvalid, Hfind. cbn [negb fst snd].
  assert (Hgone : find_user uid (remove_user uid coll) = None).
  { clear Hfind. induction coll as [| x coll IH]; cbn; [reflexivity |].
    inversion Hnd as [| ? ? Hnotin Hnd']; subst.
    destruct (String.eqb (user_id x) uid) eqn:E.
    - apply String.eqb_eq in E. subst uid. now apply find_user_not_in.
    - cbn. rewrite E. now apply IH. }
  split; [reflexivity |]. split; [exact Hgone |]. split.
  - intros other Hother. clear Hfind Hnd Hgone.
    induction coll as [| x coll IH]; cbn; [reflexivity |].
    destruct (String.eqb (user_id x) uid) eqn:E.
    + apply String.eqb_eq in E.
      destruct (String.eqb (user_id x) other) eqn:E'; [| reflexivity].
      apply String.eqb_eq in E'. congruence.
    + cbn. destruct (String.eqb (user_id x) other); [reflexivity | exact IH].
  - unfold userapprove. rewrite Hid, Ht. cbn [negb users].
    unfold findById. rewrite Hvalid, Hgone. reflexivity.
Qed.

End DeletionFacts.

Section AccountExamples.
Import Model Approval Account.

Lemma changePassword_effect_witness :
  snd (changePassword Samples.accept_all Samples.tag_compare Samples.tag_hash
         true (Some "wrong-old") (Some "NewSecret1")
         "64b7f0c2a1d3e4f5a6b7c8e1" [MoreSamples.verified_trader])
  = [MoreSamples.verified_trader].
Proof.
  apply (changePassword_effect Samples.accept_all Samples.tag_compare
           Samples.tag_hash true (Some "wrong-old") (Some "NewSecret1")
           "64b7f0c2a1d3e4f5a6b7c8e1" [MoreSamples.verified_trader]).
  vm_compute. discriminate.
Defined.

Lemma sealed_hash_inj (a b : string) :
  MoreSamples.sealed_hash a = MoreSamples.sealed_hash b -> a = b.
Proof.
  unfold MoreSamples.sealed_hash. cbn. intros H. inversion H as [H'].
  clear H. revert b H'.
  induction a as [| c a IH]; intros [| c' b]; cbn; intros H.
  - reflexivity.
  - inversion H as [[Hc Hb]]. destruct b; discriminate Hb.
  - inversion H as [[Hc Ha]]. destruct a; discriminate Ha.
  - inversion H as [[Hc Ha]]. f_equal. now apply IH.
Qed.

Lemma changePassword_then_login_witness :
  let changed_blank :=
    changePassword Samples.accept_all MoreSamples.sealed_compare
      MoreSamples.sealed_hash true (Some "Secret123") (Some " NewSecret1 ")
      "64b7f0c2a1d3e4f5a6b7c8e2" [MoreSamples.sealed_trader] in
  let changed :=
    changePassword Samples.accept_all MoreSamples.sealed_compare
      MoreSamples.sealed_hash true (Some "Secret123") (Some "NewSecret1")
      "64b7f0c2a1d3e4f5a6b7c8e2" [MoreSamples.sealed_trader] in
  res_status (fst changed_blank) = 200%Z
  /\ Auth.res_status
       (fst (Auth.login MoreSamples.sealed_compare Samples.sign None None
               (Some "dev@example.com") (Some " NewSecret1 ") 9
               (snd changed_blank)))
     = 401%Z
  /\ Auth.res_status
       (fst (Auth.login MoreSamples.sealed_compare Samples.sign None None
               (Some "dev@example.com") (Some "NewSecret1") 9 (snd changed)))
     = 200%Z.
Proof.
  cbv zeta.
  assert (Hbcrypt : forall plain other : string,
    MoreSamples.sealed_compare plain (MoreSamples.sealed_hash other) = true
    <-> plain = other).
  { intros plain other. unfold MoreSamples.sealed_compare.
    rewrite String.eqb_eq. split; [apply sealed_hash_inj | now intros ->]. }
  destruct (changePassword_then_login Samples.accept_all
              MoreSamples.sealed_compare MoreSamples.sealed_hash Samples.sign
              None "Secret123" " NewSecret1 " "64b7f0c2a1d3e4f5a6b7c8e2"
              "jwt.64b7f0c2a1d3e4f5a6b7c8e2" 9 [MoreSamples.sealed_trader]
              MoreSamples.sealed_trader Hbcrypt)
    as (Hok & _ & Hblank & _); try reflexivity; try (cbv; discriminate).
  destruct (changePassword_then_login Samples.accept_all
              MoreSamples.sealed_compare MoreSamples.sealed_hash Samples.sign
              None "Secret123" "NewSecret1" "64b7f0c2a1d3e4f5a6b7c8e2"
              "jwt.64b7f0c2a1d3e4f5a6b7c8e2" 9 [MoreSamples.sealed_trader]
              MoreSamples.sealed_trader Hbcrypt)
    as (_ & Hplain & _); try reflexivity; try (cbv; discriminate).
  split; [exact Hok |]. split.
  - apply Hblank. cbv. discriminate.
  - apply Hplain. reflexivity.
Defined.

Lemma deleteUserById_effect_witness :
  find_user "64b7f0c2a1d3e4f5a6b7c8e1"
    (snd (deleteUserById Samples.accept_all (Some "64b7f0c2a1d3e4f5a6b7c8e1")
            None None [Samples.pending_user; MoreSamples.verified_trader]))
  = None
  /\ find_user "64b7f0c2a1d3e4f5a6b7c8d9"
       (snd (deleteUserById Samples.accept_all
               (Some "64b7f0c2a1d3e4f5a6b7c8e1") None None
               [Samples.pending_user; MoreSamples.verified_trader]))
     = Some Samples.pending_user.
Proof.
  destruct (deleteUserById_effect Samples.accept_all Samples.tag_hash
              Samples.working_env (fun k => k) true
              (Some "64b7f0c2a1d3e4f5a6b7c8e1") None None
              "64b7f0c2a1d3e4f5a6b7c8e1"
              [Samples.pending_user; MoreSamples.verified_trader]
              MoreSamples.verified_trader Mail.initial 0)
    as (_ & Hgone & Hframe & _); try reflexivity.
  - repeat constructor; cbn; intros H;
      repeat (destruct H as [H | H]; [discriminate H |]); exact H.
  - split; [exact Hgone |].
    rewrite Hframe; [reflexivity | discriminate].
Defined.

Lemma login_then_getLastLogin_witness :
  getLastLogin Samples.accept_all "64b7f0c2a1d3e4f5a6b7c8e1"
    (snd (Auth.login Samples.tag_compare Samples.sign None None
            (Some "meera@example.com") (Some "Secret123") 77
            [MoreSamples.verified_trader]))
  = Some (201%Z, Some 77%Z).
Proof.
  apply (login_then_getLastLogin Samples.accept_all Samples.tag_compare
           Samples.sign None "meera@example.com" "Secret123" 77
           [MoreSamples.verified_trader] MoreSamples.verified_trader);
    reflexivity.
Defined.

End AccountExamples.

(** ** Balances as sums of contributions *)

Section EffectFacts.
Import Model Ledger BalanceSpec Effects.

Lemma total_app {A : Type} (f : A -> Q) (l l' : list A) :
  total f (l ++ l') == total f l + total f l'.
Proof.
  induction l as [| x l IH]; cbn; [ring | rewrite IH; ring].
Qed.

Lemma tx_effect_split (uid : string) (t : Transaction) :
  (if decide (completed uid DEPOSIT t) then amount t else 0)
  - (if decide (completed uid WITHDRAWAL t) then amount t else 0)
  == tx_effect uid t.
Proof.
  unfold completed, tx_effect.
  destruct (String.eqb_spec (tx_userId t) uid) as [Hu | Hu];
    destruct (tx_type t), (tx_status t); cbn;
    repeat match goal with
           | |- context [decide ?P] => destruct (decide P)
           end;
    try ring; exfalso; intuition congruence.
Qed.

Lemma order_effect_split (uid : string) (o : Order) :
  (if decide (in_status uid CLOSED o) then realized o else 0)
  - (if decide (in_status uid OPEN o) then tradeAmount o else 0)
  == order_effect uid o.
Proof.
  unfold in_status, order_effect.
  destruct (String.eqb_spec (userId o) uid) as [Hu | Hu];
    destruct (status o); cbn;
    repeat match goal with
           | |- context [decide ?P] => destruct (decide P)
           end;
    try ring; exfalso; intuition congruence.
Qed.

(** The dashboard balance is the sum of what each record contributes. *)
Lemma balance_as_effects (uid : string) (txs : list Transaction)
    (orders : list Order) :
  accountBalance (getUserDashboardData uid txs orders)
  == total (tx_effect uid) txs + total (order_effect uid) orders.
Proof.
  rewrite dashboard_accountBalance. unfold spec_accountBalance.
  assert (Htx : sum_over (completed uid DEPOSIT) amount txs
                - sum_over (completed uid WITHDRAWAL) amount txs
                == total (tx_effect uid) txs).
  { induction txs as [| t txs IH]; cbn; [ring |].
    rewrite <- IH, <- (tx_effect_split uid t). ring. }
  assert (Hord : sum_over (in_status uid CLOSED) realized orders
                 - sum_over (in_status uid OPEN) tradeAmount orders
                 == total (order_effect uid) orders).
  { induction orders as [| o orders IH]; cbn; [ring |].
    rewrite <- IH, <- (order_effect_split uid o). ring. }
  rewrite <- Htx, <- Hord. ring.
Qed.

End EffectFacts.

(** ** Trades and the dashboard, composed *)

Section TradeBalanceFacts.
Import Model Ledger Effects Trades.

Lemma find_order_id (id : string) (coll : list Order) (o : Order) :
  find_order id coll = Some o -> order_id o = id.
Proof.
  induction coll as [| x coll IH]; cbn; [discriminate |].
  destruct (String.eqb (order_id x) id) eqn:E; [| exact IH].
  intros H. inversion H; subst. now apply String.eqb_eq.
Qed.

Lemma total_replace_order (f : Order -> Q) (id : string) (o' old : Order)
    (coll : list Order) :
  find_order id coll = Some old ->
  total f (replace_order id o' coll) == total f coll - f old + f o'.
Proof.
  induction coll as [| x coll IH]; cbn; [discriminate |].
  destruct (String.eqb (order_id x) id).
  - intros H. inversion H; subst. cbn. ring.
  - intros H. cbn. rewrite (IH H). ring.
Qed.

(** Opening a trade takes [quantity * buyPrice] out of its owner's
    dashboard balance, and nothing out of anybody else's; a refused
    [createTrade] stores nothing. *)
Theorem createTrade_then_dashboard (validate_order : Order -> bool)
    (newId : string) (now : Z) (body : CreateBody) (coll coll' : list Order)
    (r : TradeResponse) :
  createTrade validate_order newId now body coll = (r, coll') ->
  (tr_status r <> 201%Z -> coll' = coll)
  /\ (tr_status r = 201%Z ->
      exists o : Order,
        tr_data r = Some o
        /\ cb_userId body = Some (userId o)
        /\ cb_quantity body = Some (quantity o)
        /\ cb_buyPrice body = Some (buyPrice o)
        /\ status o = OPEN
        /\ forall (uid : string) (txs : list Transaction),
             accountBalance (getUserDashboardData uid txs coll')
             == accountBalance (getUserDashboardData uid txs coll)
                - (if String.eqb (userId o) uid
                   then quantity o * buyPrice o else 0)).
Proof.
  unfold createTrade. intros H.
  destruct (cb_userId body) as [uid0 |], (cb_symbol body) as [sym |],
    (cb_tradeType body) as [ty |], (cb_quantity body) as [qty |],
    (cb_buyPrice body) as [buy |];
    try (inversion H; subst; cbn; split; [auto | discriminate]).
  destruct (negb _);
    [inversion H; subst; cbn; split; [auto | discriminate] |].
  destruct (validate_order _);
    [| inversion H; subst; cbn; split; [auto | discriminate]].
  inversion H; subst. cbn [tr_status tr_data]. split.
  - intros Hn. now contradiction Hn.
  - intros _. eexists. split; [reflexivity |].
    cbn [userId quantity buyPrice status].
    repeat (split; [reflexivity |]).
    intros uid txs. rewrite !balance_as_effects, total_app.
    cbn [total]. unfold order_effect. cbn [userId status tradeAmount].
    destruct (String.eqb uid0 uid); ring.
Qed.

(** The three blocks of [updateTrade] leave [_id], [userId] and
    [tradeDate] of the body as they came. *)
Lemma update_blocks_keys (u : UpdateData) :
  u__id (update_tradeAmount (update_profitLoss u)) = u__id u
  /\ u_userId (update_tradeAmount (update_profitLoss u)) = u_userId u
  /\ u_tradeDate (update_tradeAmount (update_profitLoss u)) = u_tradeDate u.
Proof.
  unfold update_tradeAmount, update_profitLoss.
  repeat match goal with
         | |- context [match ?x with _ => _ end] => destruct x
         end; cbn; auto.
Qed.

Lemma prepared_update_keys (old : Order) (u u1 : UpdateData) :
  u1 = u \/ u1 = update_priceRange old u ->
  u__id (update_tradeAmount (update_profitLoss u1)) = u__id u
  /\ u_userId (update_tradeAmount (update_profitLoss u1)) = u_userId u
  /\ u_tradeDate (update_tradeAmount (update_profitLoss u1)) = u_tradeDate u.
Proof.
  intros Hu1. destruct (update_blocks_keys u1) as (-> & -> & ->).
  destruct Hu1 as [-> | ->]; cbn; auto.
Qed.

(** A successful [updateTrade] moves a dashboard balance by exactly the
    difference between what the stored order contributes after and
    before.  The owner of the stored order is the body's [userId] when it
    carries one, and the old owner otherwise.  With the owner unchanged,
    closing an open position gives the owner the locked trade amount
    back, plus the profit or loss; with another [userId] in the body the
    order leaves the old owner's balance and enters the new owner's. *)
Theorem updateTrade_then_dashboard (ObjectId_isValid : string -> bool)
    (validate_update : UpdateData -> bool) (tradeId : string) (now : Z)
    (u : UpdateData) (coll coll' : list Order) (r : TradeResponse) :
  updateTrade ObjectId_isValid validate_update tradeId now u coll = (r, coll') ->
  tr_status r = 200%Z ->
  exists old new : Order,
    find_order tradeId coll = Some old
    /\ tr_data r = Some new
    /\ userId new = or_else (u_userId u) (userId old)
    /\ (forall (uid : string) (txs : list Transaction),
          accountBalance (getUserDashboardData uid txs coll')
          == accountBalance (getUserDashboardData uid txs coll)
             - order_effect uid old + order_effect uid new)
    /\ (userId new = userId old -> status old = OPEN -> status new = CLOSED ->
        forall txs : list Transaction,
          accountBalance (getUserDashboardData (userId old) txs coll')
          == accountBalance (getUserDashboardData (userId old) txs coll)
             + tradeAmount old + BalanceSpec.realized new)
    /\ (userId new <> userId old ->
        forall txs : list Transaction,
          accountBalance (getUserDashboardData (userId old) txs coll')
          == accountBalance (getUserDashboardData (userId old) txs coll)
             - order_effect (userId old) old
          /\ accountBalance (getUserDashboardData (userId new) txs coll')
             == accountBalance (getUserDashboardData (userId new) txs coll)
                + order_effect (userId new) new).
Proof.
  intros H Hs.
  destruct (updateTrade_ok ObjectId_isValid validate_update _ _ _ _ _ _ H Hs)
    as (old & u1 & Hf & Hu1 & Hd & Hc).
  destruct (prepared_update_keys old u u1 Hu1) as (_ & Howner & _).
  set (new := apply_update old (update_tradeAmount (update_profitLoss u1)) now)
    in *.
  exists old, new. split; [exact Hf |]. split; [exact Hd |].
  split; [subst new; cbn [apply_update userId]; now rewrite Howner |].
  assert (Hgen : forall uid txs,
    accountBalance (getUserDashboardData uid txs coll')
    == accountBalance (getUserDashboardData uid txs coll)
       - order_effect uid old + order_effect uid new).
  { intros uid txs. rewrite !balance_as_effects, Hc.
    rewrite (total_replace_order _ _ _ old _ Hf). ring. }
  split; [exact Hgen |]. split.
  - intros Hsame Hopen Hclosed txs. rewrite Hgen.
    unfold order_effect. rewrite Hsame, String.eqb_refl, Hopen, Hclosed. ring.
  - intros Hmoved txs.
    assert (E1 : order_effect (userId old) new = 0).
    { unfold order_effect.
      now replace (String.eqb (userId new) (userId old)) with false
        by (symmetry; now apply String.eqb_neq). }
    assert (E2 : order_effect (userId new) old = 0).
    { unfold order_effect.
      now replace (String.eqb (userId old) (userId new)) with false
        by (symmetry; apply String.eqb_neq; congruence). }
    rewrite !Hgen, E1, E2. split; ring.
Qed.

Lemma find_replace_order (id : string) (o' old : Order) (coll : list Order) :
  find_order id coll = Some old -> order_id o' = id ->
  find_order id (replace_order id o' coll) = Some o'.
Proof.
  intros Hf Hid. induction coll as [| x coll IH]; cbn in *; [discriminate |].
  destruct (String.eqb (order_id x) id) eqn:E.
  - cbn. rewrite Hid, String.eqb_refl. reflexivity.
  - cbn. rewrite E. now apply IH.
Qed.

Lemma find_replace_order_other (id other : string) (o' : Order)
    (coll : list Order) :
  other <> id -> order_id o' = id ->
  find_order other (replace_order id o' coll) = find_order other coll.
Proof.
  intros Hne Hid. induction coll as [| x coll IH]; cbn; [reflexivity |].
  destruct (String.eqb (order_id x) id) eqn:E.
  - cbn. apply String.eqb_eq in E.
    assert (E1 : String.eqb (order_id o') other = false)
      by (apply String.eqb_neq; congruence).
    assert (E2 : String.eqb (order_id x) other = false)
      by (apply String.eqb_neq; congruence).
    now rewrite E1, E2.
  - cbn. destruct (String.eqb (order_id x) other); [reflexivity | exact IH].
Qed.

Lemma length_replace_order (id : string) (o' : Order) (coll : list Order) :
  List.length (replace_order id o' coll) = List.length coll.
Proof.
  induction coll as [| x coll IH]; cbn; [reflexivity |].
  destruct (String.eqb (order_id x) id); cbn; [reflexivity | now rewrite IH].
Qed.

(** [updateTrade] touches one order at most: the collection keeps its
    size, every other id reads as before, and nothing at all is written
    unless the answer is 200.  The updated order keeps its id and gets
    [updatedAt] set to the time of the request; its owner and its trade
    date are the body's [userId] and [tradeDate] when the body carries
    them, and the old ones otherwise; a body whose [_id] is not the
    order's own is never answered 200. *)
Theorem updateTrade_frame (ObjectId_isValid : string -> bool)
    (validate_update : UpdateData -> bool) (tradeId : string) (now : Z)
    (u : UpdateData) (coll coll' : list Order) (r : TradeResponse) :
  updateTrade ObjectId_isValid validate_update tradeId now u coll = (r, coll') ->
  (tr_status r <> 200%Z -> coll' = coll /\ tr_data r = None)
  /\ List.length coll' = List.length coll
  /\ (forall other : string,
        other <> tradeId -> find_order other coll' = find_order other coll)
  /\ (tr_status r = 200%Z ->
      exists old new : Order,
        find_order tradeId coll = Some old
        /\ tr_data r = Some new
        /\ find_order tradeId coll' = Some new
        /\ order_id new = order_id old
        /\ updatedAt new = now
        /\ userId new = or_else (u_userId u) (userId old)
        /\ tradeDate new = or_else (u_tradeDate u) (tradeDate old)
        /\ (forall i : string, u__id u = Some i -> i = tradeId)).
Proof.
  intros H.
  assert (Hcases : (tr_status r <> 200%Z /\ coll' = coll /\ tr_data r = None)
                   \/ (tr_status r = 200%Z
                       /\ forall i : string, u__id u = Some i -> i = tradeId)).
  { assert (Hfin : forall u1 : UpdateData,
              u__id u1 = u__id u ->
              findByIdAndUpdate ObjectId_isValid validate_update tradeId u1 now
                coll = (r, coll') ->
              (tr_status r <> 200%Z /\ coll' = coll /\ tr_data r = None)
              \/ (tr_status r = 200%Z
                  /\ forall i : string, u__id u = Some i -> i = tradeId)).
    { intros u1 Hid. unfold findByIdAndUpdate.
      destruct (negb (ObjectId_isValid tradeId));
        [intros E; inversion E; subst; left; cbn; repeat split; auto;
         discriminate |].
      destruct (negb (validate_update _));
        [intros E; inversion E; subst; left; cbn; repeat split; auto;
         discriminate |].
      destruct (find_order tradeId coll) as [old |] eqn:Hf;
        [| intros E; inversion E; subst; left; cbn; repeat split; auto;
           discriminate].
      destruct (modifies_id old u1) eqn:Hm;
        [intros E; inversion E; subst; left; cbn; repeat split; auto;
         discriminate |].
      intros E; inversion E; subst. right. split; [reflexivity |].
      intros i Hi. unfold modifies_id in Hm. rewrite Hid, Hi in Hm.
      apply negb_false_iff, String.eqb_eq in Hm.
      rewrite Hm. now apply find_order_id with (coll := coll). }
    revert H. unfold updateTrade, findById.
    destruct (isSome (u_priceRangeLow u) || isSome (u_priceRangeHigh u))%bool.
    - destruct (ObjectId_isValid tradeId);
        [| intros E; inversion E; subst; left; cbn; repeat split; auto;
           discriminate].
      destruct (find_order tradeId coll) as [old |];
        [| intros E; inversion E; subst; left; cbn; repeat split; auto;
           discriminate].
      apply Hfin.
      apply (prepared_update_keys old u (update_priceRange old u)). now right.
    - apply Hfin. apply (update_blocks_keys u). }
  destruct Hcases as [(Hn & Hc & Hd) | (Hs & Hbody)].
  - subst coll'. repeat split; auto. intros Hs. now contradiction Hn.
  - destruct (updateTrade_ok ObjectId_isValid validate_update _ _ _ _ _ _ H Hs)
      as (old & u1 & Hf & Hu1 & Hd & Hc).
    destruct (prepared_update_keys old u u1 Hu1) as (_ & Howner & Hdate).
    pose proof (find_order_id _ _ _ Hf) as Hid.
    split; [intros Hn; now contradiction Hn |].
    split; [subst coll'; apply length_replace_order |].
    split.
    + intros other Hne. subst coll'.
      now apply find_replace_order_other.
    + intros _. exists old. eexists. split; [exact Hf |].
      split; [exact Hd |].
      split; [subst coll'; now apply (find_replace_order tradeId _ old) |].
      cbn [apply_update order_id updatedAt userId tradeDate].
      rewrite Howner, Hdate. auto.
Qed.

(** [priceRange.mid] is the buy price: on every order [createTrade]
    stores, and on every order a successful [updateTrade] stores when its
    body carries a range bound and no zero buy price. *)
Theorem priceRange_mid_is_buyPrice (ObjectId_isValid : string -> bool)
    (validate_order : Order -> bool) (validate_update : UpdateData -> bool)
    (newId tradeId : string) (now : Z) (body : CreateBody) (u : UpdateData)
    (coll : list Order) :
  (forall o : Order,
     tr_data (fst (createTrade validate_order newId now body coll)) = Some o ->
     exists range : PriceRange,
       priceRange o = Some range /\ mid range = buyPrice o)
  /\ (tr_status
        (fst (updateTrade ObjectId_isValid validate_update tradeId now u coll))
      = 200%Z ->
      (isSome (u_priceRangeLow u) || isSome (u_priceRangeHigh u))%bool = true ->
      (forall b : Q, u_buyPrice u = Some b -> ~ b == 0) ->
      exists (new : Order) (range : PriceRange),
        tr_data
          (fst (updateTrade ObjectId_isValid validate_update tradeId now u coll))
        = Some new
        /\ priceRange new = Some range /\ mid range = buyPrice new).
Proof.
  split.
  - unfold createTrade. intros o.
    destruct (cb_userId body), (cb_symbol body), (cb_tradeType body),
      (cb_quantity body), (cb_buyPrice body); cbn; try discriminate.
    destruct (negb _); cbn; [discriminate |].
    destruct (validate_order _); cbn; [| discriminate].
    intros H. inversion H; subst. cbn. eexists. split; reflexivity.
  - unfold updateTrade, findByIdAndUpdate, findById. intros Hs Hrange Hbuy.
    rewrite Hrange in *.
    destruct (ObjectId_isValid tradeId); cbn [negb] in *; [| discriminate].
    destruct (find_order tradeId coll) as [old |]; [| discriminate].
    destruct (negb (validate_update _)); [discriminate |].
    destruct (modifies_id old _); [discriminate |].
    cbn [fst tr_data]. eexists. eexists. split; [reflexivity |].
    assert (Hpr : u_priceRange
                    (update_tradeAmount
                       (update_profitLoss (update_priceRange old u)))
                  = u_priceRange (update_priceRange old u)).
    { unfold update_tradeAmount, update_profitLoss.
      repeat match goal with
             | |- context [match ?x with _ => _ end] => destruct x
             end; reflexivity. }
    assert (Hbp : u_buyPrice
                    (update_tradeAmount
                       (update_profitLoss (update_priceRange old u)))
                  = u_buyPrice u).
    { unfold update_tradeAmount, update_profitLoss.
      repeat match goal with
             | |- context [match ?x with _ => _ end] => destruct x eqn:?
             end; cbn in *; congruence. }
    cbn [apply_update priceRange buyPrice]. rewrite Hpr, Hbp.
    cbn [update_priceRange u_priceRange]. split; [reflexivity |].
    cbn [mid]. destruct (u_buyPrice u) as [b |] eqn:Eb; cbn.
    + rewrite (truthy_num_nonzero b (Hbuy b eq_refl)). reflexivity.
    + reflexivity.
Qed.

End TradeBalanceFacts.

Section TradeBalanceExamples.
Import Model Ledger Effects Trades.

Lemma createTrade_then_dashboard_witness :
  accountBalance
    (getUserDashboardData "u1" [Samples.deposit_1000]
       (snd (createTrade Samples.accept_all "o9" 0 Samples.create_body [])))
  == accountBalance (getUserDashboardData "u1" [Samples.deposit_1000] [])
     - 2 * 10.
Proof.
  destruct (createTrade_then_dashboard Samples.accept_all "o9" 0
              Samples.create_body [] _ _ eq_refl) as (_ & Hok).
  destruct (Hok eq_refl) as (o & Hd & _ & _ & _ & _ & Hbal).
  inversion Hd; subst o. exact (Hbal "u1" [Samples.deposit_1000]).
Defined.

Lemma updateTrade_then_dashboard_witness :
  accountBalance
    (getUserDashboardData "u1" [Samples.deposit_1000]
       (snd (updateTrade Samples.accept_all Samples.accept_all "o1" 1
               MoreSamples.update_close_with_profit [Samples.open_order])))
  == 1300
  /\ accountBalance
       (getUserDashboardData "u1" [Samples.deposit_1000]
          (snd (updateTrade Samples.accept_all Samples.accept_all "o1" 1
                  MoreSamples.update_owner_and_date [Samples.open_order])))
     == 1000.
Proof.
  split.
  - destruct (updateTrade_then_dashboard Samples.accept_all Samples.accept_all
                "o1" 1 MoreSamples.update_close_with_profit
                [Samples.open_order] _ _ eq_refl eq_refl)
      as (old & new & Hf & Hd & _ & _ & Hclose & _).
    inversion Hf; subst old. inversion Hd; subst new.
    rewrite (Hclose eq_refl eq_refl eq_refl [Samples.deposit_1000]).
    vm_compute. reflexivity.
  - destruct (updateTrade_then_dashboard Samples.accept_all Samples.accept_all
                "o1" 1 MoreSamples.update_owner_and_date
                [Samples.open_order] _ _ eq_refl eq_refl)
      as (old & new & Hf & Hd & _ & _ & _ & Hmoved).
    inversion Hf; subst old. inversion Hd; subst new.
    destruct (Hmoved ltac:(discriminate) [Samples.deposit_1000]) as (Hold & _).
    rewrite Hold. vm_compute. reflexivity.
Defined.

Lemma updateTrade_frame_witness :
  find_order "o2"
    (snd (updateTrade Samples.accept_all Samples.accept_all "o1" 1
            MoreSamples.update_owner_and_date
            [Samples.open_order; Samples.closed_order]))
  = Some Samples.closed_order
  /\ exists new : Order,
       find_order "o1"
         (snd (updateTrade Samples.accept_all Samples.accept_all "o1" 1
                 MoreSamples.update_owner_and_date
                 [Samples.open_order; Samples.closed_order]))
       = Some new
       /\ userId new = "u2" /\ tradeDate new = 99%Z.
Proof.
  destruct (updateTrade_frame Samples.accept_all Samples.accept_all "o1" 1
              MoreSamples.update_owner_and_date
              [Samples.open_order; Samples.closed_order] _ _ eq_refl)
    as (_ & _ & Hother & Hok).
  split; [rewrite Hother; [reflexivity | discriminate] |].
  destruct (Hok eq_refl)
    as (old & new & Hf & _ & Hnew & _ & _ & Howner & Hdate & _).
  inversion Hf; subst old.
  exists new. split; [exact Hnew |]. split; [exact Howner | exact Hdate].
Defined.

Lemma priceRange_mid_is_buyPrice_witness :
  exists (new : Order) (range : PriceRange),
    tr_data
      (fst (updateTrade Samples.accept_all Samples.accept_all "o1" 1
              MoreSamples.update_range [Samples.open_order]))
    = Some new
    /\ priceRange new = Some range /\ mid range = buyPrice new.
Proof.
  destruct (priceRange_mid_is_buyPrice Samples.accept_all Samples.accept_all
              Samples.accept_all "o9" "o1" 1 Samples.create_body
              MoreSamples.update_range [Samples.open_order]) as (_ & Hupd).
  apply Hupd; [reflexivity | reflexivity |].
  intros b Hb. discriminate Hb.
Defined.

End TradeBalanceExamples.

(** ** The admin view, the dashboard and the order summary *)

Section ViewFacts.
Import Model Ledger BalanceSpec Effects.

Lemma sum_field_total {A : Type} (f : A -> Q) (l : list A) :
  sum_field f l == total f l.
Proof.
  induction l as [| x l IH]; [reflexivity |].
  rewrite sum_field_cons, IH. reflexivity.
Qed.

Lemma total_filter {A : Type} (p : A -> bool) (f : A -> Q) (l : list A) :
  total f (List.filter p l) == total (fun x => if p x then f x else 0) l.
Proof.
  induction l as [| x l IH]; cbn; [reflexivity |].
  destruct (p x); cbn; rewrite IH; ring.
Qed.

Lemma total_ext {A : Type} (f g : A -> Q) (l : list A) :
  (forall x, f x == g x) -> total f l == total g l.
Proof.
  intros H. induction l as [| x l IH]; cbn; [reflexivity |].
  now rewrite IH, (H x).
Qed.

Lemma total_plus {A : Type} (f g : A -> Q) (l : list A) :
  total (fun x => f x + g x) l == total f l + total g l.
Proof.
  induction l as [| x l IH]; cbn; [ring | rewrite IH; ring].
Qed.

Lemma fold_left_sum {A : Type} (f : A -> Q) (l : list A) (a : Q) :
  fold_left (fun sum x => sum + f x) l a == a + total f l.
Proof.
  revert a. induction l as [| x l IH]; intros a; cbn; [ring |].
  rewrite IH. ring.
Qed.

(** The owner's ledger entries, by type, COMPLETED only. *)
Lemma admin_deposits (uid : string) (ty : TxType) (txs : list Transaction) :
  total (cond_amount ty)
    (List.filter (fun t => String.eqb (tx_userId t) uid) txs)
  == sum_over (completed uid ty) amount txs.
Proof.
  rewrite total_filter.
  induction txs as [| t txs IH]; cbn; [reflexivity |].
  rewrite IH. apply Qplus_inj_r.
  unfold cond_amount, completed.
  destruct (String.eqb_spec (tx_userId t) uid);
    destruct (tx_type t), ty, (tx_status t); cbn;
    destruct (decide _); try reflexivity; exfalso; intuition congruence.
Qed.

(** The four figures of the admin view, as sums. *)
Lemma admin_view_fields (uid : string) (txs : list Transaction)
    (orders : list Order) :
  let mine := List.filter (fun o => String.eqb (userId o) uid) orders in
  totalDeposit (getUserbyId_balanceInfo uid txs orders)
  == sum_over (completed uid DEPOSIT) amount txs
  /\ totalWithdrawals (getUserbyId_balanceInfo uid txs orders)
     == sum_over (completed uid WITHDRAWAL) amount txs
  /\ accountBalance (getUserbyId_balanceInfo uid txs orders)
     == sum_over (completed uid DEPOSIT) amount txs
        - sum_over (completed uid WITHDRAWAL) amount txs
  /\ orderInvestment (getUserbyId_balanceInfo uid txs orders)
     == total tradeAmount mine
  /\ profitLoss_total (getUserbyId_balanceInfo uid txs orders)
     == total ifNull_profitLoss mine.
Proof.
  cbv zeta.
  pose proof (admin_deposits uid DEPOSIT txs) as Hd.
  pose proof (admin_deposits uid WITHDRAWAL txs) as Hw.
  unfold getUserbyId_balanceInfo, group_balanceData, group_orderStats.
  destruct (List.filter (fun t => String.eqb (tx_userId t) uid) txs)
    as [| t ts];
    destruct (List.filter (fun o => String.eqb (userId o) uid) orders)
      as [| o os];
    cbn [accountBalance totalDeposit totalWithdrawals orderInvestment
         profitLoss_total fst snd];
    rewrite ?or_zero_Some, ?sum_field_total, <- ?Hd, <- ?Hw;
    cbn [total]; repeat split; try reflexivity; ring.
Qed.

Lemma total_by_status (uid : string) (f : Order -> Q) (orders : list Order) :
  total f (List.filter (fun o => String.eqb (userId o) uid) orders)
  == sum_over (in_status uid OPEN) f orders
     + sum_over (in_status uid CLOSED) f orders.
Proof.
  rewrite total_filter.
  induction orders as [| o orders IH]; cbn; [ring |].
  rewrite IH. unfold in_status.
  destruct (String.eqb_spec (userId o) uid); destruct (status o);
    repeat match goal with
           | |- context [decide ?P] => destruct (decide P)
           end;
    try ring; exfalso; intuition congruence.
Qed.

(** The admin view and the dashboard agree on deposits and withdrawals;
    the admin view's balance is their difference, untouched by orders, so
    the dashboard balance is the admin balance minus the dashboard's order
    investment plus its profit and loss; and the admin view's order figures
    exceed the dashboard's by the trade amounts of the CLOSED orders and by
    the profit or loss booked on OPEN ones. *)
Theorem admin_view_vs_dashboard (uid : string) (txs : list Transaction)
    (orders : list Order) :
  let admin := getUserbyId_balanceInfo uid txs orders in
  let dash := getUserDashboardData uid txs orders in
  totalDeposit admin == totalDeposit dash
  /\ totalWithdrawals admin == totalWithdrawals dash
  /\ accountBalance admin == totalDeposit dash - totalWithdrawals dash
  /\ accountBalance dash
     == accountBalance admin - orderInvestment dash + profitLoss_total dash
  /\ orderInvestment admin
     == orderInvestment dash
        + sum_over (in_status uid CLOSED) tradeAmount orders
  /\ profitLoss_total admin
     == profitLoss_total dash + sum_over (in_status uid OPEN) realized orders.
Proof.
  cbv zeta.
  destruct (admin_view_fields uid txs orders) as (Hd & Hw & Hb & Hi & Hp).
  cbv zeta in Hi, Hp.
  rewrite Hd, Hw, Hb, Hi, Hp, !total_by_status.
  unfold getUserDashboardData.
  cbn [accountBalance totalDeposit totalWithdrawals orderInvestment
       profitLoss_total].
  rewrite (first_total_sum_over _ (completed uid DEPOSIT) amount txs
             (match_tx_completed uid DEPOSIT)).
  rewrite (first_total_sum_over _ (completed uid WITHDRAWAL) amount txs
             (match_tx_completed uid WITHDRAWAL)).
  rewrite (first_total_sum_over _ (in_status uid OPEN) tradeAmount orders
             (match_order_in_status uid OPEN)).
  rewrite (first_total_sum_over _ (in_status uid CLOSED) ifNull_profitLoss
             orders (match_order_in_status uid CLOSED)).
  unfold realized, ifNull_profitLoss.
  repeat split; try reflexivity; ring.
Qed.

(** The order-history summary and the admin view report the same
    investment and the same profit and loss for a user: both sum over all
    of the user's orders, whatever their status. *)
Theorem summary_matches_admin_view (uid : string) (txs : list Transaction)
    (orders : list Order) :
  History.totalInvestment (History.calculateSummaryData_totals uid orders)
  == orderInvestment (getUserbyId_balanceInfo uid txs orders)
  /\ History.totalProfitLoss (History.calculateSummaryData_totals uid orders)
     == profitLoss_total (getUserbyId_balanceInfo uid txs orders)
  /\ (History.totalTrades (History.calculateSummaryData_totals uid orders)
      <= List.length orders)%nat.
Proof.
  destruct (admin_view_fields uid txs orders) as (_ & _ & _ & Hi & Hp).
  cbv zeta in Hi, Hp. rewrite Hi, Hp.
  unfold History.calculateSummaryData_totals.
  cbn [History.totalInvestment History.totalProfitLoss History.totalTrades].
  rewrite !fold_left_sum. split; [ring |]. split.
  - rewrite Qplus_0_l. apply total_ext. intros o. unfold ifNull_profitLoss.
    destruct (profitLoss o) as [p |]; [apply or_zero_Some | reflexivity].
  - apply List.filter_length_le.
Qed.

End ViewFacts.

(** ** Cash transactions and the dashboard, composed *)

Section CashFacts.
Import Model Ledger Effects Cash.

Variable ObjectId_isValid : string -> bool.

Lemma total_replace_tx (f : Transaction -> Q) (id : string)
    (t' old : StoredTransaction) (coll : list StoredTransaction) :
  find_tx id coll = Some old ->
  total f (ledger (replace_tx id t' coll))
  == total f (ledger coll) - f (st_doc old) + f (st_doc t').
Proof.
  unfold ledger.
  induction coll as [| x coll IH]; cbn; [discriminate |].
  destruct (String.eqb (st_id x) id).
  - intros H. inversion H; subst. cbn. ring.
  - intros H. cbn. rewrite (IH H). ring.
Qed.

(** What a status write does to every dashboard balance. *)
Lemma status_write_balance (id : string)
    (update : StoredTransaction -> StoredTransaction) (st : TxStatus)
    (coll : list StoredTransaction) (old : StoredTransaction) :
  ObjectId_isValid id = true ->
  find_tx id coll = Some old ->
  st_doc (update old) = with_status (st_doc old) st ->
  fst (findByIdAndUpdate ObjectId_isValid id update coll)
  = mkResponse 200 (Some (update old))
  /\ forall (uid : string) (orders : list Order),
       accountBalance
         (getUserDashboardData uid
            (ledger (snd (findByIdAndUpdate ObjectId_isValid id update coll)))
            orders)
       == accountBalance (getUserDashboardData uid (ledger coll) orders)
          - tx_effect uid (st_doc old)
          + tx_effect uid (with_status (st_doc old) st).
Proof.
  intros Hv Hf Hdoc. unfold findByIdAndUpdate. rewrite Hv, Hf. cbn [negb fst snd].
  split; [reflexivity |]. intros uid orders.
  rewrite !balance_as_effects, (total_replace_tx _ _ _ old _ Hf), Hdoc. ring.
Qed.

(** Approving completes the transaction whatever its type and whichever
    of the two approve handlers is called, and no balance is consulted:
    a deposit not yet completed is added to its owner's dashboard balance,
    a withdrawal not yet completed is subtracted from it. *)
Theorem approval_moves_balance (id admin : string) (now : Z)
    (coll : list StoredTransaction) (old : StoredTransaction) :
  Js.truthy_str id = true ->
  ObjectId_isValid id = true ->
  find_tx id coll = Some old ->
  tx_status (st_doc old) <> COMPLETED ->
  let r := approveDeposit ObjectId_isValid (Some id) admin now coll in
  approveWithdrawal ObjectId_isValid (Some id) admin now coll = r
  /\ res_status (fst r) = 200%Z
  /\ (exists new : StoredTransaction,
        res_data (fst r) = Some new
        /\ tx_status (st_doc new) = COMPLETED
        /\ st_approvedBy new = Some admin /\ st_approvedAt new = Some now)
  /\ forall orders : list Order,
       accountBalance
         (getUserDashboardData (tx_userId (st_doc old)) (ledger (snd r)) orders)
       == accountBalance
            (getUserDashboardData (tx_userId (st_doc old)) (ledger coll) orders)
          + match tx_type (st_doc old) with
            | DEPOSIT => amount (st_doc old)
            | WITHDRAWAL => - amount (st_doc old)
            end.
Proof.
  intros Ht Hv Hf Hst. cbv zeta.
  unfold approveWithdrawal, approveDeposit. cbn [Js.truthy_opt_str].
  rewrite Ht. cbn [negb].
  destruct (status_write_balance id (approve admin now) COMPLETED coll old Hv
              Hf eq_refl) as (Hr & Hbal).
  split; [reflexivity |]. rewrite Hr. split; [reflexivity |]. split.
  - eexists. split; [reflexivity |]. cbn. auto.
  - intros orders. rewrite Hbal. unfold tx_effect.
    cbn [with_status tx_userId tx_status tx_type amount].
    rewrite String.eqb_refl. cbn.
    destruct (tx_status (st_doc old)); cbn; try ring. now contradiction Hst.
Qed.

Lemma find_tx_id (id : string) (coll : list StoredTransaction)
    (t : StoredTransaction) :
  find_tx id coll = Some t -> st_id t = id.
Proof.
  induction coll as [| x coll IH]; cbn; [discriminate |].
  destruct (String.eqb (st_id x) id) eqn:E; [| exact IH].
  intros H. inversion H; subst. now apply String.eqb_eq.
Qed.

Lemma find_replace_tx (id : string) (t' old : StoredTransaction)
    (coll : list StoredTransaction) :
  find_tx id coll = Some old -> st_id t' = id ->
  find_tx id (replace_tx id t' coll) = Some t'.
Proof.
  intros Hf Hid. induction coll as [| x coll IH]; cbn in *; [discriminate |].
  destruct (String.eqb (st_id x) id) eqn:E.
  - cbn. rewrite Hid, String.eqb_refl. reflexivity.
  - cbn. rewrite E. now apply IH.
Qed.

(** Rejecting takes the transaction out of every balance, also one that
    was COMPLETED before.  Both handlers answer 200 with the stored
    document: [rejectDeposit] leaves it FAILED, [rejectWithdrawal]
    CANCELLED, with [rejectedBy] the admin, [rejectedAt] the time of the
    request and [rejectionReason] the reason given, or "Request rejected
    by admin" when it is missing or empty; owner, type, amount and the
    approval fields stay as they were. *)
Theorem rejection_uncounts_transaction (id admin : string)
    (reason : option string) (now : Z) (coll : list StoredTransaction)
    (old : StoredTransaction) :
  Js.truthy_str id = true ->
  ObjectId_isValid id = true ->
  find_tx id coll = Some old ->
  let rd := rejectDeposit ObjectId_isValid (Some id) reason admin now coll in
  let rw := rejectWithdrawal ObjectId_isValid (Some id) reason admin now coll in
  let why :=
    match reason with
    | Some r => if Js.truthy_str r then r else "Request rejected by admin"
    | None => "Request rejected by admin"
    end in
  let rejected (st : TxStatus) (new : StoredTransaction) :=
    st_id new = id
    /\ tx_status (st_doc new) = st
    /\ tx_userId (st_doc new) = tx_userId (st_doc old)
    /\ tx_type (st_doc new) = tx_type (st_doc old)
    /\ amount (st_doc new) = amount (st_doc old)
    /\ st_rejectedBy new = Some admin
    /\ st_rejectedAt new = Some now
    /\ st_rejectionReason new = Some why
    /\ st_approvedBy new = st_approvedBy old
    /\ st_approvedAt new = st_approvedAt old in
  (exists nd nw : StoredTransaction,
     fst rd = mkResponse 200 (Some nd)
     /\ find_tx id (snd rd) = Some nd
     /\ rejected FAILED nd
     /\ fst rw = mkResponse 200 (Some nw)
     /\ find_tx id (snd rw) = Some nw
     /\ rejected CANCELLED nw)
  /\ forall (uid : string) (orders : list Order),
       accountBalance (getUserDashboardData uid (ledger (snd rd)) orders)
       == accountBalance (getUserDashboardData uid (ledger coll) orders)
          - tx_effect uid (st_doc old)
       /\ accountBalance (getUserDashboardData uid (ledger (snd rw)) orders)
          == accountBalance (getUserDashboardData uid (ledger coll) orders)
             - tx_effect uid (st_doc old).
Proof.
  intros Ht Hv Hf. cbv zeta.
  pose proof (find_tx_id _ _ _ Hf) as Hid.
  destruct (status_write_balance id (reject FAILED admin now reason) FAILED
              coll old Hv Hf eq_refl) as (Hrd & Hbd).
  destruct (status_write_balance id (reject CANCELLED admin now reason)
              CANCELLED coll old Hv Hf eq_refl) as (Hrw & Hbw).
  assert (Hwhy : forall st : TxStatus,
    st_rejectionReason (reject st admin now reason old)
    = Some match reason with
           | Some r => if Js.truthy_str r then r else "Request rejected by admin"
           | None => "Request rejected by admin"
           end).
  { intros st. unfold reject. cbn [st_rejectionReason].
    destruct reason as [r |]; cbn; [destruct (Js.truthy_str r) |];
      reflexivity. }
  assert (Hsd : snd (rejectDeposit ObjectId_isValid (Some id) reason admin now
                       coll)
                = replace_tx id (reject FAILED admin now reason old) coll).
  { unfold rejectDeposit, findByIdAndUpdate. cbn [Js.truthy_opt_str].
    now rewrite Ht, Hv, Hf. }
  assert (Hsw : snd (rejectWithdrawal ObjectId_isValid (Some id) reason admin
                       now coll)
                = replace_tx id (reject CANCELLED admin now reason old) coll).
  { unfold rejectWithdrawal, findByIdAndUpdate. cbn [Js.truthy_opt_str].
    now rewrite Ht, Hv, Hf. }
  split.
  - exists (reject FAILED admin now reason old),
      (reject CANCELLED admin now reason old).
    split.
    { unfold rejectDeposit. cbn [Js.truthy_opt_str]. rewrite Ht. exact Hrd. }
    split; [rewrite Hsd; now apply (find_replace_tx id _ old) |].
    split; [rewrite Hwhy; cbn; repeat split; auto |].
    split.
    { unfold rejectWithdrawal. cbn [Js.truthy_opt_str]. rewrite Ht.
      exact Hrw. }
    split; [rewrite Hsw; now apply (find_replace_tx id _ old) |].
    rewrite Hwhy; cbn; repeat split; auto.
  - intros uid orders.
    unfold rejectDeposit, rejectWithdrawal. cbn [Js.truthy_opt_str].
    rewrite Ht. cbn [negb]. rewrite Hbd, Hbw. unfold tx_effect.
    cbn [with_status tx_userId tx_status tx_type amount TxStatus_eqb].
    rewrite !andb_false_r. split; ring.
Qed.

(** [updateTransactionStatus] accepts exactly the five upper-case status
    names: any other status is answered 400 and nothing is written;
    an accepted one is written to the transaction found, and the balances
    move by the difference of its contribution. *)
Theorem updateTransactionStatus_effect (id : string)
    (status reason : option string) (now : Z) (coll : list StoredTransaction) :
  let r := updateTransactionStatus ObjectId_isValid id status reason now coll in
  ((forall s : string,
      status = Some s ->
      ~ In s ["PENDING"; "COMPLETED"; "REJECTED"; "FAILED"; "CANCELLED"]) ->
   r = (mkResponse 400 None, coll))
  /\ (res_status (fst r) = 200%Z ->
      exists (s : string) (st : TxStatus) (old new : StoredTransaction),
        status = Some s /\ parse_status s = Some st
        /\ In s ["PENDING"; "COMPLETED"; "REJECTED"; "FAILED"; "CANCELLED"]
        /\ find_tx id coll = Some old
        /\ res_data (fst r) = Some new
        /\ st_doc new = with_status (st_doc old) st
        /\ forall (uid : string) (orders : list Order),
             accountBalance (getUserDashboardData uid (ledger (snd r)) orders)
             == accountBalance (getUserDashboardData uid (ledger coll) orders)
                - tx_effect uid (st_doc old)
                + tx_effect uid (with_status (st_doc old) st)).
Proof.
  cbv zeta. unfold updateTransactionStatus. split.
  - intros Hbad. destruct status as [s |]; [| reflexivity].
    specialize (Hbad s eq_refl). unfold parse_status.
    repeat match goal with
           | |- context [String.eqb s ?c] =>
               destruct (String.eqb_spec s c) as [-> | _];
               [exfalso; apply Hbad; cbn; tauto |]
           end.
    reflexivity.
  - destruct status as [s |]; [| cbn; discriminate].
    destruct (parse_status s) as [st |] eqn:Ep; [| cbn; discriminate].
    assert (Hin : In s ["PENDING"; "COMPLETED"; "REJECTED"; "FAILED";
                        "CANCELLED"]).
    { revert Ep. unfold parse_status.
      repeat match goal with
             | |- context [String.eqb s ?c] =>
                 destruct (String.eqb_spec s c) as [-> | _];
                 [intros _; cbn; tauto |]
             end.
      discriminate. }
    unfold findByIdAndUpdate at 1.
    destruct (ObjectId_isValid id) eqn:Hv; cbn [negb]; [| cbn; discriminate].
    destruct (find_tx id coll) as [old |] eqn:Hf; [| cbn; discriminate].
    intros _. exists s, st, old.
    match goal with
    | |- context [findByIdAndUpdate _ _ ?f _] =>
        destruct (status_write_balance id f st coll old Hv Hf eq_refl)
          as (Hr & Hbal)
    end.
    eexists. split; [reflexivity |]. split; [exact Ep |].
    split; [exact Hin |]. split; [reflexivity |].
    split; [rewrite Hr; reflexivity |]. split; [reflexivity |]. exact Hbal.
Qed.

End CashFacts.

Section CashExamples.
Import Model Ledger Effects Cash.

Lemma approval_moves_balance_witness :
  accountBalance
    (getUserDashboardData "u1"
       (ledger
          (snd (approveWithdrawal Samples.accept_all (Some "t2") "admin"
                  1700000100 MoreSamples.cash_requests)))
       [])
  == - 500.
Proof.
  destruct (approval_moves_balance Samples.accept_all "t2" "admin" 1700000100
              MoreSamples.cash_requests MoreSamples.withdrawal_request_800
              eq_refl eq_refl eq_refl ltac:(discriminate))
    as (Hsame & _ & _ & Hbal).
  rewrite Hsame, (Hbal []). vm_compute. reflexivity.
Defined.

Lemma rejection_uncounts_transaction_witness :
  accountBalance
    (getUserDashboardData "u1"
       (ledger
          (snd (rejectDeposit Samples.accept_all (Some "t1") None "admin"
                  1700000100 MoreSamples.cash_requests)))
       [])
  == 0
  /\ exists nd : StoredTransaction,
       find_tx "t1"
         (snd (rejectDeposit Samples.accept_all (Some "t1") None "admin"
                 1700000100 MoreSamples.cash_requests))
       = Some nd
       /\ tx_status (st_doc nd) = FAILED
       /\ st_rejectedBy nd = Some "admin"
       /\ st_rejectionReason nd = Some "Request rejected by admin".
Proof.
  destruct (rejection_uncounts_transaction Samples.accept_all "t1" "admin"
              None 1700000100 MoreSamples.cash_requests
              MoreSamples.completed_deposit_300 eq_refl eq_refl eq_refl)
    as ((nd & nw & _ & Hfd & (_ & Hst & _ & _ & _ & Hby & _ & Hwhy & _) & _)
        & Hbal).
  split.
  - destruct (Hbal "u1" []) as (Hd & _). rewrite Hd. vm_compute. reflexivity.
  - exists nd. split; [exact Hfd |]. split; [exact Hst |].
    split; [exact Hby | exact Hwhy].
Defined.

Lemma updateTransactionStatus_effect_witness :
  updateTransactionStatus Samples.accept_all "t3" (Some "completed") None
    1700000100 MoreSamples.cash_requests
  = (mkResponse 400 None, MoreSamples.cash_requests).
Proof.
  apply (updateTransactionStatus_effect Samples.accept_all "t3"
           (Some "completed") None 1700000100 MoreSamples.cash_requests).
  intros s Hs. inversion Hs; subst s. cbn.
  intros H; repeat (destruct H as [H | H]; [discriminate H |]); exact H.
Defined.

End CashExamples.

(** ** Registration, and registration followed by login *)

Section RegistrationFacts.
Import Model Registration.

Variable bcrypt_hash : string -> string.
Variable random_index : nat -> nat.
Variable new_id : string.
Variable save_result : SaveOutcome.

Lemma truthy_text_of (o : option string) :
  Js.truthy_opt_str o = true ->
  o = Some (text_of o) /\ Js.truthy_str (text_of o) = true.
Proof. destruct o as [s |]; cbn; [auto | discriminate]. Qed.

Lemma userExists_app (e p pn a : string) (l1 l2 : list Profile) :
  userExists e p pn a (l1 ++ l2)
  = (userExists e p pn a l1 || userExists e p pn a l2)%bool.
Proof. unfold userExists. apply existsb_app. Qed.

Lemma userExists_false (e p pn a : string) (coll : list Profile) :
  userExists e p pn a coll = false ->
  ~ In e (map (fun d => email (account d)) coll)
  /\ ~ In p (map phone coll)
  /\ ~ In pn (map pan coll)
  /\ ~ In a (map aadharNo coll).
Proof.
  unfold userExists.
  induction coll as [| d coll IH]; cbn; [intros _; repeat split; auto |].
  intros H. apply orb_false_elim in H as (Hd & Hrest).
  apply orb_false_elim in Hd as (Hd & Ha).
  apply orb_false_elim in Hd as (Hd & Hpn).
  apply orb_false_elim in Hd as (He & Hp).
  apply String.eqb_neq in He, Hp, Hpn, Ha.
  destruct (IH Hrest) as (IHe & IHp & IHpn & IHa).
  repeat split; intros [Heq | Hin]; auto.
Qed.

Lemma findOne_email_absent (e : string) (coll : list User) :
  ~ In e (map email coll) -> Auth.findOne_email e coll = None.
Proof.
  induction coll as [| u coll IH]; cbn; [reflexivity |].
  intros Hn. destruct (String.eqb_spec (email u) e) as [Heq | _].
  - exfalso. apply Hn. now left.
  - apply IH. intros Hin. apply Hn. now right.
Qed.

Lemma findOne_email_app (e : string) (l1 l2 : list User) :
  Auth.findOne_email e l1 = None ->
  Auth.findOne_email e (l1 ++ l2) = Auth.findOne_email e l2.
Proof.
  induction l1 as [| u l1 IH]; cbn; [reflexivity |].
  destruct (String.eqb (email u) e); [discriminate | exact IH].
Qed.

(** The two ways a request leaves [register]: answered 400 before anything
    is drawn or written, or validated, with the outcome [save()] decides. *)
Lemma register_stages (files : option Files) (b : Body) (k : nat)
    (coll : list Profile) :
  let o := register bcrypt_hash random_index new_id save_result files b k coll in
  let generated := fst (Approval.generateRandomPassword random_index 12 k) in
  (res_status (response o) = 400%Z /\ out_users o = coll
   /\ out_randomCalls o = k /\ deferred_mail o = None)
  \/ (forallb Js.truthy_opt_str (required_fields b) = true
      /\ userExists (text_of (body_email b)) (text_of (body_phone b))
           (text_of (body_pan b)) (text_of (body_aadharNo b)) coll = false
      /\ out_randomCalls o = (k + 12)%nat
      /\ ((save_result = Saved /\ res_status (response o) = 201%Z
           /\ out_users o = (coll ++ [newUser bcrypt_hash new_id b generated])%list
           /\ deferred_mail o
              = Some (submitted_mail (text_of (body_email b))
                        (text_of (body_firstName b))
                        (text_of (body_lastName b))))
          \/ (save_result <> Saved
              /\ (res_status (response o) = 400%Z
                  \/ res_status (response o) = 500%Z)
              /\ out_users o = coll /\ deferred_mail o = None))).
Proof.
  cbv zeta. unfold register.
  destruct files as [files |]; [| left; cbn; auto].
  destruct (first_file (aadharPhoto files)) as [f1 |]; [| left; cbn; auto].
  destruct (first_file (panPhoto files)) as [f2 |]; [| left; cbn; auto].
  destruct (first_file (userPhoto files)) as [f3 |]; [| left; cbn; auto].
  destruct (first_file (passbookPhoto files)) as [f4 |]; [| left; cbn; auto].
  destruct (has_path f1 && has_path f2 && has_path f3 && has_path f4)%bool;
    cbn [negb]; [| left; cbn; auto].
  destruct (forallb Js.truthy_opt_str (required_fields b)) eqn:Hreq;
    cbn [negb]; [| left; cbn; auto].
  destruct (userExists _ _ _ _ coll) eqn:Hex; [left; cbn; auto |].
  right. split; [reflexivity |]. split; [reflexivity |].
  pose proof (generateRandomPassword_from_shape random_index 12 k "")
    as (Hk & _).
  unfold Approval.generateRandomPassword in *.
  destruct (Approval.generateRandomPassword_from random_index 12 k "")
    as (generated & k') eqn:Hg.
  cbn [fst snd] in *. subst k'.
  destruct save_result; cbn [response out_users out_randomCalls deferred_mail
                             res_status].
  - split; [reflexivity |]. left. auto.
  - split; [reflexivity |]. right. repeat split; auto; discriminate.
  - split; [reflexivity |]. right. repeat split; auto; discriminate.
  - split; [reflexivity |]. right. repeat split; auto; discriminate.
Qed.

(** Only the answer 201 changes the collection: it appends one document,
    unverified, with role [user] and no last login, holding the hash of
    the password drawn and that password in clear, and leaves the mail
    to the applicant's address for later; no document stored before
    shared the email, the phone, the PAN or the Aadhar number. Every other
    answer is 400 or 500, writes nothing and sends nothing. *)
Theorem register_effect (files : option Files) (b : Body) (k : nat)
    (coll : list Profile) :
  let o := register bcrypt_hash random_index new_id save_result files b k coll in
  let generated := fst (Approval.generateRandomPassword random_index 12 k) in
  (res_status (response o) = 201%Z ->
   exists d : Profile,
     out_users o = (coll ++ [d])%list
     /\ isVerified (account d) = false /\ role (account d) = "user"
     /\ lastLogin (account d) = None
     /\ body_email b = Some (email (account d))
     /\ Js.truthy_str (email (account d)) = true
     /\ password (account d) = bcrypt_hash generated
     /\ generatedPassword (account d) = generated
     /\ Passwords.all_alnum generated = true
     /\ (String.length generated <= 12)%nat
     /\ ~ In (email (account d)) (map (fun x => email (account x)) coll)
     /\ ~ In (phone d) (map phone coll)
     /\ ~ In (pan d) (map pan coll)
     /\ ~ In (aadharNo d) (map aadharNo coll)
     /\ (exists m : Mail.MailOptions,
           deferred_mail o = Some m
           /\ Mail.mo_to m = Mail.ToString (email (account d))))
  /\ (res_status (response o) <> 201%Z ->
      (res_status (response o) = 400%Z \/ res_status (response o) = 500%Z)
      /\ out_users o = coll /\ deferred_mail o = None).
Proof.
  cbv zeta.
  destruct (register_stages files b k coll)
    as [(H400 & Hu & _ & Hm)
       | (Hreq & Hex & _ & [(Hs & H201 & Hu & Hm) | (Hs & Hst & Hu & Hm)])].
  - split; [rewrite H400; discriminate | auto].
  - split; [| intros Hn; now contradiction Hn].
    intros _. eexists. split; [exact Hu |].
    cbn [newUser account phone pan aadharNo isVerified role lastLogin email
         password generatedPassword].
    assert (He : Js.truthy_opt_str (body_email b) = true).
    { cbn in Hreq. now apply andb_prop in Hreq as (He & _). }
    destruct (truthy_text_of _ He) as (Hsome & Ht).
    destruct (userExists_false _ _ _ _ _ Hex) as (Ne & Np & Npn & Na).
    pose proof (generateRandomPassword_from_shape random_index 12 k "")
      as (_ & Hle & Hal & _).
    repeat split; auto.
    eexists. split; [exact Hm | reflexivity].
  - split.
    + intros H201. destruct Hst as [H | H]; rewrite H in H201; discriminate.
    + auto.
Qed.

Lemma NoDup_snoc {A : Type} (l : list A) (x : A) :
  List.NoDup l -> ~ In x l -> List.NoDup (l ++ [x]).
Proof.
  intros Hl Hx. induction Hl as [| y l Hy Hl IH]; cbn.
  - constructor; [intros [] | constructor].
  - constructor.
    + rewrite in_app_iff. cbn. intros [H | [H | []]]; [exact (Hy H) |].
      subst. apply Hx. now left.
    + apply IH. intros H. apply Hx. now right.
Qed.

(** Uniqueness of the four keys is an invariant of [register], whatever
    it answers. *)
Theorem register_keeps_keys_unique (files : option Files) (b : Body) (k : nat)
    (coll : list Profile) :
  keys_unique coll ->
  keys_unique
    (out_users
       (register bcrypt_hash random_index new_id save_result files b k coll)).
Proof.
  intros (He & Hp & Hpn & Ha).
  destruct (register_stages files b k coll)
    as [(_ & Hu & _)
       | (_ & Hex & _ & [(_ & _ & Hu & _) | (_ & _ & Hu & _)])];
    cbv zeta in Hu; rewrite Hu; try (unfold keys_unique; tauto).
  destruct (userExists_false _ _ _ _ _ Hex) as (Ne & Np & Npn & Na).
  unfold keys_unique. rewrite !map_app. cbn [map].
  repeat split; apply NoDup_snoc; assumption.
Qed.

(** A freshly registered account cannot log in: whatever password is
    tried, [login] finds the new document, never answers 200, sets no
    cookie and writes nothing; with the right password and a token it
    answers 402. *)
Theorem register_then_login (bcrypt_compare : string -> string -> bool)
    (generateAccessToken : string -> option string) (NODE_ENV : option string)
    (save_error : option string) (files : option Files) (b : Body) (k : nat)
    (coll : list Profile) (pw : string) (now : Z) :
  let o := register bcrypt_hash random_index new_id save_result files b k coll in
  let generated := fst (Approval.generateRandomPassword random_index 12 k) in
  res_status (response o) = 201%Z ->
  let r :=
    Auth.login bcrypt_compare generateAccessToken NODE_ENV save_error
      (body_email b) (Some pw) now (accounts (out_users o)) in
  Auth.res_status (fst r) <> 200%Z
  /\ Auth.res_cookie (fst r) = None
  /\ snd r = accounts (out_users o)
  /\ (Js.truthy_str pw = true ->
      bcrypt_compare (Js.trim pw) (Js.trim (bcrypt_hash generated)) = true ->
      generateAccessToken new_id <> None ->
      Auth.res_status (fst r) = 402%Z).
Proof.
  cbv zeta. intros H201.
  destruct (register_stages files b k coll)
    as [(H400 & _)
       | (Hreq & Hex & _ & [(_ & _ & Hu & _) | (_ & Hst & _)])];
    cbv zeta in *.
  - rewrite H400 in H201. discriminate.
  - rewrite Hu. clear H201 Hu.
    assert (He : Js.truthy_opt_str (body_email b) = true).
    { cbn in Hreq. now apply andb_prop in Hreq as (He & _). }
    destruct (truthy_text_of _ He) as (Hsome & Ht).
    destruct (userExists_false _ _ _ _ _ Hex) as (Ne & _).
    rewrite Hsome. unfold Auth.login, accounts. rewrite Ht. cbn [negb orb].
    rewrite map_app, findOne_email_app
      by (apply findOne_email_absent; now rewrite map_map).
    cbn [map Auth.findOne_email newUser account email].
    rewrite String.eqb_refl.
    cbn [password user_id isVerified negb].
    destruct (Js.truthy_str pw); cbn [negb]; [| cbn; repeat split; discriminate].
    destruct (bcrypt_compare _ _); cbn [negb];
      [| cbn; repeat split; discriminate].
    destruct (generateAccessToken new_id); cbn.
    + repeat split; discriminate.
    + repeat split; try discriminate. intros _ _ Hn. now contradiction Hn.
  - destruct Hst as [H | H]; rewrite H in H201; discriminate.
Qed.

End RegistrationFacts.

Section RegisterAgain.
Import Model Registration.

(** Once a registration was answered 201, every later request that
    repeats its email, its phone, its PAN or its Aadhar number is
    answered 400, whatever else it carries, and nothing is written or
    sent. *)
Theorem register_again_rejected (bcrypt_hash bcrypt_hash' : string -> string)
    (random_index random_index' : nat -> nat) (new_id new_id' : string)
    (save_result save_result' : SaveOutcome) (files files' : option Files)
    (b b' : Body) (k k' : nat) (coll : list Profile) :
  let o := register bcrypt_hash random_index new_id save_result files b k coll in
  res_status (response o) = 201%Z ->
  body_email b' = body_email b \/ body_phone b' = body_phone b
  \/ body_pan b' = body_pan b \/ body_aadharNo b' = body_aadharNo b ->
  let o' :=
    register bcrypt_hash' random_index' new_id' save_result' files' b' k'
      (out_users o) in
  res_status (response o') = 400%Z
  /\ out_users o' = out_users o
  /\ out_randomCalls o' = k'
  /\ deferred_mail o' = None.
Proof.
  cbv zeta. intros H201 Hshare.
  destruct (register_stages bcrypt_hash' random_index' new_id' save_result'
              files' b' k'
              (out_users
                 (register bcrypt_hash random_index new_id save_result files b
                    k coll)))
    as [H | (_ & Hex & _)]; cbv zeta in *; [exact H |].
  exfalso.
  destruct (register_stages bcrypt_hash random_index new_id save_result files
              b k coll)
    as [(H400 & _) | (_ & _ & _ & [(_ & _ & Hu & _) | (_ & Hst & _)])];
    cbv zeta in *.
  - rewrite H400 in H201. discriminate.
  - rewrite Hu, userExists_app in Hex.
    apply orb_false_elim in Hex as (_ & Hex).
    unfold userExists in Hex.
    cbn [existsb newUser account phone pan aadharNo email] in Hex.
    rewrite orb_false_r in Hex.
    apply orb_false_elim in Hex as (Hex & Ha).
    apply orb_false_elim in Hex as (Hex & Hpn).
    apply orb_false_elim in Hex as (He & Hp).
    apply String.eqb_neq in He, Hp, Hpn, Ha.
    destruct Hshare as [H | [H | [H | H]]]; rewrite H in *; congruence.
  - destruct Hst as [H | H]; rewrite H in H201; discriminate.
Qed.

End RegisterAgain.

Section RegistrationExamples.
Import Model Registration.

Lemma register_effect_witness :
  exists d : Profile,
    out_users
      (register Samples.tag_hash (fun k => k) "64b7f0c2a1d3e4f5a6b7c8f2" Saved
         (Some MoreSamples.uploads) MoreSamples.form_asha 0
         [MoreSamples.trader_profile])
    = [MoreSamples.trader_profile; d]
    /\ isVerified (account d) = false
    /\ generatedPassword (account d) = "ABCDEFGHIJKL".
Proof.
  destruct (register_effect Samples.tag_hash (fun k => k)
              "64b7f0c2a1d3e4f5a6b7c8f2" Saved (Some MoreSamples.uploads)
              MoreSamples.form_asha 0 [MoreSamples.trader_profile])
    as (H201 & _).
  destruct (H201 eq_refl) as (d & Hu & Hv & _ & _ & _ & _ & _ & Hg & _).
  exists d. split; [exact Hu |]. split; [exact Hv | exact Hg].
Defined.

Lemma register_keeps_keys_unique_witness :
  keys_unique
    (out_users
       (register Samples.tag_hash (fun k => k) "64b7f0c2a1d3e4f5a6b7c8f2" Saved
          (Some MoreSamples.uploads) MoreSamples.form_asha 0
          [MoreSamples.trader_profile])).
Proof.
  apply (register_keeps_keys_unique Samples.tag_hash (fun k => k)
           "64b7f0c2a1d3e4f5a6b7c8f2" Saved (Some MoreSamples.uploads)
           MoreSamples.form_asha 0 [MoreSamples.trader_profile]).
  unfold keys_unique. cbn.
  repeat split; (constructor; [intros [] | constructor]).
Defined.

Lemma register_then_login_witness :
  Auth.res_status
    (fst (Auth.login Samples.tag_compare Samples.sign None None
            (Some "asha@example.com") (Some "ABCDEFGHIJKL") 1700000200
            (accounts
               (out_users
                  (register Samples.tag_hash (fun k => k)
                     "64b7f0c2a1d3e4f5a6b7c8f2" Saved
                     (Some MoreSamples.uploads) MoreSamples.form_asha 0
                     [MoreSamples.trader_profile])))))
  = 402%Z.
Proof.
  destruct (register_then_login Samples.tag_hash (fun k => k)
              "64b7f0c2a1d3e4f5a6b7c8f2" Saved Samples.tag_compare Samples.sign
              None None (Some MoreSamples.uploads) MoreSamples.form_asha 0
              [MoreSamples.trader_profile] "ABCDEFGHIJKL" 1700000200 eq_refl)
    as (_ & _ & _ & H402).
  apply H402; [reflexivity | reflexivity | discriminate].
Defined.

Lemma register_again_rejected_witness :
  res_status
    (response
       (register Samples.tag_hash (fun k => k) "64b7f0c2a1d3e4f5a6b7c8f3" Saved
          (Some MoreSamples.uploads) MoreSamples.form_asha_again 12
          (out_users
             (register Samples.tag_hash (fun k => k)
                "64b7f0c2a1d3e4f5a6b7c8f2" Saved (Some MoreSamples.uploads)
                MoreSamples.form_asha 0 [MoreSamples.trader_profile]))))
  = 400%Z.
Proof.
  apply (register_again_rejected Samples.tag_hash Samples.tag_hash
           (fun k => k) (fun k => k) "64b7f0c2a1d3e4f5a6b7c8f2"
           "64b7f0c2a1d3e4f5a6b7c8f3" Saved Saved (Some MoreSamples.uploads)
           (Some MoreSamples.uploads) MoreSamples.form_asha
           MoreSamples.form_asha_again 0 12 [MoreSamples.trader_profile]);
    [reflexivity | right; left; reflexivity].
Defined.

End RegistrationExamples.
